(** * The review dashboard client of the invoice redaction pipeline

    A shallow embedding of [invoice_redaction/frontend/app.js] and the
    properties its specification states about it.

    The script is dynamically typed: the report and the upload answers
    are whatever JSON the server sent.  The embedding therefore works
    on JSON values, and every operation that raises a [TypeError] in
    JavaScript raises one here.  The typed records of the data model
    ([ReportEntry], [Detection]) are encoded into JSON values to state
    the properties that speak about well-formed reports.

    Layout: the built-ins of the language the script relies on
    (strings, numbers, plain objects), the page state, the script
    itself, definitions that follow the specification's wording, and
    finally the lemmas and theorems. *)

From Stdlib Require Import ZArith List String Ascii Bool Lia.
From Stdlib Require Import Sorting.Sorted Sorting.Permutation.
Import ListNotations.

Local Open Scope list_scope.
Local Open Scope string_scope.
Local Open Scope Z_scope.

Set Warnings "-register-all".

(* ================================================================= *)
(** ** Strings *)

(** JavaScript strings are modelled by [string].  Non-ASCII text is
    held in its UTF-8 encoding.  The script splits on ["/"] and ["."],
    which are single bytes that occur in no longer sequence, so that
    splitting the bytes is splitting the text.  Lengths are another
    matter: [length] and [padStart] count UTF-16 code units, and
    [codeUnits] reads that count off the encoding. *)

Definition quot : string := String (ascii_of_nat 34) "".
Definition newline : string := String (ascii_of_nat 10) "".

(** [s.split(sep)] for a separator of one character. *)
Fixpoint split (sep : ascii) (s : string) : list string :=
  match s with
  | EmptyString => [EmptyString]
  | String c rest =>
      if Ascii.eqb c sep then EmptyString :: split sep rest
      else match split sep rest with
           | seg :: segs => String c seg :: segs
           | [] => [String c EmptyString]
           end
  end.

(** [a.pop()] as an expression: the last element, [None] standing for
    [undefined] on an empty array. *)
Fixpoint pop {A : Type} (a : list A) : option A :=
  match a with
  | [] => None
  | [x] => Some x
  | _ :: rest => pop rest
  end.

(** [a.slice(0, -1)]. *)
Definition slice_0_m1 {A : Type} (a : list A) : list A := removelast a.

(** [a.join(sep)] on an array of strings. *)
Definition join (sep : string) (a : list string) : string := String.concat sep a.

(** [fill.repeat(n)] cut to [n] characters, as [padStart] builds its
    padding: the filler is repeated and truncated. *)
Fixpoint filler (fill cur : string) (n : nat) : string :=
  match n with
  | O => EmptyString
  | S n' =>
      match cur with
      | String c cur' => String c (filler fill cur' n')
      | EmptyString =>
          match fill with
          | String c fill' => String c (filler fill fill' n')
          | EmptyString => EmptyString
          end
      end
  end.

(** The UTF-16 code units that the sequence led by a byte stands for:
    none for a continuation byte, two (a surrogate pair) for the lead
    byte of a four-byte sequence, one for every other byte. *)
Definition unitsOf (c : ascii) : nat :=
  let n := nat_of_ascii c in
  if (n <? 128)%nat then 1%nat
  else if (n <? 192)%nat then 0%nat
  else if (n <? 240)%nat then 1%nat
  else 2%nat.

(** [s.length]: the number of UTF-16 code units of [s]. *)
Fixpoint codeUnits (s : string) : nat :=
  match s with
  | EmptyString => 0%nat
  | String c rest => (unitsOf c + codeUnits rest)%nat
  end.

(** [s.padStart(maxLength, fill)]; the filler of the script is ["0"],
    one code unit a byte. *)
Definition padStart (maxLength : nat) (fill : string) (s : string) : string :=
  if (maxLength <=? codeUnits s)%nat then s
  else filler fill fill (maxLength - codeUnits s) ++ s.

(* ================================================================= *)
(** ** Numbers *)

(** Decimal digits of a natural integer, most significant first. *)
Definition digit (d : Z) : ascii := ascii_of_nat (48 + Z.to_nat d).

Fixpoint digits_onto (fuel : nat) (n : Z) (acc : string) : string :=
  match fuel with
  | O => acc
  | S fuel' =>
      let acc' := String (digit (n mod 10)) acc in
      if n <? 10 then acc' else digits_onto fuel' (n / 10) acc'
  end.

Definition decimal (n : Z) : string :=
  digits_onto (S (Z.to_nat (Z.log2 n))) n EmptyString.

Fixpoint zeros (n : nat) : string :=
  match n with
  | O => EmptyString
  | S n' => String "0" (zeros n')
  end.

(** The Number value of a natural integer [m]: the nearest double,
    ties to the even significand (53 bits).  A result of [2^1024] or
    more stands for [Infinity]. *)
Definition round_double (m : Z) : Z :=
  let e := Z.log2 m - 52 in
  if e <=? 0 then m
  else
    let q := m / 2 ^ e in
    let r := m mod 2 ^ e in
    let half := 2 ^ (e - 1) in
    let q' := if r <? half then q
              else if half <? r then q + 1
              else if Z.even q then q else q + 1 in
    q' * 2 ^ e.

(** A Number as the script can meet one.  [NInt z] is the Number the
    integer literal [z] denotes, that is the double nearest to [z]
    (the zero of either sign when [z = 0]: the script cannot tell them
    apart).  Any other Number, fractional or infinite, is identified
    with the two renderings the script can observe of it: [String(x)]
    and [x.toFixed(2)]. *)
Inductive Number : Type :=
| NInt (z : Z)
| NOther (str fixed2 : string).

(** The digits [s], their count [k] and the exponent [n] of
    Number::toString (ECMA-262, in the variant of its Note 2 that the
    engines implement): [k] is as small as possible such that
    [s * 10^(n-k)] reads back as [x]; among several [s] the one
    nearest to [x] is taken, the even one on a tie.  [x] is a finite
    double with [1 <= x], and [d] its number of decimal digits. *)
Fixpoint shortest_from (fuel : nat) (x d k : Z) : Z * Z * Z :=
  match fuel with
  | O => (x, d, d)
  | S fuel' =>
      let p := 10 ^ (d - k) in
      let lo := x / p in
      let hi := lo + 1 in
      let okLo := round_double (lo * p) =? x in
      let okHi := (hi <? 10 ^ k) && (round_double (hi * p) =? x) in
      if okLo && okHi then
        if x - lo * p <? hi * p - x then (lo, k, d)
        else if hi * p - x <? x - lo * p then (hi, k, d)
        else if Z.even lo then (lo, k, d) else (hi, k, d)
      else if okLo then (lo, k, d)
      else if okHi then (hi, k, d)
      else if d <=? k then (x, d, d)
      else shortest_from fuel' x d (k + 1)
  end.

Definition shortest (x : Z) : Z * Z * Z :=
  let d := Z.of_nat (String.length (decimal x)) in
  if round_double (10 ^ d) =? x then (1, 1, d + 1)
  else shortest_from 17 x d 1.

(** Number::toString on the digits found: plain digits up to 21 of
    them, exponent notation beyond. *)
Definition render_number (skn : Z * Z * Z) : string :=
  let '(s, k, n) := skn in
  if n <=? 21 then decimal s ++ zeros (Z.to_nat (n - k))
  else
    match decimal s with
    | String c EmptyString => String c ("e+" ++ decimal (n - 1))
    | String c rest => String c ("." ++ rest ++ "e+" ++ decimal (n - 1))
    | EmptyString => EmptyString
    end.

Definition NumberToString (x : Number) : string :=
  match x with
  | NInt z =>
      let m := round_double (Z.abs z) in
      if m =? 0 then "0"
      else (if z <? 0 then "-" else "")
             ++ (if 2 ^ 1024 <=? m then "Infinity" else render_number (shortest m))
  | NOther str _ => str
  end.

(** [x.toFixed(2)]: the exact value with two decimals below [10^21],
    [String(x)] from there on. *)
Definition toFixed2 (x : Number) : string :=
  match x with
  | NInt z =>
      let m := round_double (Z.abs z) in
      if 10 ^ 21 <=? m then NumberToString x
      else (if (z <? 0) && negb (m =? 0) then "-" else "") ++ decimal m ++ ".00"
  | NOther _ fixed2 => fixed2
  end.

(* ================================================================= *)
(** ** Values and exceptions *)

(** The values the script handles: what [JSON.parse] yields, and
    [undefined] for a property that is not there.  An object keeps
    its members in the order of the document; a repeated key is read
    at its last occurrence, as [JSON.parse] leaves it. *)
Inductive value : Type :=
| VUndefined
| VNull
| VBool (b : bool)
| VNum (n : Number)
| VStr (s : string)
| VArr (items : list value)
| VObj (members : list (string * value)).

(** A thrown error object, by its [name] and [message].  The messages
    of the engine's own errors are its own wording; the ones below
    follow V8. *)
Record Error : Type := mkError { name : string; message : string }.

Definition TypeError (msg : string) : Error := mkError "TypeError" msg.

Inductive result (A : Type) : Type :=
| Ok (a : A)
| Throw (e : Error).
Arguments Ok {A} a.
Arguments Throw {A} e.

Definition rbind {A B : Type} (r : result A) (k : A -> result B) : result B :=
  match r with
  | Ok a => k a
  | Throw e => Throw e
  end.

Fixpoint getOwn (key : string) (members : list (string * value)) : option value :=
  match members with
  | [] => None
  | (k, v) :: rest =>
      match getOwn key rest with
      | Some v' => Some v'
      | None => if String.eqb k key then Some v else None
      end
  end.

(** [v.key] for a key that no built-in prototype defines (every
    property the script reads but [length] is of that kind). *)
Definition get (v : value) (key : string) : result value :=
  match v with
  | VUndefined =>
      Throw (TypeError ("Cannot read properties of undefined (reading '" ++ key ++ "')"))
  | VNull =>
      Throw (TypeError ("Cannot read properties of null (reading '" ++ key ++ "')"))
  | VObj members =>
      match getOwn key members with
      | Some v' => Ok v'
      | None => Ok VUndefined
      end
  | _ => Ok VUndefined
  end.

(** [v.length]: the length of a string or of an array, an own member
    of that name on an object, [undefined] on the other primitives. *)
Definition lengthOf (v : value) : result value :=
  match v with
  | VStr s => Ok (VNum (NInt (Z.of_nat (codeUnits s))))
  | VArr items => Ok (VNum (NInt (Z.of_nat (List.length items))))
  | _ => get v "length"
  end.

(** ToBoolean. *)
Definition truthy (v : value) : bool :=
  match v with
  | VUndefined | VNull => false
  | VBool b => b
  | VNum (NInt z) => negb (z =? 0)
  | VNum (NOther _ _) => true
  | VStr s => negb (String.eqb s "")
  | VArr _ | VObj _ => true
  end.

(** ToString.  An array is joined with commas, [null] and [undefined]
    elements left empty.  A plain object answers ["[object Object]"]
    through the inherited [toString], unless an own member of that
    name (never callable in JSON) hides it: then the conversion finds
    no primitive and throws. *)
Fixpoint ToString (v : value) : result string :=
  match v with
  | VUndefined => Ok "undefined"
  | VNull => Ok "null"
  | VBool true => Ok "true"
  | VBool false => Ok "false"
  | VNum n => Ok (NumberToString n)
  | VStr s => Ok s
  | VArr items =>
      let element (x : value) : result string :=
        match x with
        | VUndefined | VNull => Ok ""
        | _ => ToString x
        end in
      (fix join_items (l : list value) : result string :=
         match l with
         | [] => Ok ""
         | [x] => element x
         | x :: rest =>
             rbind (element x) (fun e =>
             rbind (join_items rest) (fun r => Ok (e ++ "," ++ r)))
         end) items
  | VObj members =>
      match getOwn "toString" members with
      | Some _ => Throw (TypeError "Cannot convert object to primitive value")
      | None => Ok "[object Object]"
      end
  end.

(** The receiver of an array method ([map], [flatMap], [forEach],
    [reduce]): anything but an array has no such method. *)
Definition asArray (v : value) (method : string) : result (list value) :=
  match v with
  | VArr items => Ok items
  | VUndefined | VNull => rbind (get v method) (fun _ => Ok [])
  | _ => Throw (TypeError (method ++ " is not a function"))
  end.

(** [v.split(sep)]: only strings have the method. *)
Definition callSplit (v : value) (sep : ascii) : result (list string) :=
  match v with
  | VStr s => Ok (split sep s)
  | VUndefined | VNull => rbind (get v "split") (fun _ => Ok [])
  | _ => Throw (TypeError "split is not a function")
  end.

(** [v.toFixed(2)]: only numbers have the method. *)
Definition callToFixed2 (v : value) : result string :=
  match v with
  | VNum n => Ok (toFixed2 n)
  | VUndefined | VNull => rbind (get v "toFixed") (fun _ => Ok "")
  | _ => Throw (TypeError "toFixed is not a function")
  end.

(* ================================================================= *)
(** ** The plain object that holds the counts *)

(** [renderSummary] counts in an object created by [{}].  Its own
    properties are only what the script assigns: Numbers and, after a
    clash with an inherited name, strings. *)
Inductive CountValue : Type :=
| CNum (c : Z)
| CStr (s : string).

Definition CountObject : Type := list (string * CountValue).

(** The function-valued properties of [Object.prototype], each with
    the name of the function it holds. *)
Definition objectPrototypeFunctions : list (string * string) :=
  [ ("constructor", "Object");
    ("__defineGetter__", "__defineGetter__");
    ("__defineSetter__", "__defineSetter__");
    ("hasOwnProperty", "hasOwnProperty");
    ("__lookupGetter__", "__lookupGetter__");
    ("__lookupSetter__", "__lookupSetter__");
    ("isPrototypeOf", "isPrototypeOf");
    ("propertyIsEnumerable", "propertyIsEnumerable");
    ("toString", "toString");
    ("valueOf", "valueOf");
    ("toLocaleString", "toLocaleString") ].

(** [String(f)] of a built-in function: the text is the engine's,
    this is the one V8 and JavaScriptCore print. *)
Definition nativeSource (fname : string) : string :=
  "function " ++ fname ++ "() { [native code] }".

Fixpoint assoc {A : Type} (key : string) (l : list (string * A)) : option A :=
  match l with
  | [] => None
  | (k, v) :: rest => if String.eqb k key then Some v else assoc key rest
  end.

(** What [acc[key]] finds: an own property, or what the prototype
    chain answers, or nothing. *)
Inductive Lookup : Type :=
| Own (v : CountValue)
| InheritedFunction (fname : string)
| InheritedProto
| Absent.

Definition getCount (acc : CountObject) (key : string) : Lookup :=
  match assoc key acc with
  | Some v => Own v
  | None =>
      if String.eqb key "__proto__" then InheritedProto
      else match assoc key objectPrototypeFunctions with
           | Some fname => InheritedFunction fname
           | None => Absent
           end
  end.

(** [(x || 0) + 1].  A function or the prototype object is truthy and
    turns into its text, so [+] concatenates. *)
Definition orZeroPlusOne (x : Lookup) : CountValue :=
  match x with
  | Absent => CNum 1
  | Own (CNum c) => if c =? 0 then CNum 1 else CNum (round_double (c + 1))
  | Own (CStr s) => if String.eqb s "" then CNum 1 else CStr (s ++ "1")
  | InheritedFunction fname => CStr (nativeSource fname ++ "1")
  | InheritedProto => CStr ("[object Object]" ++ "1")
  end.

Fixpoint updateOrAppend (key : string) (v : CountValue) (acc : CountObject) : CountObject :=
  match acc with
  | [] => [(key, v)]
  | (k, v0) :: rest =>
      if String.eqb k key then (k, v) :: rest
      else (k, v0) :: updateOrAppend key v rest
  end.

(** [acc[key] = v] for a Number or a string [v].  The setter of
    [__proto__] ignores such a value; any other key becomes (or stays)
    an own property, new ones after the existing ones. *)
Definition setCount (acc : CountObject) (key : string) (v : CountValue) : CountObject :=
  if String.eqb key "__proto__" then acc else updateOrAppend key v acc.

(** Array indices: canonical decimal strings up to [2^32 - 2]. *)
Fixpoint parse_digits (s : string) (acc : Z) : option Z :=
  match s with
  | EmptyString => Some acc
  | String c rest =>
      let n := Z.of_nat (nat_of_ascii c) in
      if (48 <=? n) && (n <=? 57) then parse_digits rest (10 * acc + (n - 48))
      else None
  end.

Definition arrayIndex (key : string) : option Z :=
  match key with
  | EmptyString => None
  | _ =>
      match parse_digits key 0 with
      | Some n => if String.eqb (decimal n) key && (n <=? 4294967294) then Some n else None
      | None => None
      end
  end.

Fixpoint insertIndexed {A : Type} (i : Z) (x : A) (l : list (Z * A)) : list (Z * A) :=
  match l with
  | [] => [(i, x)]
  | (j, y) :: rest =>
      if i <? j then (i, x) :: (j, y) :: rest
      else (j, y) :: insertIndexed i x rest
  end.

Fixpoint indexedEntries (acc : CountObject) : list (Z * (string * CountValue)) :=
  match acc with
  | [] => []
  | (k, v) :: rest =>
      match arrayIndex k with
      | Some i => insertIndexed i (k, v) (indexedEntries rest)
      | None => indexedEntries rest
      end
  end.

Definition namedEntries (acc : CountObject) : CountObject :=
  filter (fun kv => match arrayIndex (fst kv) with Some _ => false | None => true end) acc.

(** [Object.entries(acc)]: the array-index keys in ascending numeric
    order, then the other keys in the order of their creation. *)
Definition ObjectEntries (acc : CountObject) : CountObject :=
  (map snd (indexedEntries acc) ++ namedEntries acc)%list.

Definition CountToString (v : CountValue) : string :=
  match v with
  | CNum c => NumberToString (NInt c)
  | CStr s => s
  end.

(* ================================================================= *)
(** ** The page *)

(** An element the script creates, with what it sets on it. *)
Inductive ElementContent : Type :=
| InnerHTML (html : string)
| TextContent (text : string).

Record Element : Type :=
  { tagName : string; className : string; content : ElementContent }.

(** A region of the page: the markup last assigned to its
    [innerHTML] and the elements appended since. *)
Record Region : Type := { markup : string; appended : list Element }.

Definition setInnerHTML (html : string) : Region :=
  {| markup := html; appended := [] |}.

Definition appendChild (r : Region) (e : Element) : Region :=
  {| markup := markup r; appended := (appended r ++ [e])%list |}.

Record File : Type := { fileName : string; bytes : list Byte.byte }.

Record Request : Type :=
  { url : string; method : string; cache : option string; formFile : option File }.

(** What the script can touch: the three regions, the text of the
    status line, the files selected in the file input, and the
    requests sent so far. *)
Record World : Type :=
  { gallery : Region;
    detectionsBody : Region;
    summary : Region;
    uploadStatus : string;
    fileInput : list File;
    requests : list Request }.

(** What a request comes to.  [fetch] rejects, or a response arrives
    with its status and a body that [response.json()] parses or
    rejects. *)
Inductive Body : Type :=
| NotJson (e : Error)
| Json (v : value).

Inductive FetchOutcome : Type :=
| Rejected (e : Error)
| Responded (status : nat) (body : Body).

(** The network: the outcome of a request, given the ones before. *)
Definition Network : Type := list Request -> Request -> FetchOutcome.

(** Computations of the script: they change the page and may throw;
    the page keeps what was done before the throw. *)
Definition M (A : Type) : Type := World -> result A * World.

Definition ret {A : Type} (a : A) : M A := fun w => (Ok a, w).

Definition throw {A : Type} (e : Error) : M A := fun w => (Throw e, w).

Definition bind {A B : Type} (m : M A) (k : A -> M B) : M B :=
  fun w =>
    match m w with
    | (Ok a, w') => k a w'
    | (Throw e, w') => (Throw e, w')
    end.

Definition lift {A : Type} (r : result A) : M A := fun w => (r, w).

Definition tryCatch {A : Type} (body : M A) (handler : Error -> M A) : M A :=
  fun w =>
    match body w with
    | (Ok a, w') => (Ok a, w')
    | (Throw e, w') => handler e w'
    end.

Definition modify (f : World -> World) : M unit := fun w => (Ok tt, f w).

Definition exec {A : Type} (m : M A) (w : World) : World := snd (m w).

Notation "x <- m ;; k" := (bind m (fun x => k))
  (at level 61, m at next level, right associativity).
Notation "m ;;; k" := (bind m (fun _ => k))
  (at level 61, right associativity).
Notation "x <~ r ;; k" := (rbind r (fun x => k))
  (at level 61, r at next level, right associativity).

Fixpoint forEach {A : Type} (f : A -> M unit) (l : list A) : M unit :=
  match l with
  | [] => ret tt
  | x :: rest => f x ;;; forEach f rest
  end.

Fixpoint mapR {A B : Type} (f : A -> result B) (l : list A) : result (list B) :=
  match l with
  | [] => Ok []
  | x :: rest => y <~ f x ;; ys <~ mapR f rest ;; Ok (y :: ys)
  end.

Definition withGallery (r : Region) (w : World) : World :=
  {| gallery := r; detectionsBody := detectionsBody w; summary := summary w;
     uploadStatus := uploadStatus w; fileInput := fileInput w;
     requests := requests w |}.

Definition withDetectionsBody (r : Region) (w : World) : World :=
  {| gallery := gallery w; detectionsBody := r; summary := summary w;
     uploadStatus := uploadStatus w; fileInput := fileInput w;
     requests := requests w |}.

Definition withSummary (r : Region) (w : World) : World :=
  {| gallery := gallery w; detectionsBody := detectionsBody w; summary := r;
     uploadStatus := uploadStatus w; fileInput := fileInput w;
     requests := requests w |}.

Definition withUploadStatus (text : string) (w : World) : World :=
  {| gallery := gallery w; detectionsBody := detectionsBody w;
     summary := summary w; uploadStatus := text; fileInput := fileInput w;
     requests := requests w |}.

Definition withFileInput (fs : list File) (w : World) : World :=
  {| gallery := gallery w; detectionsBody := detectionsBody w;
     summary := summary w; uploadStatus := uploadStatus w; fileInput := fs;
     requests := requests w |}.

Definition withRequests (rs : list Request) (w : World) : World :=
  {| gallery := gallery w; detectionsBody := detectionsBody w;
     summary := summary w; uploadStatus := uploadStatus w;
     fileInput := fileInput w; requests := rs |}.

(** [fetch]: the request is recorded and the network answers. *)
Definition fetch (net : Network) (req : Request) : M FetchOutcome :=
  fun w =>
    (Ok (net (requests w) req), withRequests (requests w ++ [req])%list w).

(** [response.ok]. *)
Definition responseOk (status : nat) : bool :=
  ((200 <=? status) && (status <=? 299))%nat.

Definition awaitFetch (net : Network) (req : Request) : M (nat * Body) :=
  out <- fetch net req ;;
  match out with
  | Rejected e => throw e
  | Responded status body => ret (status, body)
  end.

(** [await response.json()]. *)
Definition responseJson (body : Body) : M value :=
  match body with
  | NotJson e => throw e
  | Json v => ret v
  end.

(* ================================================================= *)
(** ** The script *)

Definition REPORT_PATH : string := "/api/report".
Definition UPLOAD_PATH : string := "/api/upload".
Definition IMAGE_ROOT : string := "/out/redacted_images".

Definition spaces (n : nat) : string := filler " " " " n.

(** The markup literals of the script. *)
Definition emptyParagraph (text : string) : string :=
  "<p class=" ++ quot ++ "empty" ++ quot ++ ">" ++ text ++ "</p>".

Definition emptyRow (text : string) : string :=
  "<tr><td colspan=" ++ quot ++ "6" ++ quot ++ " class=" ++ quot ++ "empty" ++ quot
    ++ ">" ++ text ++ "</td></tr>".

Definition NO_PAGES : string := emptyParagraph "No redacted pages found.".
Definition NO_DETECTIONS : string := emptyRow "No detections in report.".
Definition LOADING_PAGES : string := emptyParagraph "Loading redacted pages…".
Definition LOADING_DETECTIONS : string := emptyRow "Loading detections…".
Definition UNABLE_TO_LOAD : string :=
  emptyParagraph "Unable to load report. Upload invoices to start.".
Definition NOT_AVAILABLE : string := emptyRow "Report not available.".

(** [const formatPage = (page) => String(page).padStart(3, "0")] *)
Definition formatPage (page : value) : result string :=
  s <~ ToString page ;;
  Ok (padStart 3 "0" s).

Definition popValue (a : list string) : value :=
  match pop a with
  | Some s => VStr s
  | None => VUndefined
  end.

(** [buildImagePath (filePath, page)] *)
Definition buildImagePath (filePath page : value) : result string :=
  segments <~ callSplit filePath "/" ;;
  parts <~ callSplit (popValue segments) "." ;;
  let stem := join "." (slice_0_m1 parts) in
  p <~ formatPage page ;;
  Ok (IMAGE_ROOT ++ "/" ++ stem ++ "_" ++ p ++ ".png").

(** The template of a card; [label] is interpolated twice. *)
Definition cardHTML (imagePath alt heading : string) : string :=
  newline ++ spaces 6 ++ "<img src=" ++ quot ++ imagePath ++ quot
    ++ " alt=" ++ quot ++ alt ++ quot
    ++ " loading=" ++ quot ++ "lazy" ++ quot ++ " />"
    ++ newline ++ spaces 6 ++ "<h3>" ++ heading ++ "</h3>"
    ++ newline ++ spaces 4.

(** The callback of [pages.forEach] in [renderGallery]. *)
Definition appendCard (page : value) : M unit :=
  src <- lift (v <~ get page "imagePath" ;; ToString v) ;;
  alt <- lift (v <~ get page "label" ;; ToString v) ;;
  heading <- lift (v <~ get page "label" ;; ToString v) ;;
  let card := {| tagName := "div"; className := "card";
                 content := InnerHTML (cardHTML src alt heading) |} in
  modify (fun w => withGallery (appendChild (gallery w) card) w).

(** [renderGallery (pages)] *)
Definition renderGallery (pages : value) : M unit :=
  modify (withGallery (setInnerHTML "")) ;;;
  len <- lift (lengthOf pages) ;;
  if negb (truthy len) then modify (withGallery (setInnerHTML NO_PAGES))
  else
    items <- lift (asArray pages "forEach") ;;
    forEach appendCard items.

(** The reducer of [renderSummary]:
    [acc[detection.type] = (acc[detection.type] || 0) + 1]. *)
Definition countDetection (acc : CountObject) (detection : value) : result CountObject :=
  key <~ (t <~ get detection "type" ;; ToString t) ;;
  Ok (setCount acc key (orZeroPlusOne (getCount acc key))).

Fixpoint reduce {A B : Type} (f : B -> A -> result B) (l : list A) (init : B) : result B :=
  match l with
  | [] => Ok init
  | x :: rest => acc <~ f init x ;; reduce f rest acc
  end.

Definition pill (entry : string * CountValue) : Element :=
  {| tagName := "div"; className := "pill";
     content := TextContent (fst entry ++ ": " ++ CountToString (snd entry)) |}.

(** The callback of [Object.entries(counts).forEach]. *)
Definition appendPill (entry : string * CountValue) : M unit :=
  modify (fun w => withSummary (appendChild (summary w) (pill entry)) w).

(** [renderSummary (detections)] *)
Definition renderSummary (detections : value) : M unit :=
  modify (withSummary (setInnerHTML "")) ;;;
  len <- lift (lengthOf detections) ;;
  if negb (truthy len) then ret tt
  else
    items <- lift (asArray detections "reduce") ;;
    counts <- lift (reduce countDetection items []) ;;
    forEach appendPill (ObjectEntries counts).

Definition rowHTML (file page language type text_sample confidence : string) : string :=
  newline ++ spaces 8 ++ "<td>" ++ file ++ "</td>"
    ++ newline ++ spaces 8 ++ "<td>" ++ page ++ "</td>"
    ++ newline ++ spaces 8 ++ "<td>" ++ language ++ "</td>"
    ++ newline ++ spaces 8 ++ "<td>" ++ type ++ "</td>"
    ++ newline ++ spaces 8 ++ "<td>" ++ text_sample ++ "</td>"
    ++ newline ++ spaces 8 ++ "<td>" ++ confidence ++ "</td>"
    ++ newline ++ spaces 6.

(** The row of one detection of one entry, as the template builds it. *)
Definition detectionRow (entry detection : value) : result Element :=
  file <~ (v <~ get entry "file" ;; ToString v) ;;
  page <~ (v <~ get entry "page" ;; ToString v) ;;
  language <~ (v <~ get entry "language" ;; ToString v) ;;
  type <~ (v <~ get detection "type" ;; ToString v) ;;
  text_sample <~ (v <~ get detection "text_sample" ;; ToString v) ;;
  confidence <~ (v <~ get detection "confidence" ;; callToFixed2 v) ;;
  Ok {| tagName := "tr"; className := "";
        content := InnerHTML (rowHTML file page language type text_sample confidence) |}.

(** The callback of [entry.detections.forEach]. *)
Definition appendRow (entry detection : value) : M unit :=
  row <- lift (detectionRow entry detection) ;;
  modify (fun w => withDetectionsBody (appendChild (detectionsBody w) row) w).

(** The callback of [entries.forEach] in [renderDetections]. *)
Definition appendRows (entry : value) : M unit :=
  dlen <- lift (d <~ get entry "detections" ;; lengthOf d) ;;
  if negb (truthy dlen) then ret tt
  else
    detections <- lift (d <~ get entry "detections" ;; asArray d "forEach") ;;
    forEach (appendRow entry) detections.

(** [if (!detectionsBody.children.length) ...]: the region was
    cleared above, so its children are the rows appended since. *)
Definition placeholderIfNoRows : M unit :=
  fun w =>
    match appended (detectionsBody w) with
    | [] => modify (withDetectionsBody (setInnerHTML NO_DETECTIONS)) w
    | _ :: _ => ret tt w
    end.

(** [renderDetections (entries)] *)
Definition renderDetections (entries : value) : M unit :=
  modify (withDetectionsBody (setInnerHTML "")) ;;;
  len <- lift (lengthOf entries) ;;
  if negb (truthy len) then modify (withDetectionsBody (setInnerHTML NO_DETECTIONS))
  else
    items <- lift (asArray entries "forEach") ;;
    forEach appendRows items ;;;
    placeholderIfNoRows.

(** The callback of [entries.map] in [loadReport]. *)
Definition toPage (entry : value) : result value :=
  explicit <~ get entry "image_path" ;;
  imagePath <~ (if truthy explicit then Ok explicit
                else file <~ get entry "file" ;;
                     page <~ get entry "page" ;;
                     path <~ buildImagePath file page ;;
                     Ok (VStr path)) ;;
  segments <~ (file <~ get entry "file" ;; callSplit file "/") ;;
  fileName <~ ToString (popValue segments) ;;
  page <~ (v <~ get entry "page" ;; ToString v) ;;
  Ok (VObj [("imagePath", imagePath); ("label", VStr (fileName ++ " · Page " ++ page))]).

(** The callback of [entries.flatMap]: an array is spread, anything
    else is kept as one element. *)
Definition flatMapDetections (entries : list value) : result (list value) :=
  chunks <~ mapR (fun entry =>
               d <~ get entry "detections" ;;
               Ok match d with
                  | VArr items => items
                  | other => [other]
                  end) entries ;;
  Ok (List.concat chunks).

Definition reportRequest : Request :=
  {| url := REPORT_PATH; method := "GET"; cache := Some "no-store"; formFile := None |}.

(** The placeholders [loadReport] paints before it fetches. *)
Definition paintLoading : M unit :=
  modify (withGallery (setInnerHTML LOADING_PAGES)) ;;;
  modify (withDetectionsBody (setInnerHTML LOADING_DETECTIONS)) ;;;
  modify (withSummary (setInnerHTML "")).

(** The [try] block of [loadReport]. *)
Definition fetchAndRender (net : Network) : M unit :=
  response <- awaitFetch net reportRequest ;;
  (if negb (responseOk (fst response))
   then throw (mkError "Error" "Report not found")
   else ret tt) ;;;
  entries <- responseJson (snd response) ;;
  pages <- lift (items <~ asArray entries "map" ;; mapR toPage items) ;;
  renderGallery (VArr pages) ;;;
  renderDetections entries ;;;
  allDetections <- lift (items <~ asArray entries "flatMap" ;;
                         flatMapDetections items) ;;
  renderSummary (VArr allDetections).

(** Its [catch] block. *)
Definition paintUnavailable : M unit :=
  modify (withGallery (setInnerHTML UNABLE_TO_LOAD)) ;;;
  modify (withDetectionsBody (setInnerHTML NOT_AVAILABLE)).

(** [loadReport] *)
Definition loadReport (net : Network) : M unit :=
  paintLoading ;;;
  tryCatch (fetchAndRender net) (fun error => paintUnavailable).

Definition uploadRequest (file : File) : Request :=
  {| url := UPLOAD_PATH; method := "POST"; cache := None; formFile := Some file |}.

(** The [submit] handler of the upload form. *)
Definition onSubmit (net : Network) : M unit :=
  fun w =>
    match fileInput w with
    | [] => modify (withUploadStatus "Please select a file to upload.") w
    | file :: _ =>
        (modify (withUploadStatus "Uploading and processing…") ;;;
         tryCatch
           (response <- awaitFetch net (uploadRequest file) ;;
            (if negb (responseOk (fst response))
             then data <- responseJson (snd response) ;;
                  msg <- lift (e <~ get data "error" ;;
                               ToString (if truthy e then e else VStr "Upload failed")) ;;
                  throw (mkError "Error" msg)
             else ret tt) ;;;
            data <- responseJson (snd response) ;;
            pages <- lift (p <~ get data "pages" ;; ToString p) ;;
            modify (withUploadStatus ("Processed " ++ pages ++ " page(s).")) ;;;
            modify (withFileInput []) ;;;
            loadReport net)
           (fun error => modify (withUploadStatus ("Error: " ++ message error)))) w
    end.

(** The [click] handler of the refresh button, and the call that ends
    the script. *)
Definition onRefresh (net : Network) : M unit := loadReport net.

(* ================================================================= *)
(** ** The data model of a well-formed report *)

Record Detection : Type :=
  { type : string; text_sample : string; confidence : Number }.

Record ReportEntry : Type :=
  { file : string;
    page : Z;
    language : string;
    image_path : option string;
    detections : list Detection }.

(** The JSON the server sends for them. *)
Definition jsonDetection (d : Detection) : value :=
  VObj [ ("type", VStr (type d));
         ("text_sample", VStr (text_sample d));
         ("confidence", VNum (confidence d)) ].

Definition jsonEntry (e : ReportEntry) : value :=
  VObj ([ ("file", VStr (file e));
          ("page", VNum (NInt (page e)));
          ("language", VStr (language e)) ]
        ++ match image_path e with
           | Some p => [("image_path", VStr p)]
           | None => []
           end
        ++ [ ("detections", VArr (map jsonDetection (detections e))) ])%list.

Definition jsonReport (entries : list ReportEntry) : value :=
  VArr (map jsonEntry entries).

(** All the detections of a report, in the order of the report. *)
Definition allDetections (entries : list ReportEntry) : list Detection :=
  flat_map detections entries.

(** A network that answers every request with the same outcome. *)
Definition always (out : FetchOutcome) : Network := fun _ _ => out.

(** The server at work: [GET /api/report] answers 200 with the report. *)
Definition serving (entries : list ReportEntry) : Network :=
  always (Responded 200 (Json (jsonReport entries))).

Definition blankRegion : Region := setInnerHTML "".

(** The page as the markup delivers it, with some files selected. *)
Definition initialWorld (selected : list File) : World :=
  {| gallery := blankRegion; detectionsBody := blankRegion; summary := blankRegion;
     uploadStatus := ""; fileInput := selected; requests := [] |}.

(* ================================================================= *)
(** ** The specification's wording *)

(** These definitions follow the sentences of the specification, not
    the script; the theorems compare the two. *)

Fixpoint contains (c : ascii) (s : string) : bool :=
  match s with
  | EmptyString => false
  | String a rest => Ascii.eqb a c || contains c rest
  end.

(** The text after the last [c] (the whole text when there is none). *)
Fixpoint afterLast (c : ascii) (s : string) : string :=
  match s with
  | EmptyString => EmptyString
  | String a rest =>
      if contains c rest then afterLast c rest
      else if Ascii.eqb a c then rest else s
  end.

(** The text before the last [c] of a text that contains one. *)
Fixpoint beforeLast (c : ascii) (s : string) : string :=
  match s with
  | EmptyString => EmptyString
  | String a rest =>
      if contains c rest then String a (beforeLast c rest) else EmptyString
  end.

(** "the final path segment of [filePath] (text after the last [/])" *)
Definition finalSegment (filePath : string) : string := afterLast "/" filePath.

(** "strip exactly the final extension (text after the last [.] in
    that segment, if any [.] exists)" *)
Definition specStem (filePath : string) : string :=
  let segment := finalSegment filePath in
  if contains "." segment then beforeLast "." segment else segment.

(** "zero-pad [page] to 3 digits" *)
Definition threeDigits (page : Z) : string :=
  String (digit (page / 100))
    (String (digit (page / 10 mod 10))
       (String (digit (page mod 10)) EmptyString)).

(** "concatenate as [<imageRoot>/<stem>_<paddedPage>.png]" *)
Definition specDerive (filePath : string) (page : Z) : string :=
  IMAGE_ROOT ++ "/" ++ specStem filePath ++ "_" ++ threeDigits page ++ ".png".

(** "insertion order = first-seen order in the flattened detection
    stream": the types of a stream, each at its first occurrence. *)
Fixpoint firstSeen (types : list string) : list string :=
  match types with
  | [] => []
  | t :: rest => t :: filter (fun u => negb (String.eqb u t)) (firstSeen rest)
  end.

(** The number of detections of a type in a stream. *)
Fixpoint occurrences (t : string) (types : list string) : Z :=
  match types with
  | [] => 0
  | u :: rest => (if String.eqb u t then 1 else 0) + occurrences t rest
  end.

(** "mapping from detection type to occurrence count, insertion order
    = first-seen order": the types of a stream in first-seen order,
    each with its number of occurrences. *)
Definition specCounts (types : list string) : CountObject :=
  map (fun t => (t, CNum (occurrences t types))) (firstSeen types).

(** The pill the summary shows for a type and its count:
    ["<type>: <count>"]. *)
Definition specPill (t : string) (count : Z) : Element :=
  {| tagName := "div"; className := "pill";
     content := TextContent (t ++ ": " ++ decimal count) |}.

(** "sum(counts.values())", for counts that are Numbers. *)
Fixpoint sumCounts (counts : CountObject) : option Z :=
  match counts with
  | [] => Some 0
  | (_, CNum c) :: rest =>
      match sumCounts rest with
      | Some s => Some (c + s)
      | None => None
      end
  | (_, CStr _) :: _ => None
  end.

Definition mem (t : string) (l : list string) : bool := existsb (String.eqb t) l.

(** Whether a key is an array index, and which. *)
Definition isIndex (kv : string * CountValue) : bool :=
  match arrayIndex (fst kv) with
  | Some _ => true
  | None => false
  end.

Definition indexOf (kv : string * CountValue) : Z :=
  match arrayIndex (fst kv) with
  | Some i => i
  | None => -1
  end.

(** The names a plain object inherits from [Object.prototype]. *)
Definition inheritedName (key : string) : bool :=
  match getCount [] key with
  | Absent => false
  | _ => true
  end.

(** The largest length of an array. *)
Definition MAX_ARRAY_LENGTH : Z := 4294967295.

(** [Number.MAX_SAFE_INTEGER] *)
Definition MAX_SAFE_INTEGER : Z := 2 ^ 53 - 1.

(** The Error state of Report Loader, as the page shows it. *)
Definition ErrorState (w : World) : Prop :=
  gallery w = setInnerHTML UNABLE_TO_LOAD
  /\ detectionsBody w = setInnerHTML NOT_AVAILABLE
  /\ summary w = setInnerHTML "".

(** A retrieval attempt fails when its [try] block throws. *)
Definition loadFails (net : Network) (w : World) : Prop :=
  exists e, fst (fetchAndRender net (exec paintLoading w)) = Throw e.

(** The report view: the three regions. *)
Definition reportView (w : World) : Region * Region * Region :=
  (gallery w, detectionsBody w, summary w).

(* ================================================================= *)
(** ** The view of a well-formed report *)

(** What the page is to show for a report of the data model: the card
    of an entry, the rows of its detections, and whole regions. *)

Definition derivedPath (e : ReportEntry) : string :=
  IMAGE_ROOT ++ "/" ++ beforeLast "." (finalSegment (file e)) ++ "_"
    ++ padStart 3 "0" (NumberToString (NInt (page e))) ++ ".png".

(** The explicit image location when there is a non-empty one, the
    derived one otherwise. *)
Definition imagePathOf (e : ReportEntry) : string :=
  match image_path e with
  | Some p => if String.eqb p "" then derivedPath e else p
  | None => derivedPath e
  end.

Definition labelOf (e : ReportEntry) : string :=
  finalSegment (file e) ++ " · Page " ++ NumberToString (NInt (page e)).

(** The GalleryCard of an entry, as a script object. *)
Definition pageOf (e : ReportEntry) : value :=
  VObj [("imagePath", VStr (imagePathOf e)); ("label", VStr (labelOf e))].

Definition cardOf (e : ReportEntry) : Element :=
  {| tagName := "div"; className := "card";
     content := InnerHTML (cardHTML (imagePathOf e) (labelOf e) (labelOf e)) |}.

Definition rowOf (e : ReportEntry) (d : Detection) : Element :=
  {| tagName := "tr"; className := "";
     content := InnerHTML (rowHTML (file e) (NumberToString (NInt (page e)))
                             (language e) (type d) (text_sample d)
                             (toFixed2 (confidence d))) |}.

Definition rowsOf (e : ReportEntry) : list Element := map (rowOf e) (detections e).

(** A region with more elements appended. *)
Definition appendAll (r : Region) (es : list Element) : Region :=
  {| markup := markup r; appended := (appended r ++ es)%list |}.

Definition galleryOf (entries : list ReportEntry) : Region :=
  match entries with
  | [] => setInnerHTML NO_PAGES
  | _ :: _ => appendAll blankRegion (map cardOf entries)
  end.

Definition detectionsOf (entries : list ReportEntry) : Region :=
  match flat_map rowsOf entries with
  | [] => setInnerHTML NO_DETECTIONS
  | rows => appendAll blankRegion rows
  end.

(** The reducer of [renderSummary] on the type of a detection, and the
    counts it leaves after a stream of types. *)
Definition countType (acc : CountObject) (t : string) : CountObject :=
  setCount acc t (orZeroPlusOne (getCount acc t)).

Definition countTypes (types : list string) : CountObject :=
  fold_left countType types [].

Definition summaryOf (ds : list Detection) : Region :=
  appendAll blankRegion (map pill (ObjectEntries (countTypes (map type ds)))).

(* ================================================================= *)
(** ** The upload, step by step *)

Definition UPLOADING : string := "Uploading and processing…".

(** The page once the upload request is out. *)
Definition uploadSent (file : File) (w : World) : World :=
  withRequests (requests w ++ [uploadRequest file])%list (withUploadStatus UPLOADING w).

(** The [message] of the error the handler ends up catching when the
    status is not a success: the parser's when the body is not JSON,
    the engine's when reading or converting [data.error] throws, else
    [data.error] or the fallback. *)
Definition uploadErrorMessage (body : Body) : string :=
  match body with
  | NotJson e => message e
  | Json data =>
      match (e <~ get data "error" ;;
             ToString (if truthy e then e else VStr "Upload failed")) with
      | Ok msg => msg
      | Throw e => message e
      end
  end.

(** The page when the handler calls [loadReport] after a success. *)
Definition uploadProcessed (file : File) (pages : string) (w : World) : World :=
  withFileInput [] (withUploadStatus ("Processed " ++ pages ++ " page(s).")
                      (uploadSent file w)).

(* ================================================================= *)
(** ** Footprints *)

(** [preserves f m]: running [m] never changes the part [f] of the
    page, whether [m] returns or throws. *)
Definition preserves {A F : Type} (f : World -> F) (m : M A) : Prop :=
  forall w, f (snd (m w)) = f w.

(** [throwsClear m]: from a cleared summary, a throw of [m] leaves the
    summary cleared. *)
Definition throwsClear {A : Type} (m : M A) : Prop :=
  forall w e w', summary w = blankRegion -> m w = (Throw e, w') ->
                 summary w' = blankRegion.


(** [commutes g m]: [m] neither reads nor writes what [g] changes, so
    [g] may as well be done after [m] as before it. *)
Definition commutes {A : Type} (g : World -> World) (m : M A) : Prop :=
  forall w, m (g w) = (fst (m w), g (snd (m w))).


(** The text the handler interpolates for [data.pages] after a
    success status, or what is thrown on the way to it. *)
Definition pagesText (body : Body) : result string :=
  match body with
  | NotJson e => Throw e
  | Json data => p <~ get data "pages" ;; ToString p
  end.


(** Two pages that show the same report. *)
Definition sameView (w w' : World) : Prop := reportView w = reportView w'.

(** [viewOnly m]: of the page, [m] reads the report view at most, so
    from two pages with the same view it ends the same way and leaves
    the same view. *)
Definition viewOnly {A : Type} (m : M A) : Prop :=
  forall w w', sameView w w' ->
               fst (m w) = fst (m w') /\ sameView (snd (m w)) (snd (m w')).


(** [throwsAt m w]: run from [w], [m] throws. *)
Definition throwsAt {A : Type} (m : M A) (w : World) : Prop :=
  exists e, fst (m w) = Throw e.

(* ================================================================= *)
(** * Properties *)

(** ** Splitting and joining *)

Lemma split_not_nil (c : ascii) (s : string) : split c s <> [].
Proof.
  destruct s as [|a rest]; simpl; [discriminate|].
  destruct (Ascii.eqb a c); [discriminate|].
  destruct (split c rest); discriminate.
Qed.

Lemma split_without (c : ascii) (s : string) :
  contains c s = false -> split c s = [s].
Proof.
  induction s as [|a rest IH]; simpl; intros H; [reflexivity|].
  apply orb_false_iff in H as [Ha Hrest].
  rewrite Ha, (IH Hrest). reflexivity.
Qed.

Lemma split_with (c : ascii) (s : string) :
  contains c s = true -> exists x y zs, split c s = x :: y :: zs.
Proof.
  induction s as [|a rest IH]; simpl; intros H; [discriminate|].
  destruct (Ascii.eqb a c) eqn:Ha.
  - destruct (split c rest) as [|y zs] eqn:E.
    + destruct (split_not_nil _ _ E).
    + eauto.
  - simpl in H. destruct (IH H) as (x & y & zs & E).
    rewrite E. eauto.
Qed.

Lemma afterLast_without (c : ascii) (s : string) :
  contains c s = false -> afterLast c s = s.
Proof.
  destruct s as [|a rest]; simpl; intros H; [reflexivity|].
  apply orb_false_iff in H as [Ha Hrest].
  rewrite Hrest, Ha. reflexivity.
Qed.

(** [s.split(c).pop()] is the text after the last [c]. *)
Lemma pop_split (c : ascii) (s : string) :
  pop (split c s) = Some (afterLast c s).
Proof.
  induction s as [|a rest IH]; [reflexivity|].
  cbn [split afterLast].
  destruct (contains c rest) eqn:Hrest.
  - destruct (split_with _ _ Hrest) as (x & y & zs & E).
    rewrite E in IH |- *.
    destruct (Ascii.eqb a c); exact IH.
  - rewrite (split_without _ _ Hrest).
    destruct (Ascii.eqb a c); reflexivity.
Qed.

Lemma concat_cons_head (sep : string) (a : ascii) (x : string) (l : list string) :
  String.concat sep (String a x :: l) = String a (String.concat sep (x :: l)).
Proof. destruct l; reflexivity. Qed.

(** [s.split(c).slice(0, -1).join(c)] is the text before the last [c],
    and the empty text when [s] holds no [c]. *)
Lemma join_init_split (c : ascii) (s : string) :
  join (String c EmptyString) (slice_0_m1 (split c s)) = beforeLast c s.
Proof.
  unfold join, slice_0_m1.
  induction s as [|a rest IH]; [reflexivity|].
  cbn [split beforeLast].
  destruct (contains c rest) eqn:Hrest.
  - destruct (split_with _ _ Hrest) as (x & y & zs & E).
    rewrite E in IH |- *. rewrite <- IH.
    destruct (Ascii.eqb a c) eqn:Ha.
    + apply Ascii.eqb_eq in Ha. subst a.
      change (removelast (EmptyString :: x :: y :: zs))
        with (EmptyString :: removelast (x :: y :: zs)).
      change (removelast (x :: y :: zs)) with (x :: removelast (y :: zs)).
      reflexivity.
    + change (removelast (String a x :: y :: zs))
        with (String a x :: removelast (y :: zs)).
      change (removelast (x :: y :: zs)) with (x :: removelast (y :: zs)).
      apply concat_cons_head.
  - rewrite (split_without _ _ Hrest).
    destruct (Ascii.eqb a c); reflexivity.
Qed.

Lemma beforeLast_without (c : ascii) (s : string) :
  contains c s = false -> beforeLast c s = EmptyString.
Proof.
  destruct s as [|a rest]; simpl; intros H; [reflexivity|].
  apply orb_false_iff in H as [_ Hrest].
  rewrite Hrest. reflexivity.
Qed.

(** ** Decimal digits *)

Lemma append_assoc (a b c : string) : (a ++ b) ++ c = a ++ (b ++ c).
Proof. induction a as [|x a IH]; simpl; [reflexivity | now rewrite IH]. Qed.

Lemma append_nil_r (a : string) : a ++ EmptyString = a.
Proof. induction a as [|x a IH]; simpl; [reflexivity | now rewrite IH]. Qed.

Lemma length_append (a b : string) :
  String.length (a ++ b) = (String.length a + String.length b)%nat.
Proof. induction a as [|x a IH]; simpl; [reflexivity | now rewrite IH]. Qed.

Lemma digits_onto_acc (fuel : nat) (n : Z) (acc : string) :
  digits_onto fuel n acc = digits_onto fuel n EmptyString ++ acc.
Proof.
  revert n acc. induction fuel as [|fuel IH]; intros n acc; simpl; [reflexivity|].
  destruct (n <? 10); [reflexivity|].
  rewrite IH, (IH _ (String _ EmptyString)), append_assoc. reflexivity.
Qed.

(** Any fuel that covers the digits gives the same digits. *)
Lemma digits_onto_fuel (f1 f2 : nat) (n : Z) (acc : string) :
  (1 <= f1)%nat -> (1 <= f2)%nat ->
  0 <= n < 10 ^ Z.of_nat f1 -> n < 10 ^ Z.of_nat f2 ->
  digits_onto f1 n acc = digits_onto f2 n acc.
Proof.
  revert f2 n acc. induction f1 as [|f1 IH]; intros f2 n acc H1 H2 Hn1 Hn2; [lia|].
  destruct f2 as [|f2]; [lia|]. simpl.
  destruct (n <? 10) eqn:E; [reflexivity|].
  apply Z.ltb_ge in E.
  rewrite Nat2Z.inj_succ, Z.pow_succ_r in Hn1, Hn2 by lia.
  assert (0 <= n / 10 < 10 ^ Z.of_nat f1).
  { split; [apply Z.div_pos; lia | apply Z.div_lt_upper_bound; lia]. }
  assert (n / 10 < 10 ^ Z.of_nat f2) by (apply Z.div_lt_upper_bound; lia).
  assert (1 <= n / 10) by (apply Z.div_le_lower_bound; lia).
  apply IH; try lia.
  - destruct f1; [simpl in *; lia | lia].
  - destruct f2; [simpl in *; lia | lia].
Qed.

Lemma log2_fuel (n : Z) : 1 <= n -> n < 10 ^ Z.of_nat (S (Z.to_nat (Z.log2 n))).
Proof.
  intros Hn. pose proof (Z.log2_nonneg n) as Hl.
  rewrite Nat2Z.inj_succ, Z2Nat.id by lia.
  destruct (Z.log2_spec n) as [_ Hu]; [lia|].
  pose proof (Z.pow_le_mono_l 2 10 (Z.succ (Z.log2 n))). lia.
Qed.

Lemma decimal_digit (n : Z) : 0 <= n < 10 -> decimal n = String (digit n) EmptyString.
Proof.
  intros Hn. unfold decimal. simpl.
  destruct (n <? 10) eqn:E; [|apply Z.ltb_ge in E; lia].
  rewrite Z.mod_small by lia. reflexivity.
Qed.

Lemma decimal_step (n : Z) :
  10 <= n -> decimal n = decimal (n / 10) ++ String (digit (n mod 10)) EmptyString.
Proof.
  intros Hn. unfold decimal at 1. simpl.
  destruct (n <? 10) eqn:E; [apply Z.ltb_lt in E; lia|].
  rewrite digits_onto_acc. f_equal.
  assert (1 <= n / 10) by (apply Z.div_le_lower_bound; lia).
  pose proof (Z.log2_nonneg n) as Hl.
  assert (3 <= Z.log2 n) by (apply Z.log2_le_pow2; simpl; lia).
  unfold decimal. apply digits_onto_fuel.
  - lia.
  - lia.
  - split; [lia|]. rewrite Z2Nat.id by lia.
    destruct (Z.log2_spec n) as [_ Hu]; [lia|].
    rewrite Z.pow_succ_r in Hu by lia.
    pose proof (Z.pow_le_mono_l 2 10 (Z.log2 n)).
    apply Z.div_lt_upper_bound; lia.
  - apply log2_fuel. lia.
Qed.

Lemma decimal_times_ten (n : Z) : 1 <= n -> decimal (n * 10) = decimal n ++ "0".
Proof.
  intros Hn. rewrite decimal_step by lia.
  rewrite Z.div_mul, Z.mod_mul by lia. reflexivity.
Qed.

Lemma append_zeros_succ (s : string) (m : nat) :
  s ++ zeros (S m) = (s ++ "0") ++ zeros m.
Proof. rewrite append_assoc. reflexivity. Qed.

Lemma decimal_times_pow10 (n : Z) (m : nat) :
  1 <= n -> decimal (n * 10 ^ Z.of_nat m) = decimal n ++ zeros m.
Proof.
  revert n. induction m as [|m IH]; intros n Hn.
  - simpl. rewrite Z.mul_1_r, append_nil_r. reflexivity.
  - rewrite Nat2Z.inj_succ, Z.pow_succ_r, Z.mul_assoc by lia.
    rewrite append_zeros_succ, <- decimal_times_ten by lia.
    apply IH. lia.
Qed.

(** The digits count: [10^(len-1) <= n < 10^len]. *)
Lemma decimal_length (n : Z) :
  1 <= n ->
  10 ^ (Z.of_nat (String.length (decimal n)) - 1) <= n
    < 10 ^ Z.of_nat (String.length (decimal n)).
Proof.
  intros Hn. assert (H0 : 0 <= n) by lia. revert Hn.
  pattern n. apply Zlt_0_ind; [|exact H0]. clear n H0.
  intros n IH _ Hn.
  destruct (Z_lt_le_dec n 10) as [Hs|Hb].
  - rewrite decimal_digit by lia. simpl. lia.
  - rewrite decimal_step by lia.
    rewrite length_append. simpl String.length.
    assert (1 <= n / 10) by (apply Z.div_le_lower_bound; lia).
    assert (n / 10 < n) by (apply Z.div_lt; lia).
    specialize (IH (n / 10) ltac:(lia) ltac:(lia)).
    set (len := String.length (decimal (n / 10))) in *.
    replace (Z.of_nat (len + 1)) with (Z.succ (Z.of_nat len)) by lia.
    replace (Z.succ (Z.of_nat len) - 1) with (Z.succ (Z.of_nat len - 1)) by lia.
    assert (1 <= Z.of_nat len).
    { destruct len; [simpl in IH; lia | lia]. }
    rewrite !Z.pow_succ_r by lia.
    pose proof (Z.div_mod n 10 ltac:(lia)).
    pose proof (Z.mod_pos_bound n 10 ltac:(lia)).
    lia.
Qed.

Lemma decimal_not_empty (n : Z) : decimal n <> EmptyString.
Proof.
  unfold decimal. simpl. destruct (n <? 10); [discriminate|].
  rewrite digits_onto_acc. destruct (digits_onto _ _ _); discriminate.
Qed.

Lemma parse_digits_append (s t : string) (acc : Z) :
  parse_digits (s ++ t) acc =
  match parse_digits s acc with
  | Some a => parse_digits t a
  | None => None
  end.
Proof.
  revert acc. induction s as [|c s IH]; intros acc; simpl; [reflexivity|].
  destruct (_ && _); [apply IH | reflexivity].
Qed.

Lemma nat_of_digit (d : Z) : 0 <= d <= 9 -> Z.of_nat (nat_of_ascii (digit d)) = 48 + d.
Proof.
  intros Hd. unfold digit. rewrite nat_ascii_embedding by lia. lia.
Qed.

(** Text of one byte a character counts one code unit a byte: so do
    the digits of a number. *)
Lemma unitsOf_digit (d : Z) : 0 <= d <= 9 -> unitsOf (digit d) = 1%nat.
Proof.
  intros Hd. pose proof (nat_of_digit d Hd) as H. unfold unitsOf.
  destruct (Nat.ltb_spec (nat_of_ascii (digit d)) 128) as [_|Hge]; [reflexivity|lia].
Qed.

Lemma codeUnits_append (a b : string) :
  codeUnits (a ++ b) = (codeUnits a + codeUnits b)%nat.
Proof. induction a as [|c a IH]; cbn [append codeUnits]; [reflexivity|lia]. Qed.

Lemma codeUnits_decimal (n : Z) :
  0 <= n -> codeUnits (decimal n) = String.length (decimal n).
Proof.
  intros H0. pattern n. apply Zlt_0_ind; [|exact H0]. clear n H0.
  intros n IH Hn.
  destruct (Z_lt_le_dec n 10) as [Hs|Hb].
  - rewrite decimal_digit by lia. cbn [codeUnits String.length].
    rewrite unitsOf_digit by lia. reflexivity.
  - rewrite decimal_step by lia. rewrite codeUnits_append, length_append.
    assert (0 <= n / 10) by (apply Z.div_pos; lia).
    assert (n / 10 < n) by (apply Z.div_lt; lia).
    rewrite (IH (n / 10)) by lia. cbn [codeUnits String.length].
    pose proof (Z.mod_pos_bound n 10 ltac:(lia)).
    rewrite unitsOf_digit by lia. reflexivity.
Qed.

Lemma padStart_decimal (n : Z) :
  0 <= n ->
  padStart 3 "0" (decimal n)
  = if (3 <=? String.length (decimal n))%nat then decimal n
    else filler "0" "0" (3 - String.length (decimal n)) ++ decimal n.
Proof. intros Hn. unfold padStart. rewrite codeUnits_decimal by exact Hn. reflexivity. Qed.

(** The digits read back to the integer: nothing is lost. *)
Lemma parse_decimal (n : Z) : 0 <= n -> parse_digits (decimal n) 0 = Some n.
Proof.
  intros H0. pattern n. apply Zlt_0_ind; [|exact H0]. clear n H0.
  intros n IH Hn.
  destruct (Z_lt_le_dec n 10) as [Hs|Hb].
  - rewrite decimal_digit by lia. cbn [parse_digits].
    rewrite nat_of_digit by lia.
    replace ((48 <=? 48 + n) && (48 + n <=? 57)) with true
      by (symmetry; apply andb_true_iff; split; apply Z.leb_le; lia).
    f_equal. lia.
  - rewrite decimal_step, parse_digits_append by lia.
    assert (0 <= n / 10) by (apply Z.div_pos; lia).
    assert (n / 10 < n) by (apply Z.div_lt; lia).
    rewrite IH by lia. cbn [parse_digits].
    pose proof (Z.mod_pos_bound n 10 ltac:(lia)).
    rewrite nat_of_digit by lia.
    replace ((48 <=? 48 + n mod 10) && (48 + n mod 10 <=? 57)) with true
      by (symmetry; apply andb_true_iff; split; apply Z.leb_le; lia).
    f_equal. pose proof (Z.div_mod n 10 ltac:(lia)). lia.
Qed.

(** ** Numbers and their text *)

(** Below [2^53] every integer is a double. *)
Lemma round_double_small (m : Z) : 0 <= m < 2 ^ 53 -> round_double m = m.
Proof.
  intros Hm. unfold round_double.
  destruct (Z.eq_dec m 0) as [->|Hne]; [reflexivity|].
  assert (Z.log2 m < 53) by (apply Z.log2_lt_pow2; lia).
  destruct (Z.log2 m - 52 <=? 0) eqn:E; [reflexivity|].
  apply Z.leb_gt in E. lia.
Qed.

(** From [2^53] on, rounding stays at or above [2^53]. *)
Lemma round_double_large (m : Z) : 2 ^ 53 <= m -> 2 ^ 53 <= round_double m.
Proof.
  intros Hm. unfold round_double.
  assert (Hl : 53 <= Z.log2 m) by (apply Z.log2_le_pow2; lia).
  set (e := Z.log2 m - 52).
  destruct (e <=? 0) eqn:E; [apply Z.leb_le in E; lia|].
  assert (He : 1 <= e) by lia.
  assert (Hp : 2 <= 2 ^ e).
  { change 2 with (2 ^ 1) at 1. apply Z.pow_le_mono_r; lia. }
  assert (Hq : 2 ^ 52 <= m / 2 ^ e).
  { apply Z.div_le_lower_bound; [lia|].
    rewrite <- Z.pow_add_r by lia.
    replace (e + 52) with (Z.log2 m) by lia.
    apply Z.log2_spec. lia. }
  set (q := m / 2 ^ e) in *.
  set (q' := if m mod 2 ^ e <? 2 ^ (e - 1) then q
             else if 2 ^ (e - 1) <? m mod 2 ^ e then q + 1
             else if Z.even q then q else q + 1).
  assert (Hq' : q <= q').
  { unfold q'. destruct (_ <? _); [lia|].
    destruct (_ <? _); [lia|]. destruct (Z.even q); lia. }
  change (2 ^ 53) with (2 ^ 52 * 2).
  apply Z.mul_le_mono_nonneg; lia.
Qed.

(** A safe integer is read back by one integer only: itself. *)
Lemma round_double_safe_inv (c x : Z) :
  0 <= c -> 0 <= x < 2 ^ 53 -> round_double c = x -> c = x.
Proof.
  intros Hc Hx E.
  destruct (Z_lt_le_dec c (2 ^ 53)) as [Hs|Hb].
  - rewrite round_double_small in E by lia. exact E.
  - pose proof (round_double_large c Hb). lia.
Qed.

Lemma shortest_from_safe (fuel : nat) (x d k : Z) :
  1 <= x < 2 ^ 53 ->
  1 <= k <= d ->
  d - k < Z.of_nat fuel ->
  exists s k', shortest_from fuel x d k = (s, k', d)
               /\ 1 <= s /\ 1 <= k' <= d /\ s * 10 ^ (d - k') = x.
Proof.
  revert k. induction fuel as [|fuel IH]; intros k Hx Hk Hfuel; [lia|].
  cbn [shortest_from].
  set (p := 10 ^ (d - k)).
  assert (Hp : 0 < p) by (apply Z.pow_pos_nonneg; lia).
  pose proof (Z.div_mod x p ltac:(lia)) as Hdm.
  pose proof (Z.mod_pos_bound x p Hp) as Hmod.
  set (lo := x / p) in *.
  assert (Hlo : lo * p <= x < (lo + 1) * p) by lia.
  assert (Hlo0 : 0 <= lo) by (apply Z.div_pos; lia).
  assert (Hhi : (round_double ((lo + 1) * p) =? x) = false).
  { apply Z.eqb_neq. intros E.
    apply round_double_safe_inv in E; lia. }
  rewrite Hhi, andb_false_r, andb_false_r.
  destruct (round_double (lo * p) =? x) eqn:Elo.
  - apply Z.eqb_eq in Elo.
    apply round_double_safe_inv in Elo; [|lia|lia].
    assert (1 <= lo)
      by (destruct (Z.eq_dec lo 0) as [E0|]; [rewrite E0 in Elo; lia | lia]).
    exists lo, k. repeat split; lia.
  - destruct (d <=? k) eqn:Edk.
    + apply Z.leb_le in Edk. exfalso.
      assert (Hp1 : p = 1).
      { unfold p. replace (d - k) with 0 by lia. reflexivity. }
      rewrite Hp1 in Hlo, Elo.
      replace (lo * 1) with x in Elo by lia.
      rewrite round_double_small, Z.eqb_refl in Elo by lia. discriminate.
    + apply Z.leb_gt in Edk.
      destruct (IH (k + 1)) as (s & k' & E & ?); try lia.
      exists s, k'. split; [exact E | lia].
Qed.

(** On a safe integer, Number::toString prints the decimal digits. *)
Lemma NumberToString_safe (z : Z) :
  0 <= z <= MAX_SAFE_INTEGER -> NumberToString (NInt z) = decimal z.
Proof.
  unfold MAX_SAFE_INTEGER. intros Hz.
  destruct (Z.eq_dec z 0) as [->|Hne]; [reflexivity|].
  cbn [NumberToString].
  rewrite Z.abs_eq, round_double_small by lia.
  destruct (z =? 0) eqn:E0; [apply Z.eqb_eq in E0; lia|].
  destruct (z <? 0) eqn:En; [apply Z.ltb_lt in En; lia|].
  assert (Hbig : (2 ^ 1024 <=? z) = false).
  { apply Z.leb_gt. apply Z.lt_trans with (2 ^ 53); [lia|].
    apply Z.pow_lt_mono_r; lia. }
  rewrite Hbig. cbn [append].
  pose proof (decimal_length z ltac:(lia)) as Hd.
  unfold shortest.
  set (d := Z.of_nat (String.length (decimal z))) in *.
  assert (Hd1 : 1 <= d).
  { unfold d. pose proof (decimal_not_empty z).
    destruct (decimal z); [congruence | simpl; lia]. }
  assert (Hd16 : d <= 16).
  { assert (10 ^ (d - 1) < 10 ^ 16) as Hlt by lia.
    apply Z.pow_lt_mono_r_iff in Hlt; lia. }
  assert (Hten : (round_double (10 ^ d) =? z) = false).
  { apply Z.eqb_neq. intros E.
    apply round_double_safe_inv in E; lia. }
  rewrite Hten.
  destruct (shortest_from_safe 17 z d 1) as (s & k & E & Hs & Hk & Hx); try lia.
  rewrite E. cbn [render_number].
  destruct (d <=? 21) eqn:E21; [|apply Z.leb_gt in E21; lia].
  rewrite <- decimal_times_pow10 by lia.
  rewrite Z2Nat.id by lia. rewrite Hx. reflexivity.
Qed.

(** ** Path Deriver *)

Lemma formatPage_safe (p : Z) :
  0 <= p <= MAX_SAFE_INTEGER ->
  formatPage (VNum (NInt p)) = Ok (padStart 3 "0" (decimal p)).
Proof.
  intros Hp. unfold formatPage. cbn [ToString rbind].
  rewrite NumberToString_safe by exact Hp. reflexivity.
Qed.

Lemma decimal_two_digits (p : Z) :
  10 <= p < 100 ->
  decimal p = String (digit (p / 10)) (String (digit (p mod 10)) EmptyString).
Proof.
  intros Hp. rewrite decimal_step by lia.
  assert (0 <= p / 10 < 10).
  { split; [apply Z.div_pos; lia | apply Z.div_lt_upper_bound; lia]. }
  rewrite decimal_digit by lia. reflexivity.
Qed.

Lemma decimal_three_digits (p : Z) :
  100 <= p < 1000 -> decimal p = threeDigits p.
Proof.
  intros Hp. rewrite decimal_step by lia.
  assert (10 <= p / 10 < 100).
  { split; [apply Z.div_le_lower_bound; lia | apply Z.div_lt_upper_bound; lia]. }
  rewrite decimal_two_digits by lia.
  rewrite Z.div_div by lia. reflexivity.
Qed.

(** Pages 0 to 999 come out as three digits. *)
Lemma formatPage_three_digits (p : Z) :
  0 <= p <= 999 -> formatPage (VNum (NInt p)) = Ok (threeDigits p).
Proof.
  intros Hp. rewrite formatPage_safe by (unfold MAX_SAFE_INTEGER; lia).
  f_equal. rewrite padStart_decimal by lia. unfold threeDigits.
  destruct (Z_lt_le_dec p 10) as [H1|H1]; [|destruct (Z_lt_le_dec p 100) as [H2|H2]].
  - rewrite decimal_digit by lia.
    rewrite (Z.div_small p 100), (Z.div_small p 10), (Z.mod_small p 10) by lia.
    reflexivity.
  - rewrite decimal_two_digits by lia.
    rewrite (Z.div_small p 100), (Z.mod_small (p / 10) 10).
    + reflexivity.
    + split; [apply Z.div_pos; lia | apply Z.div_lt_upper_bound; lia].
    + lia.
  - rewrite decimal_three_digits by lia. reflexivity.
Qed.

(** From 1000 on the digits need no padding. *)
Lemma decimal_wide (p : Z) : 1000 <= p -> (4 <= String.length (decimal p))%nat.
Proof.
  intros Hp. pose proof (decimal_length p ltac:(lia)) as [_ Hu].
  destruct (String.length (decimal p)) as [|[|[|[|n]]]]; simpl in Hu; lia.
Qed.

(** The script's stem is the text before the last dot of the final
    segment, whatever the segment. *)
Lemma buildImagePath_stem (filePath : string) (page : value) (digits : string) :
  formatPage page = Ok digits ->
  buildImagePath (VStr filePath) page =
  Ok (IMAGE_ROOT ++ "/" ++ beforeLast "." (finalSegment filePath)
        ++ "_" ++ digits ++ ".png").
Proof.
  intros Hp. unfold buildImagePath, popValue, finalSegment.
  cbn [callSplit rbind]. rewrite pop_split. cbn [callSplit rbind].
  rewrite Hp. cbn [rbind].
  rewrite (join_init_split "." (afterLast "/" filePath)). reflexivity.
Qed.

(** Path Deriver is total on a string and a Number. *)
Lemma buildImagePath_total (filePath : string) (page : Number) :
  exists path, buildImagePath (VStr filePath) (VNum page) = Ok path.
Proof.
  eexists. apply buildImagePath_stem. reflexivity.
Qed.

(** X19.  Where the final segment has an extension, the derived path is
    the one the specification describes. *)
Lemma buildImagePath_with_extension (filePath : string) (page : Z) :
  contains "." (finalSegment filePath) = true ->
  0 <= page <= 999 ->
  buildImagePath (VStr filePath) (VNum (NInt page)) = Ok (specDerive filePath page).
Proof.
  intros Hdot Hp.
  rewrite (buildImagePath_stem _ _ _ (formatPage_three_digits page Hp)).
  unfold specDerive, specStem. rewrite Hdot. reflexivity.
Qed.

Lemma buildImagePath_with_extension_witness :
  buildImagePath (VStr "a/b.c/inv.tar.gz") (VNum (NInt 12))
  = Ok "/out/redacted_images/inv.tar_012.png".
Proof.
  exact (buildImagePath_with_extension "a/b.c/inv.tar.gz" 12 eq_refl ltac:(lia)).
Defined.

(** X20.  Where it has none, the stem is empty and the name of the file
    is lost. *)
Lemma buildImagePath_without_extension (filePath : string) (page : Z) :
  contains "." (finalSegment filePath) = false ->
  0 <= page <= 999 ->
  buildImagePath (VStr filePath) (VNum (NInt page))
  = Ok (IMAGE_ROOT ++ "/" ++ "_" ++ threeDigits page ++ ".png").
Proof.
  intros Hdot Hp.
  rewrite (buildImagePath_stem _ _ _ (formatPage_three_digits page Hp)).
  rewrite (beforeLast_without _ _ Hdot). reflexivity.
Qed.

Lemma buildImagePath_without_extension_witness :
  buildImagePath (VStr "scans/invoice") (VNum (NInt 1))
  = Ok "/out/redacted_images/_001.png".
Proof.
  exact (buildImagePath_without_extension "scans/invoice" 1 eq_refl ltac:(lia)).
Defined.

(** C1.  The claim asks, for a final segment without a dot, for the
    whole segment as the stem.  The script answers with an empty stem:
    for [scans/invoice], page 1, it derives [_001.png] where the
    specification describes [invoice_001.png]. *)
Theorem buildImagePath_loses_extensionless_name :
  buildImagePath (VStr "scans/invoice") (VNum (NInt 1))
  = Ok "/out/redacted_images/_001.png"
  /\ specDerive "scans/invoice" 1 = "/out/redacted_images/invoice_001.png".
Proof. split; reflexivity. Qed.

(** C10, as amended.  For a page from 1000 up to the largest safe
    integer, [formatPage] returns the decimal digits of the page: at
    least four of them, none in front of the leading digit, and they
    read back to the page; the derived path carries them as they are. *)
Theorem formatPage_wide (page : Z) :
  1000 <= page <= MAX_SAFE_INTEGER ->
  formatPage (VNum (NInt page)) = Ok (decimal page)
  /\ (4 <= String.length (decimal page))%nat
  /\ 10 ^ (Z.of_nat (String.length (decimal page)) - 1) <= page
  /\ parse_digits (decimal page) 0 = Some page
  /\ forall filePath,
       buildImagePath (VStr filePath) (VNum (NInt page))
       = Ok (IMAGE_ROOT ++ "/" ++ beforeLast "." (finalSegment filePath)
               ++ "_" ++ decimal page ++ ".png").
Proof.
  intros Hp.
  assert (Hf : formatPage (VNum (NInt page)) = Ok (decimal page)).
  { rewrite formatPage_safe by lia. rewrite padStart_decimal by lia.
    pose proof (decimal_wide page ltac:(lia)) as Hw.
    destruct (3 <=? String.length (decimal page))%nat eqn:E; [reflexivity|].
    apply Nat.leb_gt in E. lia. }
  repeat split.
  - exact Hf.
  - apply decimal_wide. lia.
  - apply decimal_length. lia.
  - apply parse_decimal. lia.
  - intros filePath. apply buildImagePath_stem. exact Hf.
Qed.

Lemma formatPage_wide_witness :
  formatPage (VNum (NInt 1000)) = Ok "1000"
  /\ (4 <= 4)%nat
  /\ 10 ^ (Z.of_nat 4 - 1) <= 1000
  /\ parse_digits "1000" 0 = Some 1000
  /\ forall filePath,
       buildImagePath (VStr filePath) (VNum (NInt 1000))
       = Ok (IMAGE_ROOT ++ "/" ++ beforeLast "." (finalSegment filePath)
               ++ "_" ++ "1000" ++ ".png").
Proof.
  exact (formatPage_wide 1000 ltac:(unfold MAX_SAFE_INTEGER; lia)).
Defined.

(** C10 as stated fails: an integer page of [10^21] is printed in
    exponent notation, not by its decimal digits. *)
Lemma formatPage_exponent :
  formatPage (VNum (NInt (10 ^ 21))) = Ok "1e+21"
  /\ decimal (10 ^ 21) = "1000000000000000000000".
Proof. split; vm_compute; reflexivity. Qed.

(** Beyond the safe integers the digits are the shortest that read
    back to the same double, not those of the integer. *)
Lemma formatPage_beyond_safe :
  formatPage (VNum (NInt (2 ^ 60))) = Ok "1152921504606847000"
  /\ decimal (2 ^ 60) = "1152921504606846976".
Proof. split; vm_compute; reflexivity. Qed.

(** ** What a computation leaves alone *)

Lemma preserves_ret {A F : Type} (f : World -> F) (a : A) : preserves f (ret a).
Proof. intros w. reflexivity. Qed.

Lemma preserves_throw {A F : Type} (f : World -> F) (e : Error) :
  preserves f (@throw A e).
Proof. intros w. reflexivity. Qed.

Lemma preserves_lift {A F : Type} (f : World -> F) (r : result A) :
  preserves f (lift r).
Proof. intros w. reflexivity. Qed.

Lemma preserves_bind {A B F : Type} (f : World -> F) (m : M A) (k : A -> M B) :
  preserves f m -> (forall a, preserves f (k a)) -> preserves f (bind m k).
Proof.
  intros Hm Hk w. unfold bind. specialize (Hm w).
  destruct (m w) as [[a|e] w']; simpl in *.
  - rewrite Hk. exact Hm.
  - exact Hm.
Qed.

Lemma preserves_tryCatch {A F : Type} (f : World -> F) (m : M A) (h : Error -> M A) :
  preserves f m -> (forall e, preserves f (h e)) -> preserves f (tryCatch m h).
Proof.
  intros Hm Hh w. unfold tryCatch. specialize (Hm w).
  destruct (m w) as [[a|e] w']; simpl in *.
  - exact Hm.
  - rewrite Hh. exact Hm.
Qed.

Lemma preserves_forEach {A F : Type} (f : World -> F) (g : A -> M unit) (l : list A) :
  (forall x, preserves f (g x)) -> preserves f (forEach g l).
Proof.
  intros Hg. induction l as [|x l IH]; cbn [forEach].
  - apply preserves_ret.
  - apply preserves_bind; [apply Hg | intros _; exact IH].
Qed.

Lemma preserves_modify {F : Type} (f : World -> F) (g : World -> World) :
  (forall w, f (g w) = f w) -> preserves f (modify g).
Proof. intros Hg w. apply Hg. Qed.

(** One step along the structure of [m] in a goal [preserves f m]. *)
Ltac frame_step :=
  lazymatch goal with
  | |- preserves _ (ret _) => apply preserves_ret
  | |- preserves _ (throw _) => apply preserves_throw
  | |- preserves _ (lift _) => apply preserves_lift
  | |- preserves _ (bind _ _) => apply preserves_bind; [|intros]
  | |- preserves _ (tryCatch _ _) => apply preserves_tryCatch; [|intros]
  | |- preserves _ (forEach _ _) => apply preserves_forEach; intros
  | |- preserves _ (if ?b then _ else _) => destruct b
  | |- preserves _ (match ?x with _ => _ end) => destruct x
  | |- preserves _ (let _ := _ in _) => cbv zeta
  end.

Ltac frame := repeat frame_step.

Lemma renderGallery_frame {F : Type} (f : World -> F) (pages : value) :
  (forall r w, f (withGallery r w) = f w) -> preserves f (renderGallery pages).
Proof.
  intros Hf. unfold renderGallery, appendCard.
  repeat first
    [ apply preserves_modify; intros; apply Hf
    | frame_step ].
Qed.

Lemma renderSummary_frame {F : Type} (f : World -> F) (detections : value) :
  (forall r w, f (withSummary r w) = f w) -> preserves f (renderSummary detections).
Proof.
  intros Hf. unfold renderSummary, appendPill.
  repeat first
    [ apply preserves_modify; intros; apply Hf
    | frame_step ].
Qed.

Lemma renderDetections_frame {F : Type} (f : World -> F) (entries : value) :
  (forall r w, f (withDetectionsBody r w) = f w) ->
  preserves f (renderDetections entries).
Proof.
  intros Hf. unfold renderDetections, appendRows, appendRow.
  repeat first
    [ apply preserves_modify; intros; apply Hf
    | frame_step ].
  intros w. unfold placeholderIfNoRows.
  destruct (appended (detectionsBody w)); [apply Hf | reflexivity].
Qed.

(** ** Renderer: each operation repaints its region from scratch *)

Lemma world_eq (w w' : World) :
  gallery w = gallery w' -> detectionsBody w = detectionsBody w' ->
  summary w = summary w' -> uploadStatus w = uploadStatus w' ->
  fileInput w = fileInput w' -> requests w = requests w' -> w = w'.
Proof. destruct w, w'; simpl; intros; subst; reflexivity. Qed.

(** A second run of [renderGallery] starts from the same page as the
    first one did, once the region is cleared. *)
Lemma renderGallery_again (pages : value) (w : World) :
  renderGallery pages (exec (renderGallery pages) w) = renderGallery pages w.
Proof.
  unfold renderGallery at 1 3. unfold bind at 1 3. cbn [modify].
  replace (withGallery (setInnerHTML "") (exec (renderGallery pages) w))
    with (withGallery (setInnerHTML "") w); [reflexivity|].
  unfold exec.
  apply world_eq; cbn [withGallery gallery detectionsBody summary uploadStatus
                         fileInput requests]; try reflexivity; symmetry.
  - apply (renderGallery_frame detectionsBody); reflexivity.
  - apply (renderGallery_frame summary); reflexivity.
  - apply (renderGallery_frame uploadStatus); reflexivity.
  - apply (renderGallery_frame fileInput); reflexivity.
  - apply (renderGallery_frame requests); reflexivity.
Qed.

Lemma renderSummary_again (detections : value) (w : World) :
  renderSummary detections (exec (renderSummary detections) w)
  = renderSummary detections w.
Proof.
  unfold renderSummary at 1 3. unfold bind at 1 3. cbn [modify].
  replace (withSummary (setInnerHTML "") (exec (renderSummary detections) w))
    with (withSummary (setInnerHTML "") w); [reflexivity|].
  unfold exec.
  apply world_eq; cbn [withSummary gallery detectionsBody summary uploadStatus
                         fileInput requests]; try reflexivity; symmetry.
  - apply (renderSummary_frame gallery); reflexivity.
  - apply (renderSummary_frame detectionsBody); reflexivity.
  - apply (renderSummary_frame uploadStatus); reflexivity.
  - apply (renderSummary_frame fileInput); reflexivity.
  - apply (renderSummary_frame requests); reflexivity.
Qed.

Lemma renderDetections_again (entries : value) (w : World) :
  renderDetections entries (exec (renderDetections entries) w)
  = renderDetections entries w.
Proof.
  unfold renderDetections at 1 3. unfold bind at 1 3. cbn [modify].
  replace (withDetectionsBody (setInnerHTML "") (exec (renderDetections entries) w))
    with (withDetectionsBody (setInnerHTML "") w); [reflexivity|].
  unfold exec.
  apply world_eq; cbn [withDetectionsBody gallery detectionsBody summary
                         uploadStatus fileInput requests]; try reflexivity; symmetry.
  - apply (renderDetections_frame gallery); reflexivity.
  - apply (renderDetections_frame summary); reflexivity.
  - apply (renderDetections_frame uploadStatus); reflexivity.
  - apply (renderDetections_frame fileInput); reflexivity.
  - apply (renderDetections_frame requests); reflexivity.
Qed.

(** C9.  Each render operation is idempotent: on any input, well
    formed or not, and from any page, a second call in succession
    leaves the page (its target region with it) exactly as the first
    call left it, and ends as the first call ended. *)
Theorem render_idempotent (v : value) (w : World) :
  renderGallery v (exec (renderGallery v) w)
    = (fst (renderGallery v w), exec (renderGallery v) w)
  /\ renderDetections v (exec (renderDetections v) w)
    = (fst (renderDetections v w), exec (renderDetections v) w)
  /\ renderSummary v (exec (renderSummary v) w)
    = (fst (renderSummary v w), exec (renderSummary v) w).
Proof.
  rewrite renderGallery_again, renderDetections_again, renderSummary_again.
  unfold exec. repeat split; apply surjective_pairing.
Qed.

Lemma render_ignores_prior_content (v : value) (r : Region) (w : World) :
  renderGallery v (withGallery r w) = renderGallery v w
  /\ renderDetections v (withDetectionsBody r w) = renderDetections v w
  /\ renderSummary v (withSummary r w) = renderSummary v w.
Proof. repeat split. Qed.

(** ** Report Transformer on a well-formed report *)

Lemma get_file (e : ReportEntry) : get (jsonEntry e) "file" = Ok (VStr (file e)).
Proof. unfold jsonEntry. destruct (image_path e); reflexivity. Qed.

Lemma get_page (e : ReportEntry) : get (jsonEntry e) "page" = Ok (VNum (NInt (page e))).
Proof. unfold jsonEntry. destruct (image_path e); reflexivity. Qed.

Lemma get_language (e : ReportEntry) :
  get (jsonEntry e) "language" = Ok (VStr (language e)).
Proof. unfold jsonEntry. destruct (image_path e); reflexivity. Qed.

Lemma get_image_path (e : ReportEntry) :
  get (jsonEntry e) "image_path"
  = Ok match image_path e with Some p => VStr p | None => VUndefined end.
Proof. unfold jsonEntry. destruct (image_path e); reflexivity. Qed.

Lemma get_detections (e : ReportEntry) :
  get (jsonEntry e) "detections" = Ok (VArr (map jsonDetection (detections e))).
Proof. unfold jsonEntry. destruct (image_path e); reflexivity. Qed.

Lemma buildImagePath_entry (e : ReportEntry) :
  buildImagePath (VStr (file e)) (VNum (NInt (page e))) = Ok (derivedPath e).
Proof. apply buildImagePath_stem. reflexivity. Qed.

(** The card of an entry: the explicit image location when it is not
    empty, else the derived one; the label from the final segment. *)
Lemma toPage_entry (e : ReportEntry) : toPage (jsonEntry e) = Ok (pageOf e).
Proof.
  unfold toPage, pageOf, imagePathOf, labelOf, finalSegment, popValue.
  rewrite get_image_path, get_file, get_page. cbn [rbind callSplit].
  rewrite pop_split, buildImagePath_entry. cbn [rbind ToString].
  destruct (image_path e) as [p|]; cbn [truthy rbind]; [|reflexivity].
  destruct (String.eqb p ""); reflexivity.
Qed.

Lemma mapR_toPage (entries : list ReportEntry) :
  mapR toPage (map jsonEntry entries) = Ok (map pageOf entries).
Proof.
  induction entries as [|e entries IH]; [reflexivity|].
  cbn [map mapR]. rewrite toPage_entry, IH. reflexivity.
Qed.

(** ** Renderer on a well-formed report *)

Lemma appendAll_nil (r : Region) : appendAll r [] = r.
Proof. destruct r. unfold appendAll. simpl. rewrite app_nil_r. reflexivity. Qed.

Lemma appendAll_app (r : Region) (es fs : list Element) :
  appendAll (appendAll r es) fs = appendAll r (es ++ fs).
Proof. unfold appendAll. simpl. rewrite app_assoc. reflexivity. Qed.

Lemma withGallery_same (w : World) : withGallery (gallery w) w = w.
Proof. destruct w. reflexivity. Qed.

Lemma withDetectionsBody_same (w : World) : withDetectionsBody (detectionsBody w) w = w.
Proof. destruct w. reflexivity. Qed.

Lemma withSummary_same (w : World) : withSummary (summary w) w = w.
Proof. destruct w. reflexivity. Qed.

(** A loop whose every turn appends to one region appends the
    elements of all turns, in order. *)
Lemma forEach_append {A : Type}
      (put : Region -> World -> World) (region : World -> Region)
      (turn : A -> M unit) (elements : A -> list Element) :
  (forall r w, region (put r w) = r) ->
  (forall r r' w, put r (put r' w) = put r w) ->
  (forall w, put (region w) w = w) ->
  (forall x w, turn x w = (Ok tt, put (appendAll (region w) (elements x)) w)) ->
  forall l w,
    forEach turn l w = (Ok tt, put (appendAll (region w) (flat_map elements l)) w).
Proof.
  intros Hget Hput Hsame Hturn l.
  induction l as [|x l IH]; intros w; cbn [forEach flat_map].
  - unfold ret. rewrite appendAll_nil, Hsame. reflexivity.
  - unfold bind. rewrite Hturn, IH, Hget, Hput, appendAll_app. reflexivity.
Qed.

Lemma flat_map_singleton {A B : Type} (f : A -> B) (l : list A) :
  flat_map (fun x => [f x]) l = map f l.
Proof. induction l as [|x l IH]; simpl; [reflexivity | now rewrite IH]. Qed.

Lemma of_nat_succ_truthy (n : nat) : truthy (VNum (NInt (Z.of_nat (S n)))) = true.
Proof.
  cbn [truthy]. destruct (Z.of_nat (S n) =? 0) eqn:E; [|reflexivity].
  apply Z.eqb_eq in E. lia.
Qed.

Lemma forEach_map {A B : Type} (f : A -> B) (turn : B -> M unit) (l : list A) :
  forEach turn (map f l) = forEach (fun x => turn (f x)) l.
Proof.
  induction l as [|x l IH]; cbn [map forEach]; [reflexivity | now rewrite IH].
Qed.

Lemma renderGallery_report (entries : list ReportEntry) (w : World) :
  renderGallery (VArr (map pageOf entries)) w
  = (Ok tt, withGallery (galleryOf entries) w).
Proof.
  destruct entries as [|e entries]; [reflexivity|].
  transitivity (forEach appendCard (map pageOf (e :: entries))
                  (withGallery blankRegion w)); [reflexivity|].
  rewrite forEach_map.
  rewrite (forEach_append withGallery gallery _ (fun p => [cardOf p])).
  - rewrite flat_map_singleton. reflexivity.
  - reflexivity.
  - reflexivity.
  - apply withGallery_same.
  - reflexivity.
Qed.

Lemma detectionRow_entry (e : ReportEntry) (d : Detection) :
  detectionRow (jsonEntry e) (jsonDetection d) = Ok (rowOf e d).
Proof.
  unfold detectionRow. rewrite get_file, get_page, get_language. reflexivity.
Qed.

Lemma appendRows_entry (e : ReportEntry) (w : World) :
  appendRows (jsonEntry e) w
  = (Ok tt, withDetectionsBody (appendAll (detectionsBody w) (rowsOf e)) w).
Proof.
  unfold appendRows, rowsOf. rewrite get_detections.
  destruct (detections e) as [|d ds].
  - cbn [map]. rewrite appendAll_nil, withDetectionsBody_same. reflexivity.
  - transitivity (forEach (appendRow (jsonEntry e)) (map jsonDetection (d :: ds)) w);
      [reflexivity|].
    rewrite forEach_map.
    rewrite (forEach_append withDetectionsBody detectionsBody _
               (fun x => [rowOf e x])).
    + rewrite flat_map_singleton. reflexivity.
    + reflexivity.
    + reflexivity.
    + apply withDetectionsBody_same.
    + intros x w0. unfold appendRow. rewrite detectionRow_entry. reflexivity.
Qed.

Lemma renderDetections_report (entries : list ReportEntry) (w : World) :
  renderDetections (jsonReport entries) w
  = (Ok tt, withDetectionsBody (detectionsOf entries) w).
Proof.
  destruct entries as [|e entries]; [reflexivity|].
  transitivity ((forEach appendRows (map jsonEntry (e :: entries)) ;;;
                 placeholderIfNoRows) (withDetectionsBody blankRegion w));
    [reflexivity|].
  unfold bind. rewrite forEach_map.
  rewrite (forEach_append withDetectionsBody detectionsBody _ rowsOf).
  - unfold placeholderIfNoRows, detectionsOf.
    cbn [detectionsBody withDetectionsBody appendAll blankRegion setInnerHTML
           appended markup app].
    destruct (flat_map rowsOf (e :: entries)); reflexivity.
  - reflexivity.
  - reflexivity.
  - apply withDetectionsBody_same.
  - intros x w0. apply appendRows_entry.
Qed.

Lemma reduce_countDetection (ds : list Detection) (acc : CountObject) :
  reduce countDetection (map jsonDetection ds) acc
  = Ok (fold_left countType (map type ds) acc).
Proof.
  revert acc. induction ds as [|d ds IH]; intros acc; [reflexivity|].
  cbn [map reduce fold_left].
  change (countDetection acc (jsonDetection d)) with (Ok (countType acc (type d))).
  cbn [rbind]. apply IH.
Qed.

Lemma renderSummary_report (ds : list Detection) (w : World) :
  renderSummary (VArr (map jsonDetection ds)) w
  = (Ok tt, withSummary (summaryOf ds) w).
Proof.
  destruct ds as [|d ds]; [reflexivity|].
  transitivity ((counts <- lift (reduce countDetection
                                   (map jsonDetection (d :: ds)) []) ;;
                 forEach appendPill (ObjectEntries counts))
                  (withSummary blankRegion w)); [reflexivity|].
  rewrite reduce_countDetection. unfold bind, lift.
  rewrite (forEach_append withSummary summary _ (fun en => [pill en])).
  - rewrite flat_map_singleton. reflexivity.
  - reflexivity.
  - reflexivity.
  - apply withSummary_same.
  - reflexivity.
Qed.

Lemma concat_map_flat_map {A B C : Type} (f : B -> C) (g : A -> list B) (l : list A) :
  List.concat (map (fun x => map f (g x)) l) = map f (flat_map g l).
Proof.
  induction l as [|x l IH]; simpl; [reflexivity|].
  rewrite IH, map_app. reflexivity.
Qed.

Lemma flatMapDetections_report (entries : list ReportEntry) :
  flatMapDetections (map jsonEntry entries)
  = Ok (map jsonDetection (allDetections entries)).
Proof.
  unfold flatMapDetections, allDetections.
  rewrite <- concat_map_flat_map.
  match goal with
  | |- rbind ?m _ = _ =>
      assert (E : m = Ok (map (fun e => map jsonDetection (detections e)) entries))
  end.
  { induction entries as [|e entries IH]; [reflexivity|].
    cbn [map mapR]. rewrite get_detections, IH. reflexivity. }
  rewrite E. reflexivity.
Qed.

(** A whole retrieval of a well-formed report: one request, and the
    three regions repainted from the report. *)
Lemma fetchAndRender_serving (entries : list ReportEntry) (w : World) :
  fetchAndRender (serving entries) w
  = (Ok tt,
     withSummary (summaryOf (allDetections entries))
       (withDetectionsBody (detectionsOf entries)
          (withGallery (galleryOf entries)
             (withRequests (requests w ++ [reportRequest]) w)))).
Proof.
  transitivity
    ((pages <- lift (mapR toPage (map jsonEntry entries)) ;;
      renderGallery (VArr pages) ;;;
      renderDetections (jsonReport entries) ;;;
      allDetections <- lift (flatMapDetections (map jsonEntry entries)) ;;
      renderSummary (VArr allDetections))
       (withRequests (requests w ++ [reportRequest]) w)); [reflexivity|].
  unfold bind, lift.
  rewrite mapR_toPage. cbv beta iota.
  rewrite renderGallery_report. cbv beta iota.
  rewrite renderDetections_report. cbv beta iota.
  rewrite flatMapDetections_report. cbv beta iota.
  apply renderSummary_report.
Qed.

Lemma loadReport_serving (entries : list ReportEntry) (w : World) :
  loadReport (serving entries) w
  = (Ok tt,
     withSummary (summaryOf (allDetections entries))
       (withDetectionsBody (detectionsOf entries)
          (withGallery (galleryOf entries)
             (withRequests (requests w ++ [reportRequest]) w)))).
Proof.
  unfold loadReport, bind, tryCatch. cbn [paintLoading].
  destruct (paintLoading w) as [r w1] eqn:E1.
  assert (r = Ok tt /\ requests w1 = requests w
          /\ uploadStatus w1 = uploadStatus w /\ fileInput w1 = fileInput w)
    as (-> & Hr & Hu & Hf).
  { unfold paintLoading, bind, modify in E1. inversion E1. repeat split. }
  rewrite fetchAndRender_serving.
  f_equal. apply world_eq; simpl; congruence.
Qed.

Lemma length_appended_galleryOf (entries : list ReportEntry) :
  List.length (appended (galleryOf entries)) = List.length entries.
Proof.
  destruct entries as [|e entries]; [reflexivity|].
  unfold galleryOf, appendAll. cbn [appended blankRegion setInnerHTML app].
  apply length_map.
Qed.

Lemma length_flat_map {A B : Type} (f : A -> list B) (l : list A) :
  List.length (flat_map f l) = list_sum (map (fun x => List.length (f x)) l).
Proof.
  induction l as [|x l IH]; simpl; [reflexivity|].
  rewrite length_app, IH. reflexivity.
Qed.

Lemma length_appended_detectionsOf (entries : list ReportEntry) :
  List.length (appended (detectionsOf entries))
  = list_sum (map (fun e => List.length (detections e)) entries).
Proof.
  assert (E : List.length (appended (detectionsOf entries))
              = List.length (flat_map rowsOf entries)).
  { unfold detectionsOf. destruct (flat_map rowsOf entries); reflexivity. }
  rewrite E, length_flat_map. f_equal.
  apply map_ext. intros e. apply length_map.
Qed.

(** C6.  For every sequence of report entries the transformer builds
    one card per entry, the gallery holds one card per entry, and the
    detections table holds one row per detection of the report: as
    many rows as the lengths of the entries' detections add up to. *)
Theorem one_card_per_entry_one_row_per_detection
        (entries : list ReportEntry) (w : World) :
  (exists pages, mapR toPage (map jsonEntry entries) = Ok pages
                 /\ List.length pages = List.length entries)
  /\ List.length (appended (gallery (exec (loadReport (serving entries)) w)))
     = List.length entries
  /\ List.length (appended (detectionsBody (exec (loadReport (serving entries)) w)))
     = list_sum (map (fun e => List.length (detections e)) entries).
Proof.
  split; [|unfold exec; rewrite loadReport_serving; split].
  - exists (map pageOf entries). split; [apply mapR_toPage | apply length_map].
  - apply length_appended_galleryOf.
  - apply length_appended_detectionsOf.
Qed.

(** ** Report Loader *)

Lemma preserves_awaitFetch {F : Type} (f : World -> F) (net : Network) (req : Request) :
  (forall rs w, f (withRequests rs w) = f w) -> preserves f (awaitFetch net req).
Proof.
  intros Hf w. unfold awaitFetch, bind, fetch.
  destruct (net (requests w) req); apply Hf.
Qed.

Lemma preserves_responseJson {F : Type} (f : World -> F) (body : Body) :
  preserves f (responseJson body).
Proof. destruct body; intros w; reflexivity. Qed.

Lemma paintLoading_run (w : World) :
  paintLoading w
  = (Ok tt, withSummary blankRegion
              (withDetectionsBody (setInnerHTML LOADING_DETECTIONS)
                 (withGallery (setInnerHTML LOADING_PAGES) w))).
Proof. reflexivity. Qed.

Lemma paintUnavailable_run (w : World) :
  paintUnavailable w
  = (Ok tt, withDetectionsBody (setInnerHTML NOT_AVAILABLE)
              (withGallery (setInnerHTML UNABLE_TO_LOAD) w)).
Proof. reflexivity. Qed.

(** The part of the [try] block that follows the fetch. *)
Lemma fetchAndRender_frame {F : Type} (f : World -> F) (net : Network) :
  (forall r w, f (withGallery r w) = f w) ->
  (forall r w, f (withDetectionsBody r w) = f w) ->
  (forall r w, f (withSummary r w) = f w) ->
  (forall rs w, f (withRequests rs w) = f w) ->
  preserves f (fetchAndRender net).
Proof.
  intros Hg Hd Hs Hr. unfold fetchAndRender.
  repeat first
    [ apply preserves_awaitFetch; exact Hr
    | apply preserves_responseJson
    | apply renderGallery_frame; exact Hg
    | apply renderDetections_frame; exact Hd
    | apply renderSummary_frame; exact Hs
    | frame_step ].
Qed.

Lemma loadReport_frame {F : Type} (f : World -> F) (net : Network) :
  (forall r w, f (withGallery r w) = f w) ->
  (forall r w, f (withDetectionsBody r w) = f w) ->
  (forall r w, f (withSummary r w) = f w) ->
  (forall rs w, f (withRequests rs w) = f w) ->
  preserves f (loadReport net).
Proof.
  intros Hg Hd Hs Hr. unfold loadReport, paintLoading, paintUnavailable.
  repeat first
    [ apply fetchAndRender_frame; assumption
    | apply preserves_modify; intros; first [apply Hg | apply Hd | apply Hs]
    | frame_step ].
Qed.

(** Whatever happens, a retrieval sends exactly one request. *)
Lemma fetchAndRender_requests (net : Network) (w : World) :
  requests (snd (fetchAndRender net w)) = (requests w ++ [reportRequest])%list.
Proof.
  unfold fetchAndRender, awaitFetch. unfold bind at 1 2. unfold fetch at 1.
  destruct (net (requests w) reportRequest) as [e|status body]; [reflexivity|].
  cbn [ret fst snd].
  match goal with
  | |- requests (snd (?m ?w0)) = _ =>
      assert (P : preserves requests m); [|rewrite (P w0); reflexivity]
  end.
  repeat first
    [ apply preserves_responseJson
    | apply renderGallery_frame; reflexivity
    | apply renderDetections_frame; reflexivity
    | apply renderSummary_frame; reflexivity
    | frame_step ].
Qed.

Lemma loadReport_requests (net : Network) (w : World) :
  requests (exec (loadReport net) w) = (requests w ++ [reportRequest])%list.
Proof.
  unfold exec, loadReport, bind, tryCatch. rewrite paintLoading_run.
  pose proof (fetchAndRender_requests net
                (withSummary blankRegion
                   (withDetectionsBody (setInnerHTML LOADING_DETECTIONS)
                      (withGallery (setInnerHTML LOADING_PAGES) w)))) as H.
  destruct (fetchAndRender net _) as [[[]|e] w2]; simpl in *; exact H.
Qed.

(** [loadReport] handles its own failures: it never throws. *)
Lemma loadReport_returns (net : Network) (w : World) :
  fst (loadReport net w) = Ok tt.
Proof.
  unfold loadReport, bind, tryCatch. rewrite paintLoading_run.
  destruct (fetchAndRender net _) as [[[]|e] w2]; reflexivity.
Qed.

Lemma forEach_appendPill_returns (l : list (string * CountValue)) (w : World) :
  fst (forEach appendPill l w) = Ok tt.
Proof.
  revert w. induction l as [|x l IH]; intros w; [reflexivity|].
  cbn [forEach]. unfold bind. cbn [appendPill modify]. apply IH.
Qed.

Lemma throwsClear_bind {A B : Type} (m : M A) (k : A -> M B) :
  preserves summary m -> (forall a, throwsClear (k a)) -> throwsClear (bind m k).
Proof.
  intros Hm Hk w e w' Hw E. unfold bind in E. specialize (Hm w).
  destruct (m w) as [[a|e0] w1]; simpl in Hm.
  - apply (Hk a w1 e w'); congruence.
  - inversion E; subst. congruence.
Qed.

Lemma throwsClear_preserves {A : Type} (m : M A) : preserves summary m -> throwsClear m.
Proof.
  intros Hm w e w' Hw E. specialize (Hm w). rewrite E in Hm. simpl in Hm. congruence.
Qed.

(** [renderSummary] throws, if at all, before it paints. *)
Lemma renderSummary_throwsClear (detections : value) :
  throwsClear (renderSummary detections).
Proof.
  intros w e w' _ E. unfold renderSummary, bind in E. cbn [modify lift] in E.
  destruct (lengthOf detections) as [len|e0]; [|inversion E; reflexivity].
  destruct (negb (truthy len)); [discriminate|].
  destruct (asArray detections "reduce") as [items|e0]; [|inversion E; reflexivity].
  destruct (reduce countDetection items []) as [counts|e0];
    [|inversion E; reflexivity].
  pose proof (forEach_appendPill_returns (ObjectEntries counts)
                (withSummary (setInnerHTML "") w)) as H.
  rewrite E in H. discriminate.
Qed.

Lemma fetchAndRender_throwsClear (net : Network) : throwsClear (fetchAndRender net).
Proof.
  unfold fetchAndRender.
  repeat first
    [ apply renderSummary_throwsClear
    | apply throwsClear_bind; [|intros]
    | apply preserves_awaitFetch; reflexivity
    | apply preserves_responseJson
    | apply renderGallery_frame; reflexivity
    | apply renderDetections_frame; reflexivity
    | frame_step ].
Qed.

(** The [catch] block repaints gallery and detections, and the summary
    is still the cleared one. *)
Lemma loadReport_on_failure (net : Network) (w : World) :
  loadFails net w -> ErrorState (exec (loadReport net) w).
Proof.
  intros [e Hfail].
  unfold exec in *. unfold loadReport, bind, tryCatch.
  rewrite paintLoading_run in *. cbn [snd] in Hfail.
  destruct (fetchAndRender net _) as [r w2] eqn:E. cbn [fst] in Hfail. subst r.
  rewrite paintUnavailable_run. unfold ErrorState. cbn [snd].
  repeat split.
  refine (fetchAndRender_throwsClear net _ e w2 _ E). reflexivity.
Qed.

(** The failures the specification names are failures of the [try]
    block: a network error, a status outside 200-299, a body that is
    not JSON, and a body that is JSON but not an array. *)
Lemma named_failures_fail (net : Network) (w : World) :
  match net (requests w) reportRequest with
  | Rejected _ => True
  | Responded status body =>
      responseOk status = false
      \/ (exists e, body = NotJson e)
      \/ (exists v, body = Json v /\ forall items, v <> VArr items)
  end ->
  loadFails net w.
Proof.
  unfold loadFails, exec. rewrite paintLoading_run. cbn [snd].
  unfold fetchAndRender, awaitFetch. unfold bind at 1 2. unfold fetch.
  cbn [requests withSummary withDetectionsBody withGallery].
  destruct (net (requests w) reportRequest) as [e|status body]; intros H.
  - exists e. reflexivity.
  - cbn [ret fst snd]. unfold bind at 1.
    destruct (responseOk status) eqn:Eok; cbn [negb].
    + destruct H as [H|[[e ->]|(v & -> & Hv)]]; [discriminate| |].
      * exists e. reflexivity.
      * cbn [ret]. unfold bind at 1. cbn [responseJson ret].
        unfold bind at 1. cbn [lift].
        destruct v; try (eexists; reflexivity).
        destruct (Hv items eq_refl).
    + eexists. reflexivity.
Qed.

(** A body that parses and only fails deep inside the rendering: the
    gallery was painted before [renderDetections] threw on the [null]
    detections, and nothing of it remains. *)
Example malformed_entry_leaves_error_state :
  exec (loadReport (always (Responded 200 (Json (VArr
          [VObj [("file", VStr "a/inv.pdf"); ("page", VNum (NInt 1));
                 ("language", VStr "en"); ("detections", VNull)]])))))
       (initialWorld [])
  = withRequests [reportRequest]
      (withDetectionsBody (setInnerHTML NOT_AVAILABLE)
         (withGallery (setInnerHTML UNABLE_TO_LOAD) (initialWorld []))).
Proof. reflexivity. Qed.

(** ** Upload Controller *)

Lemma onSubmit_no_file (net : Network) (w : World) :
  fileInput w = [] ->
  onSubmit net w = (Ok tt, withUploadStatus "Please select a file to upload." w).
Proof. intros H. unfold onSubmit. rewrite H. reflexivity. Qed.

(** C8.  With no file selected, the handler sets the status line to
    "Please select a file to upload." and stops: it changes nothing
    else, and in particular sends no request. *)
Theorem upload_without_file (net : Network) (w : World) :
  fileInput w = [] ->
  exec (onSubmit net) w = withUploadStatus "Please select a file to upload." w
  /\ uploadStatus (exec (onSubmit net) w) = "Please select a file to upload."
  /\ requests (exec (onSubmit net) w) = requests w.
Proof.
  intros H. unfold exec. rewrite (onSubmit_no_file net w H). repeat split.
Qed.

Lemma upload_without_file_witness :
  exec (onSubmit (always (Rejected (TypeError "Failed to fetch")))) (initialWorld [])
    = withUploadStatus "Please select a file to upload." (initialWorld [])
  /\ uploadStatus (exec (onSubmit (always (Rejected (TypeError "Failed to fetch"))))
                     (initialWorld []))
     = "Please select a file to upload."
  /\ requests (exec (onSubmit (always (Rejected (TypeError "Failed to fetch"))))
                 (initialWorld []))
     = requests (initialWorld []).
Proof.
  apply (upload_without_file (always (Rejected (TypeError "Failed to fetch")))
           (initialWorld [])).
  reflexivity.
Defined.

(** A response that is not a success: nothing but the status line and
    the request log changes. *)
Lemma onSubmit_not_ok (net : Network) (w : World) (file : File) (others : list File)
      (status : nat) (body : Body) :
  fileInput w = file :: others ->
  net (requests w) (uploadRequest file) = Responded status body ->
  responseOk status = false ->
  onSubmit net w
  = (Ok tt, withUploadStatus ("Error: " ++ uploadErrorMessage body) (uploadSent file w)).
Proof.
  intros Hfile Hnet Hok. unfold onSubmit. rewrite Hfile.
  unfold bind at 1. cbn [modify]. unfold tryCatch, awaitFetch.
  unfold bind at 1 2 3. unfold fetch.
  cbn [requests withUploadStatus]. rewrite Hnet. cbn [ret fst snd].
  rewrite Hok. cbn [negb]. unfold bind at 1.
  destruct body as [e|data]; [reflexivity|].
  cbn [responseJson ret]. unfold bind at 1. cbn [lift uploadErrorMessage].
  destruct (rbind (get data "error") _) as [msg|e]; reflexivity.
Qed.

(** C2, as amended.  When the POST receives a status that is not a
    success, no reload is triggered: the report view, the file
    selection and the request log (but for the POST itself) are as
    they were.  The status line becomes "Error: <message>" when the
    body is an object whose [error] is a non-empty string,
    "Error: Upload failed" when the body is an object without that
    field, and "Error: " followed by the parser's own message when
    the body is not JSON. *)
Theorem upload_rejected (net : Network) (w : World) (file : File) (others : list File)
        (status : nat) (body : Body) :
  fileInput w = file :: others ->
  net (requests w) (uploadRequest file) = Responded status body ->
  responseOk status = false ->
  reportView (exec (onSubmit net) w) = reportView w
  /\ fileInput (exec (onSubmit net) w) = fileInput w
  /\ requests (exec (onSubmit net) w) = (requests w ++ [uploadRequest file])%list
  /\ (forall members msg,
        body = Json (VObj members) ->
        getOwn "error" members = Some (VStr msg) -> msg <> "" ->
        uploadStatus (exec (onSubmit net) w) = "Error: " ++ msg)
  /\ (forall members,
        body = Json (VObj members) ->
        getOwn "error" members = None ->
        uploadStatus (exec (onSubmit net) w) = "Error: Upload failed")
  /\ (forall e,
        body = NotJson e ->
        uploadStatus (exec (onSubmit net) w) = "Error: " ++ message e).
Proof.
  intros Hfile Hnet Hok. unfold exec.
  rewrite (onSubmit_not_ok net w file others status body Hfile Hnet Hok).
  cbn [snd uploadStatus withUploadStatus].
  repeat split.
  - intros members msg -> Hget Hmsg.
    cbn [uploadErrorMessage get]. rewrite Hget. cbn [rbind truthy].
    apply String.eqb_neq in Hmsg. rewrite Hmsg. reflexivity.
  - intros members -> Hget.
    cbn [uploadErrorMessage get]. rewrite Hget. reflexivity.
  - intros e ->. reflexivity.
Qed.

Lemma upload_rejected_witness :
  let net := always (Responded 400
                       (Json (VObj [("error", VStr "unsupported file type")]))) in
  let file := {| fileName := "notes.txt"; bytes := [] |} in
  let w := initialWorld [file] in
  reportView (exec (onSubmit net) w) = reportView w
  /\ fileInput (exec (onSubmit net) w) = fileInput w
  /\ requests (exec (onSubmit net) w) = (requests w ++ [uploadRequest file])%list
  /\ (forall members msg,
        Json (VObj [("error", VStr "unsupported file type")]) = Json (VObj members) ->
        getOwn "error" members = Some (VStr msg) -> msg <> "" ->
        uploadStatus (exec (onSubmit net) w) = "Error: " ++ msg)
  /\ (forall members,
        Json (VObj [("error", VStr "unsupported file type")]) = Json (VObj members) ->
        getOwn "error" members = None ->
        uploadStatus (exec (onSubmit net) w) = "Error: Upload failed")
  /\ (forall e,
        Json (VObj [("error", VStr "unsupported file type")]) = NotJson e ->
        uploadStatus (exec (onSubmit net) w) = "Error: " ++ message e).
Proof.
  apply (upload_rejected
           (always (Responded 400
                      (Json (VObj [("error", VStr "unsupported file type")]))))
           (initialWorld [{| fileName := "notes.txt"; bytes := [] |}])
           {| fileName := "notes.txt"; bytes := [] |} [] 400
           (Json (VObj [("error", VStr "unsupported file type")])));
    reflexivity.
Defined.

(** Scenario F. *)
Example scenario_F :
  exec (onSubmit (always (Responded 400
                            (Json (VObj [("error", VStr "unsupported file type")])))))
       (initialWorld [{| fileName := "notes.txt"; bytes := [] |}])
  = withUploadStatus "Error: unsupported file type"
      (uploadSent {| fileName := "notes.txt"; bytes := [] |}
         (initialWorld [{| fileName := "notes.txt"; bytes := [] |}])).
Proof. reflexivity. Qed.

(** C2 as stated fails: on a failure status with a body that is not
    JSON (here an empty one), the status line shows the parser's
    message, not "Error: Upload failed". *)
Lemma upload_rejected_unparseable_body :
  uploadStatus
    (exec (onSubmit (always (Responded 500
                               (NotJson (mkError "SyntaxError"
                                           "Unexpected end of JSON input")))))
          (initialWorld [{| fileName := "invoice.pdf"; bytes := [] |}]))
  = "Error: Unexpected end of JSON input".
Proof. reflexivity. Qed.

(** A success: the status line, the cleared selection, and
    [loadReport] run on the page so prepared. *)
Lemma onSubmit_ok (net : Network) (w : World) (file : File) (others : list File)
      (status : nat) (data : value) (pages : string) :
  fileInput w = file :: others ->
  net (requests w) (uploadRequest file) = Responded status (Json data) ->
  responseOk status = true ->
  (p <~ get data "pages" ;; ToString p) = Ok pages ->
  onSubmit net w = (Ok tt, exec (loadReport net) (uploadProcessed file pages w)).
Proof.
  intros Hfile Hnet Hok Hpages. unfold onSubmit. rewrite Hfile.
  unfold bind at 1. cbn [modify]. unfold tryCatch, awaitFetch.
  unfold bind at 1 2 3. unfold fetch.
  cbn [requests withUploadStatus]. rewrite Hnet. cbn [ret fst snd].
  rewrite Hok. cbn [negb ret]. unfold bind at 1. cbn [responseJson ret].
  unfold bind at 1. cbn [lift]. rewrite Hpages.
  unfold bind at 1. cbn [modify]. unfold bind at 1. cbn [modify].
  change (withFileInput [] _) with (uploadProcessed file pages w).
  pose proof (loadReport_returns net (uploadProcessed file pages w)) as Hret.
  unfold exec. destruct (loadReport net (uploadProcessed file pages w)) as [r w'].
  cbn [fst] in Hret. subst r. reflexivity.
Qed.

(** C4.  When the POST succeeds and answers a page count [N], the
    status line reads "Processed <N> page(s).", the file selection is
    cleared and Report Loader runs (one GET after the POST).  This
    holds whatever becomes of the reload; when the reload fails, the
    failure shows only as Report Loader's Error state. *)
Theorem upload_processed (net : Network) (w : World) (file : File) (others : list File)
        (status : nat) (data : value) (N : Number) :
  fileInput w = file :: others ->
  net (requests w) (uploadRequest file) = Responded status (Json data) ->
  responseOk status = true ->
  get data "pages" = Ok (VNum N) ->
  exec (onSubmit net) w
    = exec (loadReport net) (uploadProcessed file (NumberToString N) w)
  /\ fst (onSubmit net w) = Ok tt
  /\ uploadStatus (exec (onSubmit net) w)
     = "Processed " ++ NumberToString N ++ " page(s)."
  /\ fileInput (exec (onSubmit net) w) = []
  /\ requests (exec (onSubmit net) w)
     = (requests w ++ [uploadRequest file; reportRequest])%list
  /\ (loadFails net (uploadProcessed file (NumberToString N) w) ->
      ErrorState (exec (onSubmit net) w)).
Proof.
  intros Hfile Hnet Hok Hpages.
  assert (Hrun : onSubmit net w
                 = (Ok tt, exec (loadReport net)
                             (uploadProcessed file (NumberToString N) w))).
  { apply (onSubmit_ok net w file others status data); try assumption.
    rewrite Hpages. reflexivity. }
  unfold exec at 1 2 3 4 5. rewrite Hrun. cbn [fst snd].
  refine (conj eq_refl (conj eq_refl (conj _ (conj _ (conj _ _))))).
  - apply (loadReport_frame uploadStatus); reflexivity.
  - apply (loadReport_frame fileInput); reflexivity.
  - rewrite loadReport_requests. cbn [requests uploadProcessed uploadSent
      withFileInput withUploadStatus withRequests].
    rewrite <- app_assoc. reflexivity.
  - intros Hfail. unfold exec at 1. rewrite Hrun.
    exact (loadReport_on_failure _ _ Hfail).
Qed.

Lemma upload_processed_witness :
  let net := always (Responded 200 (Json (VObj [("pages", VNum (NInt 3))]))) in
  let file := {| fileName := "invoice.pdf"; bytes := [] |} in
  let w := initialWorld [file] in
  exec (onSubmit net) w
    = exec (loadReport net) (uploadProcessed file (NumberToString (NInt 3)) w)
  /\ fst (onSubmit net w) = Ok tt
  /\ uploadStatus (exec (onSubmit net) w)
     = "Processed " ++ NumberToString (NInt 3) ++ " page(s)."
  /\ fileInput (exec (onSubmit net) w) = []
  /\ requests (exec (onSubmit net) w)
     = (requests w ++ [uploadRequest file; reportRequest])%list
  /\ (loadFails net (uploadProcessed file (NumberToString (NInt 3)) w) ->
      ErrorState (exec (onSubmit net) w)).
Proof.
  apply (upload_processed
           (always (Responded 200 (Json (VObj [("pages", VNum (NInt 3))]))))
           (initialWorld [{| fileName := "invoice.pdf"; bytes := [] |}])
           {| fileName := "invoice.pdf"; bytes := [] |} [] 200
           (VObj [("pages", VNum (NInt 3))]) (NInt 3));
    reflexivity.
Defined.

(** The upload stays reported as successful when the reload fails:
    here the server answers the reload with the upload's own body,
    which is no report. *)
Example upload_processed_reload_fails :
  let net := always (Responded 200 (Json (VObj [("pages", VNum (NInt 3))]))) in
  let w' := exec (onSubmit net)
                 (initialWorld [{| fileName := "invoice.pdf"; bytes := [] |}]) in
  uploadStatus w' = "Processed 3 page(s)."
  /\ gallery w' = setInnerHTML UNABLE_TO_LOAD
  /\ detectionsBody w' = setInnerHTML NOT_AVAILABLE
  /\ summary w' = blankRegion.
Proof. repeat split. Qed.

(** ** The counts of the summary *)

Lemma mem_cons (t x : string) (l : list string) :
  mem t (x :: l) = String.eqb t x || mem t l.
Proof. reflexivity. Qed.

Lemma mem_In (t : string) (l : list string) : mem t l = true <-> In t l.
Proof.
  unfold mem. rewrite existsb_exists. split.
  - intros (x & Hx & E). apply String.eqb_eq in E. subst. exact Hx.
  - intros H. exists t. split; [exact H | apply String.eqb_refl].
Qed.

Lemma mem_filter_other (t x : string) (l : list string) :
  mem t (filter (fun u => negb (String.eqb u x)) l)
  = negb (String.eqb t x) && mem t l.
Proof.
  induction l as [|u l IH]; cbn [filter]; [now rewrite andb_false_r|].
  destruct (String.eqb u x) eqn:Eu; cbn [negb]; rewrite !mem_cons, ?IH.
  - apply String.eqb_eq in Eu. subst u.
    destruct (String.eqb t x); reflexivity.
  - destruct (String.eqb t x) eqn:Et; cbn [negb andb]; [|reflexivity].
    apply String.eqb_eq in Et. subst t.
    rewrite String.eqb_sym, Eu. reflexivity.
Qed.

Lemma mem_firstSeen (t : string) (l : list string) : mem t (firstSeen l) = mem t l.
Proof.
  induction l as [|x l IH]; [reflexivity|].
  cbn [firstSeen]. rewrite !mem_cons, mem_filter_other, IH.
  destruct (String.eqb t x); reflexivity.
Qed.

Lemma NoDup_firstSeen (l : list string) : NoDup (firstSeen l).
Proof.
  induction l as [|x l IH]; cbn [firstSeen]; constructor.
  - intros H. apply filter_In in H as [_ H].
    rewrite String.eqb_refl in H. discriminate.
  - apply NoDup_filter. exact IH.
Qed.

Lemma firstSeen_snoc (l : list string) (t : string) :
  firstSeen (l ++ [t]) = if mem t l then firstSeen l else (firstSeen l ++ [t])%list.
Proof.
  induction l as [|x l IH]; [reflexivity|].
  cbn [app firstSeen]. rewrite IH, mem_cons.
  destruct (mem t l) eqn:Ml.
  - rewrite orb_true_r. reflexivity.
  - rewrite orb_false_r, filter_app. cbn [filter].
    destruct (String.eqb t x); cbn [negb]; [|reflexivity].
    rewrite app_nil_r. reflexivity.
Qed.

Lemma occurrences_snoc (t u : string) (l : list string) :
  occurrences t (l ++ [u]) = occurrences t l + (if String.eqb u t then 1 else 0).
Proof.
  induction l as [|x l IH]; cbn [app occurrences]; [lia|].
  rewrite IH. lia.
Qed.

Lemma occurrences_bounds (t : string) (l : list string) :
  0 <= occurrences t l <= Z.of_nat (List.length l).
Proof.
  induction l as [|x l IH]; cbn [occurrences List.length]; [lia|].
  destruct (String.eqb x t); lia.
Qed.

Lemma occurrences_mem (t : string) (l : list string) :
  mem t l = true -> 1 <= occurrences t l.
Proof.
  induction l as [|x l IH]; [discriminate|].
  rewrite mem_cons. cbn [occurrences]. rewrite (String.eqb_sym t x).
  pose proof (occurrences_bounds t l) as Hb.
  destruct (String.eqb x t); cbn [orb]; [lia|].
  intros H. specialize (IH H). lia.
Qed.

Lemma occurrences_not_mem (t : string) (l : list string) :
  mem t l = false -> occurrences t l = 0.
Proof.
  induction l as [|x l IH]; [reflexivity|].
  rewrite mem_cons. cbn [occurrences]. rewrite (String.eqb_sym t x).
  destruct (String.eqb x t); cbn [orb]; [discriminate|].
  intros H. rewrite (IH H). reflexivity.
Qed.

Section Tally.
(** An object whose keys are [keys], each with the value [f] gives it. *)
Variable f : string -> CountValue.

Let tally (keys : list string) : CountObject := map (fun u => (u, f u)) keys.

Lemma assoc_tally (t : string) (keys : list string) :
  assoc t (tally keys) = if mem t keys then Some (f t) else None.
Proof.
  induction keys as [|x keys IH]; [reflexivity|].
  cbn [tally map assoc]. rewrite mem_cons, (String.eqb_sym t x).
  destruct (String.eqb x t) eqn:E; cbn [orb]; [|exact IH].
  apply String.eqb_eq in E. subst. reflexivity.
Qed.

Lemma updateOrAppend_new (t : string) (v : CountValue) (keys : list string) :
  mem t keys = false ->
  updateOrAppend t v (tally keys) = (tally keys ++ [(t, v)])%list.
Proof.
  induction keys as [|x keys IH]; [reflexivity|].
  rewrite mem_cons, (String.eqb_sym t x). cbn [tally map updateOrAppend app].
  destruct (String.eqb x t); cbn [orb]; [discriminate|].
  intros H. fold (tally keys). rewrite (IH H). reflexivity.
Qed.

Lemma updateOrAppend_old (t : string) (v : CountValue) (keys : list string) :
  NoDup keys -> mem t keys = true ->
  updateOrAppend t v (tally keys)
  = map (fun u => (u, if String.eqb u t then v else f u)) keys.
Proof.
  induction keys as [|x keys IH]; [discriminate|].
  intros Hnd. inversion Hnd as [|? ? Hx Hnd']; subst.
  rewrite mem_cons, (String.eqb_sym t x). cbn [tally map updateOrAppend].
  destruct (String.eqb x t) eqn:E; cbn [orb].
  - intros _. apply String.eqb_eq in E. subst x. f_equal.
    apply map_ext_in. intros u Hu.
    destruct (String.eqb u t) eqn:Eu; [|reflexivity].
    apply String.eqb_eq in Eu. subst u. contradiction.
  - intros H. fold (tally keys). rewrite (IH Hnd' H). reflexivity.
Qed.
End Tally.

Lemma inheritedName_false (t : string) :
  inheritedName t = false ->
  String.eqb t "__proto__" = false /\ assoc t objectPrototypeFunctions = None.
Proof.
  unfold inheritedName, getCount. cbn [assoc].
  destruct (String.eqb t "__proto__"); [discriminate|].
  destruct (assoc t objectPrototypeFunctions); [discriminate|].
  split; reflexivity.
Qed.

(** One more detection of a type that no plain object inherits. *)
Lemma countType_specCounts (l : list string) (t : string) :
  inheritedName t = false ->
  Z.of_nat (List.length l) < MAX_ARRAY_LENGTH ->
  countType (specCounts l) t = specCounts (l ++ [t]).
Proof.
  intros Ht Hlen. apply inheritedName_false in Ht as [Hproto Hfun].
  unfold countType, setCount, getCount, specCounts.
  rewrite Hproto, assoc_tally, mem_firstSeen, firstSeen_snoc.
  destruct (mem t l) eqn:Ml.
  - cbn [orZeroPlusOne].
    pose proof (occurrences_mem t l Ml) as H1.
    pose proof (occurrences_bounds t l) as H2.
    destruct (occurrences t l =? 0) eqn:E0; [apply Z.eqb_eq in E0; lia|].
    rewrite round_double_small by (unfold MAX_ARRAY_LENGTH in Hlen; lia).
    rewrite updateOrAppend_old;
      [|apply NoDup_firstSeen | rewrite mem_firstSeen; exact Ml].
    apply map_ext. intros u. rewrite occurrences_snoc, (String.eqb_sym u t).
    destruct (String.eqb t u) eqn:E.
    + apply String.eqb_eq in E. subst u. reflexivity.
    + rewrite Z.add_0_r. reflexivity.
  - rewrite Hfun. cbn [orZeroPlusOne].
    rewrite updateOrAppend_new by (rewrite mem_firstSeen; exact Ml).
    rewrite map_app. cbn [map].
    rewrite occurrences_snoc, String.eqb_refl, (occurrences_not_mem t l Ml).
    f_equal. apply map_ext_in. intros u Hu.
    rewrite occurrences_snoc.
    destruct (String.eqb t u) eqn:E; [|rewrite Z.add_0_r; reflexivity].
    apply String.eqb_eq in E. subst u.
    apply mem_In in Hu. rewrite mem_firstSeen in Hu. congruence.
Qed.

(** The counts after a stream whose types no plain object inherits:
    the types in first-seen order, each with its occurrences. *)
Lemma countTypes_specCounts (types : list string) :
  (forall t, In t types -> inheritedName t = false) ->
  Z.of_nat (List.length types) <= MAX_ARRAY_LENGTH ->
  countTypes types = specCounts types.
Proof.
  induction types as [|t l IH] using rev_ind; intros Hin Hlen; [reflexivity|].
  rewrite length_app in Hlen. cbn [List.length] in Hlen.
  unfold countTypes in *. rewrite fold_left_app. cbn [fold_left].
  rewrite IH.
  - apply countType_specCounts; [apply Hin, in_or_app; right; left; reflexivity | lia].
  - intros u Hu. apply Hin, in_or_app. left. exact Hu.
  - lia.
Qed.

(** ** The order of the pills *)

(** Without array-index keys, [Object.entries] lists the properties in
    the order of their creation. *)
Lemma ObjectEntries_named (acc : CountObject) :
  (forall kv, In kv acc -> arrayIndex (fst kv) = None) ->
  ObjectEntries acc = acc.
Proof.
  intros H. unfold ObjectEntries.
  assert (E : indexedEntries acc = [] /\ namedEntries acc = acc).
  { induction acc as [|[k v] acc IH]; [split; reflexivity|].
    assert (Hk : arrayIndex k = None) by (apply (H (k, v)); left; reflexivity).
    destruct IH as [IH1 IH2]; [intros kv Hkv; apply H; right; exact Hkv|].
    cbn [indexedEntries namedEntries filter fst]. rewrite Hk. split.
    - exact IH1.
    - f_equal. exact IH2. }
  destruct E as [-> ->]. reflexivity.
Qed.

Lemma pill_count (t : string) (c : Z) :
  0 <= c <= MAX_SAFE_INTEGER -> pill (t, CNum c) = specPill t c.
Proof.
  intros Hc. unfold pill, specPill. cbn [fst snd CountToString].
  rewrite NumberToString_safe by exact Hc. reflexivity.
Qed.

(** C3, as amended.  For every stream of detections whose types are
    not array indices (and that no plain object inherits), the summary
    shows one pill per type, "<type>: <count>", in the order in which
    each type first occurs in the stream. *)
Theorem summary_pills_first_seen (ds : list Detection) (w : World) :
  (forall d, In d ds -> arrayIndex (type d) = None) ->
  (forall d, In d ds -> inheritedName (type d) = false) ->
  Z.of_nat (List.length ds) <= MAX_ARRAY_LENGTH ->
  summary (exec (renderSummary (VArr (map jsonDetection ds))) w)
  = appendAll blankRegion
      (map (fun t => specPill t (occurrences t (map type ds)))
           (firstSeen (map type ds))).
Proof.
  intros Hidx Hinh Hlen. unfold exec. rewrite renderSummary_report.
  cbn [snd summary withSummary]. unfold summaryOf. f_equal.
  assert (Hin : forall t, In t (map type ds) ->
                          arrayIndex t = None /\ inheritedName t = false).
  { intros t Ht. apply in_map_iff in Ht as (d & <- & Hd). auto. }
  rewrite countTypes_specCounts;
    [|intros t Ht; apply Hin; exact Ht | rewrite length_map; exact Hlen].
  rewrite ObjectEntries_named.
  - unfold specCounts. rewrite map_map. apply map_ext. intros t.
    apply pill_count.
    pose proof (occurrences_bounds t (map type ds)) as Hb.
    rewrite length_map in Hb.
    unfold MAX_SAFE_INTEGER, MAX_ARRAY_LENGTH in *. lia.
  - intros [k v] Hkv. unfold specCounts in Hkv.
    apply in_map_iff in Hkv as (t & E & Ht). inversion E; subst. cbn [fst].
    apply Hin. apply mem_In. rewrite <- mem_firstSeen. apply mem_In. exact Ht.
Qed.

(** Scenario C. *)
Lemma summary_pills_first_seen_witness :
  summary (exec (renderSummary (VArr (map jsonDetection
             [ {| type := "EMAIL"; text_sample := "a@b.example";
                  confidence := NOther "0.97" "0.97" |};
               {| type := "EMAIL"; text_sample := "c@d.example";
                  confidence := NOther "0.91" "0.91" |};
               {| type := "SSN"; text_sample := "***-**-1234";
                  confidence := NInt 1 |} ])))
             (initialWorld []))
  = appendAll blankRegion [specPill "EMAIL" 2; specPill "SSN" 1].
Proof.
  apply (summary_pills_first_seen
           [ {| type := "EMAIL"; text_sample := "a@b.example";
                confidence := NOther "0.97" "0.97" |};
             {| type := "EMAIL"; text_sample := "c@d.example";
                confidence := NOther "0.91" "0.91" |};
             {| type := "SSN"; text_sample := "***-**-1234";
                confidence := NInt 1 |} ]
           (initialWorld [])).
  - intros d [<-|[<-|[<-|[]]]]; reflexivity.
  - intros d [<-|[<-|[<-|[]]]]; reflexivity.
  - vm_compute. discriminate.
Defined.

(** C3 as stated fails: a type that is an array index is listed
    before the types seen earlier.  Here the stream is SSN, 1040. *)
Lemma summary_pills_index_first :
  summary (exec (renderSummary (VArr (map jsonDetection
             [ {| type := "SSN"; text_sample := "***-**-1234";
                  confidence := NOther "0.99" "0.99" |};
               {| type := "1040"; text_sample := "Form 1040";
                  confidence := NOther "0.80" "0.80" |} ])))
             (initialWorld []))
  = appendAll blankRegion [specPill "1040" 1; specPill "SSN" 1]
  /\ firstSeen ["SSN"; "1040"] = ["SSN"; "1040"].
Proof. split; reflexivity. Qed.

(** ** The counts against the stream *)

Lemma sumCounts_tally (g : string -> Z) (keys : list string) :
  sumCounts (map (fun u => (u, CNum (g u))) keys) = Some (fold_right Z.add 0 (map g keys)).
Proof.
  induction keys as [|x keys IH]; [reflexivity|].
  cbn [map sumCounts fold_right]. rewrite IH. reflexivity.
Qed.

Lemma sum_indicator (t : string) (keys : list string) :
  NoDup keys ->
  fold_right Z.add 0 (map (fun u => if String.eqb t u then 1 else 0) keys)
  = if mem t keys then 1 else 0.
Proof.
  induction keys as [|x keys IH]; intros Hnd; [reflexivity|].
  inversion Hnd as [|? ? Hx Hnd']; subst.
  cbn [map fold_right]. rewrite mem_cons, (IH Hnd').
  destruct (String.eqb t x) eqn:E; cbn [orb]; [|lia].
  apply String.eqb_eq in E. subst x.
  destruct (mem t keys) eqn:M; [|lia].
  apply mem_In in M. contradiction.
Qed.

Lemma sum_add (g h : string -> Z) (keys : list string) :
  fold_right Z.add 0 (map (fun u => g u + h u) keys)
  = fold_right Z.add 0 (map g keys) + fold_right Z.add 0 (map h keys).
Proof.
  induction keys as [|x keys IH]; cbn [map fold_right]; [reflexivity|].
  rewrite IH. lia.
Qed.

(** Over the types in first-seen order, the occurrences add up to the
    length of the stream. *)
Lemma sum_occurrences (l : list string) :
  fold_right Z.add 0 (map (fun t => occurrences t l) (firstSeen l))
  = Z.of_nat (List.length l).
Proof.
  induction l as [|t l IH] using rev_ind; [reflexivity|].
  rewrite length_app, Nat2Z.inj_add. cbn [List.length].
  rewrite (map_ext _ (fun u => occurrences u l + (if String.eqb t u then 1 else 0)))
    by (intros u; apply occurrences_snoc).
  rewrite sum_add, firstSeen_snoc.
  destruct (mem t l) eqn:M.
  - rewrite IH, sum_indicator, mem_firstSeen, M by apply NoDup_firstSeen. lia.
  - rewrite !map_app, !fold_right_app. cbn [map fold_right].
    rewrite String.eqb_refl, (occurrences_not_mem t l M).
    assert (E : forall a b, fold_right Z.add (a + 0) b = fold_right Z.add 0 b + a).
    { intros a b. induction b as [|y b IHb]; cbn [fold_right]; lia. }
    rewrite !E, IH, sum_indicator, mem_firstSeen, M by apply NoDup_firstSeen. lia.
Qed.

(** X21.  As long as no type of the stream is a name that a plain
    object inherits, the counts are the occurrences, and they add up
    to the number of detections. *)
Lemma counts_match_stream (entries : list ReportEntry) :
  let types := map type (allDetections entries) in
  (forall t, In t types -> inheritedName t = false) ->
  Z.of_nat (List.length types) <= MAX_ARRAY_LENGTH ->
  reduce countDetection (map jsonDetection (allDetections entries)) []
    = Ok (countTypes types)
  /\ sumCounts (countTypes types) = Some (Z.of_nat (List.length (allDetections entries)))
  /\ forall t, assoc t (countTypes types)
               = if mem t types then Some (CNum (occurrences t types)) else None.
Proof.
  intros types Hinh Hlen. split; [apply reduce_countDetection|].
  rewrite (countTypes_specCounts types Hinh Hlen). unfold specCounts. split.
  - rewrite sumCounts_tally, sum_occurrences. unfold types.
    rewrite length_map. reflexivity.
  - intros t. rewrite (assoc_tally (fun t => CNum (occurrences t types))).
    rewrite mem_firstSeen. reflexivity.
Qed.

Lemma counts_match_stream_witness :
  let entries :=
    [ {| file := "a/inv.pdf"; page := 1; language := "en"; image_path := None;
         detections := [ {| type := "EMAIL"; text_sample := "a@b.example";
                            confidence := NOther "0.97" "0.97" |} ] |};
      {| file := "a/inv.pdf"; page := 2; language := "en"; image_path := None;
         detections := [ {| type := "EMAIL"; text_sample := "c@d.example";
                            confidence := NOther "0.91" "0.91" |};
                         {| type := "SSN"; text_sample := "***-**-1234";
                            confidence := NInt 1 |} ] |} ] in
  reduce countDetection (map jsonDetection (allDetections entries)) []
    = Ok [("EMAIL", CNum 2); ("SSN", CNum 1)]
  /\ sumCounts [("EMAIL", CNum 2); ("SSN", CNum 1)] = Some 3.
Proof.
  intros entries.
  destruct (counts_match_stream entries) as (H1 & H2 & _).
  - intros t [<-|[<-|[<-|[]]]]; reflexivity.
  - vm_compute. discriminate.
  - split; [exact H1 | exact H2].
Defined.

(** C7.  The counts go wrong on a type that names a property a plain
    object inherits.  One detection of type [constructor] leaves a
    count that is no number, the text of the inherited function
    followed by the digit 1, and this is what the pill shows; a
    detection of type [__proto__] is not counted at all, so the
    counts of a stream of two add up to one. *)
Theorem counts_collide_with_inherited_names :
  let odd := {| type := "constructor"; text_sample := "x"; confidence := NInt 1 |} in
  let entry := {| file := "a/inv.pdf"; page := 1; language := "en";
                  image_path := None; detections := [odd] |} in
  reduce countDetection (map jsonDetection (allDetections [entry])) []
    = Ok [("constructor", CStr "function Object() { [native code] }1")]
  /\ sumCounts [("constructor", CStr "function Object() { [native code] }1")] = None
  /\ appended (summary (exec (loadReport (serving [entry])) (initialWorld [])))
     = [ {| tagName := "div"; className := "pill";
            content := TextContent
                         "constructor: function Object() { [native code] }1" |} ]
  /\ reduce countDetection
       [VObj [("type", VStr "SSN")]; VObj [("type", VStr "__proto__")]] []
     = Ok [("SSN", CNum 1)]
  /\ sumCounts [("SSN", CNum 1)] = Some 1.
Proof. cbv zeta. repeat split. Qed.

(** ** The order of [Object.entries] in general *)

Lemma insertIndexed_perm {A : Type} (i : Z) (x : A) (l : list (Z * A)) :
  Permutation (insertIndexed i x l) ((i, x) :: l).
Proof.
  induction l as [|[j y] l IH]; cbn [insertIndexed]; [reflexivity|].
  destruct (i <? j); [reflexivity|].
  rewrite IH. apply perm_swap.
Qed.

Lemma insertIndexed_sorted {A : Type} (i : Z) (x : A) (l : list (Z * A)) :
  Sorted (fun a b => fst a <= fst b) l ->
  Sorted (fun a b => fst a <= fst b) (insertIndexed i x l).
Proof.
  induction l as [|[j y] l IH]; intros Hs; cbn [insertIndexed].
  - repeat constructor.
  - inversion Hs as [|? ? Hs' Hhd]; subst.
    destruct (i <? j) eqn:E.
    + apply Z.ltb_lt in E. constructor; [exact Hs|]. constructor. cbn [fst]. lia.
    + apply Z.ltb_ge in E. constructor; [apply IH; exact Hs'|].
      destruct l as [|[k z] l]; cbn [insertIndexed].
      * constructor. cbn [fst]. lia.
      * inversion Hhd as [|? ? Hjk]; subst. cbn [fst] in Hjk.
        destruct (i <? k); constructor; cbn [fst]; lia.
Qed.

Lemma indexedEntries_sorted (acc : CountObject) :
  Sorted (fun a b => fst a <= fst b) (indexedEntries acc).
Proof.
  induction acc as [|[k v] acc IH]; cbn [indexedEntries]; [constructor|].
  destruct (arrayIndex k); [apply insertIndexed_sorted; exact IH | exact IH].
Qed.

Lemma indexedEntries_perm (acc : CountObject) :
  Permutation (indexedEntries acc)
              (map (fun kv => (indexOf kv, kv)) (filter isIndex acc)).
Proof.
  induction acc as [|[k v] acc IH]; cbn [indexedEntries filter]; [reflexivity|].
  unfold isIndex at 1, indexOf. cbn [fst].
  destruct (arrayIndex k) as [i|] eqn:E; [|exact IH].
  rewrite insertIndexed_perm. cbn [map fst]. rewrite E.
  apply perm_skip. exact IH.
Qed.

(** [Object.entries] lists first the properties whose keys are array
    indices, in ascending order of the index, then the other
    properties in the order of their creation. *)
Lemma ObjectEntries_order (acc : CountObject) :
  exists indexed,
    ObjectEntries acc = (map snd indexed ++ filter (fun kv => negb (isIndex kv)) acc)%list
    /\ Sorted (fun a b => fst a <= fst b) indexed
    /\ Permutation indexed (map (fun kv => (indexOf kv, kv)) (filter isIndex acc)).
Proof.
  exists (indexedEntries acc). split; [|split].
  - unfold ObjectEntries, namedEntries. f_equal.
    apply filter_ext. intros kv. unfold isIndex.
    destruct (arrayIndex (fst kv)); reflexivity.
  - apply indexedEntries_sorted.
  - apply indexedEntries_perm.
Qed.

(** X22.  The pills in general, for types that no plain object
    inherits: those of the array-index types come first, by ascending
    index, and those of the other types follow in first-seen order. *)
Lemma summary_pills_order (ds : list Detection) (w : World) :
  (forall d, In d ds -> inheritedName (type d) = false) ->
  Z.of_nat (List.length ds) <= MAX_ARRAY_LENGTH ->
  exists indexed,
    appended (summary (exec (renderSummary (VArr (map jsonDetection ds))) w))
    = map pill (map snd indexed
                  ++ filter (fun kv => negb (isIndex kv)) (specCounts (map type ds)))%list
    /\ Sorted (fun a b => fst a <= fst b) indexed
    /\ Permutation indexed
         (map (fun kv => (indexOf kv, kv)) (filter isIndex (specCounts (map type ds)))).
Proof.
  intros Hinh Hlen.
  destruct (ObjectEntries_order (specCounts (map type ds))) as (indexed & E & Hs & Hp).
  exists indexed. split; [|split; assumption].
  unfold exec. rewrite renderSummary_report.
  cbn [snd summary withSummary summaryOf appendAll appended blankRegion setInnerHTML app].
  rewrite countTypes_specCounts, E; [reflexivity| |rewrite length_map; exact Hlen].
  intros t Ht. apply in_map_iff in Ht as (d & <- & Hd). auto.
Qed.

Lemma summary_pills_order_witness :
  exists indexed,
    appended (summary (exec (renderSummary (VArr (map jsonDetection
       [ {| type := "SSN"; text_sample := "***-**-1234";
            confidence := NOther "0.99" "0.99" |};
         {| type := "1040"; text_sample := "Form 1040";
            confidence := NOther "0.80" "0.80" |} ]))) (initialWorld [])))
    = map pill (map snd indexed ++ [("SSN", CNum 1)])%list
    /\ Sorted (fun a b => fst a <= fst b) indexed
    /\ Permutation indexed [(1040, ("1040", CNum 1))].
Proof.
  apply (summary_pills_order
           [ {| type := "SSN"; text_sample := "***-**-1234";
                confidence := NOther "0.99" "0.99" |};
             {| type := "1040"; text_sample := "Form 1040";
                confidence := NOther "0.80" "0.80" |} ] (initialWorld [])).
  - intros d [<-|[<-|[]]]; reflexivity.
  - vm_compute. discriminate.
Defined.

(** ** The scenarios of the specification *)

(** Scenario A: an empty report. *)
Example scenario_A :
  exec (loadReport (serving [])) (initialWorld [])
  = withRequests [reportRequest]
      (withSummary blankRegion
         (withDetectionsBody (setInnerHTML NO_DETECTIONS)
            (withGallery (setInnerHTML NO_PAGES) (initialWorld [])))).
Proof. reflexivity. Qed.

(** Scenario B: one entry without detections and without explicit
    image location. *)
Example scenario_B :
  let entry := {| file := "a/inv.pdf"; page := 1; language := "en";
                  image_path := None; detections := [] |} in
  exec (loadReport (serving [entry])) (initialWorld [])
  = withRequests [reportRequest]
      (withSummary blankRegion
         (withDetectionsBody (setInnerHTML NO_DETECTIONS)
            (withGallery
               (appendAll blankRegion
                  [ {| tagName := "div"; className := "card";
                       content := InnerHTML
                         (cardHTML "/out/redacted_images/inv_001.png"
                            "inv.pdf · Page 1" "inv.pdf · Page 1") |} ])
               (initialWorld [])))).
Proof. reflexivity. Qed.

(** Scenario D: the report endpoint answers HTTP 500. *)
Example scenario_D :
  exec (loadReport (always (Responded 500 (Json (VObj [("error", VStr "boom")])))))
       (initialWorld [])
  = withRequests [reportRequest]
      (withSummary blankRegion
         (withDetectionsBody (setInnerHTML NOT_AVAILABLE)
            (withGallery (setInnerHTML UNABLE_TO_LOAD) (initialWorld [])))).
Proof. reflexivity. Qed.

(** Scenario E: a submit with no file selected. *)
Example scenario_E :
  exec (onSubmit (serving [])) (initialWorld [])
  = withUploadStatus "Please select a file to upload." (initialWorld []).
Proof. reflexivity. Qed.

(** ** Independence of the render operations *)

Lemma commutes_ret {A : Type} (g : World -> World) (a : A) : commutes g (ret a).
Proof. intros w. reflexivity. Qed.

Lemma commutes_throw {A : Type} (g : World -> World) (e : Error) :
  commutes g (@throw A e).
Proof. intros w. reflexivity. Qed.

Lemma commutes_lift {A : Type} (g : World -> World) (r : result A) :
  commutes g (lift r).
Proof. intros w. reflexivity. Qed.

Lemma commutes_modify (g h : World -> World) :
  (forall w, h (g w) = g (h w)) -> commutes g (modify h).
Proof. intros H w. unfold modify. rewrite H. reflexivity. Qed.

Lemma commutes_bind {A B : Type} (g : World -> World) (m : M A) (k : A -> M B) :
  commutes g m -> (forall a, commutes g (k a)) -> commutes g (bind m k).
Proof.
  intros Hm Hk w. unfold bind. rewrite (Hm w).
  destruct (m w) as [[a|e] w1]; cbn [fst snd]; [apply Hk | reflexivity].
Qed.

Lemma commutes_tryCatch {A : Type} (g : World -> World) (m : M A) (h : Error -> M A) :
  commutes g m -> (forall e, commutes g (h e)) -> commutes g (tryCatch m h).
Proof.
  intros Hm Hh w. unfold tryCatch. rewrite (Hm w).
  destruct (m w) as [[a|e] w1]; cbn [fst snd]; [reflexivity | apply Hh].
Qed.

Lemma commutes_forEach {A : Type} (g : World -> World) (f : A -> M unit) (l : list A) :
  (forall x, commutes g (f x)) -> commutes g (forEach f l).
Proof.
  intros Hf. induction l as [|x l IH]; cbn [forEach].
  - apply commutes_ret.
  - apply commutes_bind; [apply Hf | intros _; exact IH].
Qed.

(** One step along the structure of [m] in a goal [commutes g m]. *)
Ltac commute_step :=
  lazymatch goal with
  | |- commutes _ (ret _) => apply commutes_ret
  | |- commutes _ (throw _) => apply commutes_throw
  | |- commutes _ (lift _) => apply commutes_lift
  | |- commutes _ (bind _ _) => apply commutes_bind; [|intros]
  | |- commutes _ (tryCatch _ _) => apply commutes_tryCatch; [|intros]
  | |- commutes _ (forEach _ _) => apply commutes_forEach; intros
  | |- commutes _ (if ?b then _ else _) => destruct b
  | |- commutes _ (match ?x with _ => _ end) => destruct x
  | |- commutes _ (let _ := _ in _) => cbv zeta
  end.

Lemma renderGallery_commutes (g : World -> World) (pages : value) :
  (forall r w, g (withGallery r w) = withGallery r (g w)) ->
  (forall w, gallery (g w) = gallery w) ->
  commutes g (renderGallery pages).
Proof.
  intros Hput Hget. unfold renderGallery, appendCard.
  repeat first
    [ apply commutes_modify; intros; rewrite ?Hget; symmetry; apply Hput
    | commute_step ].
Qed.

Lemma renderSummary_commutes (g : World -> World) (detections : value) :
  (forall r w, g (withSummary r w) = withSummary r (g w)) ->
  (forall w, summary (g w) = summary w) ->
  commutes g (renderSummary detections).
Proof.
  intros Hput Hget. unfold renderSummary, appendPill.
  repeat first
    [ apply commutes_modify; intros; rewrite ?Hget; symmetry; apply Hput
    | commute_step ].
Qed.

Lemma renderDetections_commutes (g : World -> World) (entries : value) :
  (forall r w, g (withDetectionsBody r w) = withDetectionsBody r (g w)) ->
  (forall w, detectionsBody (g w) = detectionsBody w) ->
  commutes g (renderDetections entries).
Proof.
  intros Hput Hget. unfold renderDetections, appendRows, appendRow.
  repeat first
    [ apply commutes_modify; intros; rewrite ?Hget; symmetry; apply Hput
    | commute_step ].
  intros w. unfold placeholderIfNoRows. rewrite Hget.
  destruct (appended (detectionsBody w)); cbn [modify ret fst snd];
    [rewrite Hput|]; reflexivity.
Qed.

Lemma exec_commutes {A : Type} (g : World -> World) (m : M A) (w : World) :
  commutes g m -> exec m (g w) = g (exec m w).
Proof. intros H. unfold exec. rewrite (H w). reflexivity. Qed.

(** X1.  The three render operations are independent: any two of
    them, on any inputs and from any page, leave the same page
    whichever runs first, also when one of them throws. *)
Theorem renderers_commute (a b c : value) (w : World) :
  exec (renderGallery a) (exec (renderDetections b) w)
    = exec (renderDetections b) (exec (renderGallery a) w)
  /\ exec (renderGallery a) (exec (renderSummary c) w)
    = exec (renderSummary c) (exec (renderGallery a) w)
  /\ exec (renderDetections b) (exec (renderSummary c) w)
    = exec (renderSummary c) (exec (renderDetections b) w).
Proof.
  repeat split.
  - apply (exec_commutes (exec (renderDetections b))).
    apply renderGallery_commutes.
    + intros r w0. apply (exec_commutes (withGallery r)).
      apply renderDetections_commutes; reflexivity.
    + intros w0. apply (renderDetections_frame gallery); reflexivity.
  - apply (exec_commutes (exec (renderSummary c))).
    apply renderGallery_commutes.
    + intros r w0. apply (exec_commutes (withGallery r)).
      apply renderSummary_commutes; reflexivity.
    + intros w0. apply (renderSummary_frame gallery); reflexivity.
  - apply (exec_commutes (exec (renderSummary c))).
    apply renderDetections_commutes.
    + intros r w0. apply (exec_commutes (withDetectionsBody r)).
      apply renderSummary_commutes; reflexivity.
    + intros w0. apply (renderSummary_frame detectionsBody); reflexivity.
Qed.

(** ** A retrieval and the rest of the page *)

Lemma awaitFetch_commutes (g : World -> World) (net : Network) (req : Request) :
  (forall rs w, g (withRequests rs w) = withRequests rs (g w)) ->
  (forall w, requests (g w) = requests w) ->
  commutes g (awaitFetch net req).
Proof.
  intros Hput Hget w. unfold awaitFetch, bind, fetch. rewrite Hget.
  destruct (net (requests w) req); cbn [throw ret fst snd]; rewrite Hput; reflexivity.
Qed.

Lemma responseJson_commutes (g : World -> World) (body : Body) :
  commutes g (responseJson body).
Proof. destruct body; intros w; reflexivity. Qed.

Lemma loadReport_commutes (g : World -> World) (net : Network) :
  (forall r w, g (withGallery r w) = withGallery r (g w)) ->
  (forall r w, g (withDetectionsBody r w) = withDetectionsBody r (g w)) ->
  (forall r w, g (withSummary r w) = withSummary r (g w)) ->
  (forall rs w, g (withRequests rs w) = withRequests rs (g w)) ->
  (forall w, reportView (g w) = reportView w) ->
  (forall w, requests (g w) = requests w) ->
  commutes g (loadReport net).
Proof.
  intros Hg Hd Hs Hr Hview Hreq.
  assert (Hgal : forall w, gallery (g w) = gallery w)
    by (intros w; specialize (Hview w); unfold reportView in Hview; congruence).
  assert (Hdet : forall w, detectionsBody (g w) = detectionsBody w)
    by (intros w; specialize (Hview w); unfold reportView in Hview; congruence).
  assert (Hsum : forall w, summary (g w) = summary w)
    by (intros w; specialize (Hview w); unfold reportView in Hview; congruence).
  unfold loadReport, paintLoading, paintUnavailable, fetchAndRender.
  repeat first
    [ apply awaitFetch_commutes; assumption
    | apply responseJson_commutes
    | apply renderGallery_commutes; assumption
    | apply renderDetections_commutes; assumption
    | apply renderSummary_commutes; assumption
    | apply commutes_modify; intros; symmetry; first [apply Hg | apply Hd | apply Hs]
    | commute_step ].
Qed.

(** X2.  A retrieval shows what the network answers and nothing
    else: from two pages with the same request log, whatever their
    regions, status line and file selection, [loadReport] ends the
    same way with the same report view, and it leaves the status line
    and the file selection of each page as they were. *)
Theorem loadReport_view_from_network (net : Network) (w w' : World) :
  requests w = requests w' ->
  fst (loadReport net w) = fst (loadReport net w')
  /\ reportView (exec (loadReport net) w) = reportView (exec (loadReport net) w')
  /\ requests (exec (loadReport net) w) = requests (exec (loadReport net) w')
  /\ uploadStatus (exec (loadReport net) w) = uploadStatus w
  /\ fileInput (exec (loadReport net) w) = fileInput w.
Proof.
  intros Hreq.
  set (g := fun x => withUploadStatus (uploadStatus w') (withFileInput (fileInput w') x)).
  assert (Hc : commutes g (loadReport net))
    by (apply loadReport_commutes; reflexivity).
  assert (E : loadReport net w' = loadReport net (g w)).
  { unfold loadReport, bind. rewrite !paintLoading_run. f_equal.
    apply world_eq; cbn; congruence. }
  unfold exec. rewrite E, (Hc w). cbn [fst snd].
  repeat split.
  - apply (loadReport_frame uploadStatus); reflexivity.
  - apply (loadReport_frame fileInput); reflexivity.
Qed.

Lemma loadReport_view_from_network_witness :
  let net := serving [ {| file := "a/inv.pdf"; page := 1; language := "en";
                          image_path := None; detections := [] |} ] in
  let w := initialWorld [] in
  let w' := withUploadStatus "Processed 1 page(s)."
              (withGallery (setInnerHTML UNABLE_TO_LOAD) (initialWorld [])) in
  fst (loadReport net w) = fst (loadReport net w')
  /\ reportView (exec (loadReport net) w) = reportView (exec (loadReport net) w')
  /\ requests (exec (loadReport net) w) = requests (exec (loadReport net) w')
  /\ uploadStatus (exec (loadReport net) w) = uploadStatus w
  /\ fileInput (exec (loadReport net) w) = fileInput w.
Proof.
  apply (loadReport_view_from_network
           (serving [ {| file := "a/inv.pdf"; page := 1; language := "en";
                         image_path := None; detections := [] |} ])
           (initialWorld [])
           (withUploadStatus "Processed 1 page(s)."
              (withGallery (setInnerHTML UNABLE_TO_LOAD) (initialWorld [])))).
  reflexivity.
Defined.

(** X3.  [loadReport] never throws, whatever the network answers and
    whatever the body holds, and it sends exactly one request, the
    uncached GET of the report. *)
Theorem loadReport_one_request_no_throw (net : Network) (w : World) :
  fst (loadReport net w) = Ok tt
  /\ requests (exec (loadReport net) w) = (requests w ++ [reportRequest])%list
  /\ cache reportRequest = Some "no-store"
  /\ method reportRequest = "GET".
Proof.
  split; [apply loadReport_returns|].
  split; [apply loadReport_requests|]. split; reflexivity.
Qed.

(** ** What makes a retrieval fail *)

(** X4.  A network error, a status outside 200-299 (whatever the
    body), a body that is not JSON, and a JSON body that is not an
    array each leave the Error state. *)
Theorem named_failures_show_error_state (net : Network) (w : World) :
  match net (requests w) reportRequest with
  | Rejected _ => True
  | Responded status body =>
      responseOk status = false
      \/ (exists e, body = NotJson e)
      \/ (exists v, body = Json v /\ forall items, v <> VArr items)
  end ->
  ErrorState (exec (loadReport net) w).
Proof.
  intros H. apply loadReport_on_failure, named_failures_fail. exact H.
Qed.

Lemma named_failures_show_error_state_witness :
  ErrorState (exec (loadReport (always (Responded 200 (Json (VObj
                [("error", VStr "no report yet")]))))) (initialWorld [])).
Proof.
  apply (named_failures_show_error_state
           (always (Responded 200 (Json (VObj [("error", VStr "no report yet")]))))
           (initialWorld [])).
  right. right. eexists. split; [reflexivity | discriminate].
Defined.

Lemma mapR_throws {A B : Type} (f : A -> result B) (l : list A) (x : A) (e : Error) :
  In x l -> f x = Throw e -> exists e', mapR f l = Throw e'.
Proof.
  induction l as [|y l IH]; intros Hin Hx; [destruct Hin|].
  cbn [mapR]. destruct (f y) as [b|e0] eqn:Ey; cbn [rbind]; [|eauto].
  destruct Hin as [->|Hin]; [congruence|].
  destruct (IH Hin Hx) as [e' ->]. cbn [rbind]. eauto.
Qed.

(** An entry without a string [file] cannot be turned into a card,
    with or without an explicit image location: the label needs it. *)
Lemma toPage_needs_file (entry : value) :
  entry = VNull
  \/ (exists members, entry = VObj members
                      /\ forall s, getOwn "file" members <> Some (VStr s)) ->
  exists e, toPage entry = Throw e.
Proof.
  intros [->|(members & -> & Hfile)]; [eexists; reflexivity|].
  unfold toPage. cbn [get].
  assert (Hsplit : exists e, (file <~ (match getOwn "file" members with
                                       | Some v' => Ok v'
                                       | None => Ok VUndefined
                                       end) ;; callSplit file "/") = Throw e).
  { destruct (getOwn "file" members) as [[| |b|n|s|items|ms]|];
      cbn [rbind callSplit get]; try (eexists; reflexivity).
    destruct (Hfile s eq_refl). }
  destruct Hsplit as [e He].
  destruct (getOwn "image_path" members) as [explicit|]; cbn [rbind].
  - destruct (truthy explicit); cbn [rbind].
    + rewrite He. eexists. reflexivity.
    + destruct (getOwn "file" members) as [[| |b|n|s|items|ms]|];
        cbn [rbind]; try (destruct (getOwn "page" members); eexists; reflexivity).
      destruct (Hfile s eq_refl).
  - cbn [truthy]. destruct (getOwn "file" members) as [[| |b|n|s|items|ms]|];
      cbn [rbind]; try (destruct (getOwn "page" members); eexists; reflexivity).
    destruct (Hfile s eq_refl).
Qed.

(** X5.  One unusable entry spoils the whole report: when the body is
    an array and any of its entries is [null] or has no string [file],
    the page ends in the Error state, however good the other entries
    are and even if that entry carries an explicit image location. *)
Theorem one_bad_entry_fails_load (net : Network) (w : World) (status : nat)
        (items : list value) (bad : value) :
  net (requests w) reportRequest = Responded status (Json (VArr items)) ->
  In bad items ->
  bad = VNull
  \/ (exists members, bad = VObj members
                      /\ forall s, getOwn "file" members <> Some (VStr s)) ->
  ErrorState (exec (loadReport net) w).
Proof.
  intros Hnet Hin Hbad. apply loadReport_on_failure.
  destruct (toPage_needs_file bad Hbad) as [e He].
  destruct (mapR_throws toPage items bad e Hin He) as [e' He'].
  unfold loadFails, exec. rewrite paintLoading_run. cbn [snd].
  unfold fetchAndRender, awaitFetch. unfold bind at 1 2. unfold fetch.
  cbn [requests withSummary withDetectionsBody withGallery]. rewrite Hnet.
  cbn [ret fst snd]. unfold bind at 1.
  destruct (responseOk status); cbn [negb]; [|eexists; reflexivity].
  cbn [ret]. unfold bind at 1. cbn [responseJson ret].
  unfold bind at 1. cbn [lift asArray rbind]. rewrite He'.
  eexists. reflexivity.
Qed.

Lemma one_bad_entry_fails_load_witness :
  ErrorState
    (exec (loadReport (always (Responded 200 (Json (VArr
             [ jsonEntry {| file := "a/inv.pdf"; page := 1; language := "en";
                            image_path := None; detections := [] |};
               VObj [("page", VNum (NInt 2)); ("language", VStr "en");
                     ("image_path", VStr "/out/redacted_images/inv_002.png");
                     ("detections", VArr [])] ])))))
          (initialWorld [])).
Proof.
  apply (one_bad_entry_fails_load
           (always (Responded 200 (Json (VArr
             [ jsonEntry {| file := "a/inv.pdf"; page := 1; language := "en";
                            image_path := None; detections := [] |};
               VObj [("page", VNum (NInt 2)); ("language", VStr "en");
                     ("image_path", VStr "/out/redacted_images/inv_002.png");
                     ("detections", VArr [])] ]))))
           (initialWorld []) 200
           [ jsonEntry {| file := "a/inv.pdf"; page := 1; language := "en";
                          image_path := None; detections := [] |};
             VObj [("page", VNum (NInt 2)); ("language", VStr "en");
                   ("image_path", VStr "/out/redacted_images/inv_002.png");
                   ("detections", VArr [])] ]
           (VObj [("page", VNum (NInt 2)); ("language", VStr "en");
                  ("image_path", VStr "/out/redacted_images/inv_002.png");
                  ("detections", VArr [])])).
  - reflexivity.
  - right. left. reflexivity.
  - right. eexists. split; [reflexivity | discriminate].
Defined.

(** ** Bodies that fail, and a body that should and does not *)

Lemma throwsAt_bind {A B : Type} (m : M A) (k : A -> M B) (w : World) :
  (forall a w', m w = (Ok a, w') -> throwsAt (k a) w') -> throwsAt (bind m k) w.
Proof.
  intros H. unfold throwsAt, bind. destruct (m w) as [[a|e] w'] eqn:E.
  - apply (H a w' eq_refl).
  - exists e. reflexivity.
Qed.

Lemma throwsAt_bind_first {A B : Type} (m : M A) (k : A -> M B) (w : World) :
  throwsAt m w -> throwsAt (bind m k) w.
Proof.
  intros [e He]. apply throwsAt_bind. intros a w' E. rewrite E in He. discriminate.
Qed.

Lemma throwsAt_lift {A : Type} (r : result A) (e : Error) (w : World) :
  r = Throw e -> throwsAt (lift r) w.
Proof. intros ->. exists e. reflexivity. Qed.

(** A loop throws when its callback throws on one of the elements,
    whatever the callbacks before it did. *)
Lemma forEach_throwsAt {A : Type} (f : A -> M unit) (l : list A) (x : A) :
  In x l -> (forall w, throwsAt (f x) w) -> forall w, throwsAt (forEach f l) w.
Proof.
  intros Hin Hf. induction l as [|y l IH]; intros w; [destruct Hin|].
  cbn [forEach]. destruct Hin as [->|Hin].
  - apply throwsAt_bind_first, Hf.
  - apply throwsAt_bind. intros _ w' _. apply IH. exact Hin.
Qed.

(** Anything but an object with a string [file] stops [entries.map]. *)
Lemma toPage_without_file (entry : value) :
  (forall members s, entry = VObj members -> getOwn "file" members <> Some (VStr s)) ->
  exists e, toPage entry = Throw e.
Proof.
  intros H. destruct entry as [| |b|n|s|items|members]; try (eexists; reflexivity).
  apply toPage_needs_file. right. exists members. split; [reflexivity|].
  intros s. apply (H members s eq_refl).
Qed.

(** A detection that is [null], or whose [confidence] is no number,
    gives no row: the template throws at it, if not before. *)
Lemma detectionRow_unusable (entry detection : value) :
  detection = VNull
  \/ (exists members, detection = VObj members
                      /\ forall n, getOwn "confidence" members <> Some (VNum n)) ->
  exists e, detectionRow entry detection = Throw e.
Proof.
  intros H. unfold detectionRow.
  destruct (rbind (get entry "file") _) as [file|e]; cbn [rbind]; [|eauto].
  destruct (rbind (get entry "page") _) as [page|e]; cbn [rbind]; [|eauto].
  destruct (rbind (get entry "language") _) as [language|e]; cbn [rbind]; [|eauto].
  destruct H as [->|(members & -> & Hc)]; [eexists; reflexivity|].
  destruct (rbind (get (VObj members) "type") _) as [type|e]; cbn [rbind]; [|eauto].
  destruct (rbind (get (VObj members) "text_sample") _) as [sample|e];
    cbn [rbind]; [|eauto].
  cbn [get].
  destruct (getOwn "confidence" members) as [[| |b|n|s|items|ms]|];
    cbn [rbind callToFixed2 get]; try (eexists; reflexivity).
  destruct (Hc n eq_refl).
Qed.

(** The entries at which [renderDetections] throws: [detections] is
    missing or [null], or is an array that holds a detection as
    above. *)
Lemma appendRows_unusable (entry : value) :
  (exists members,
      entry = VObj members
      /\ (getOwn "detections" members = None
          \/ getOwn "detections" members = Some VNull
          \/ exists items detection,
               getOwn "detections" members = Some (VArr items)
               /\ In detection items
               /\ (detection = VNull
                   \/ exists dm, detection = VObj dm
                                 /\ forall n, getOwn "confidence" dm <> Some (VNum n)))) ->
  forall w, throwsAt (appendRows entry) w.
Proof.
  intros (members & -> & H) w. unfold appendRows. cbn [get].
  destruct H as [H|[H|(items & detection & H & Hin & Hd)]]; rewrite H.
  - apply throwsAt_bind_first. eexists. reflexivity.
  - apply throwsAt_bind_first. eexists. reflexivity.
  - cbn [rbind lengthOf asArray]. apply throwsAt_bind. intros len w' E.
    inversion E; subst len w'. cbn [truthy].
    assert (Hlen : (Z.of_nat (List.length items) =? 0) = false).
    { apply Z.eqb_neq. destruct items; [destruct Hin | cbn [List.length]; lia]. }
    rewrite Hlen. cbn [negb]. apply throwsAt_bind. intros ds w' E'.
    inversion E'; subst ds w'.
    apply (forEach_throwsAt _ _ detection Hin). intros w'.
    destruct (detectionRow_unusable (VObj members) detection Hd) as [e He].
    unfold appendRow. apply throwsAt_bind_first. rewrite He. exists e. reflexivity.
Qed.

Lemma renderDetections_unusable (items : list value) (bad : value) :
  In bad items -> (forall w, throwsAt (appendRows bad) w) ->
  forall w, throwsAt (renderDetections (VArr items)) w.
Proof.
  intros Hin Hbad w. unfold renderDetections.
  apply throwsAt_bind. intros _ w1 _.
  cbn [lengthOf]. apply throwsAt_bind. intros len w2 E. inversion E; subst len w2.
  cbn [truthy].
  assert (Hlen : (Z.of_nat (List.length items) =? 0) = false).
  { apply Z.eqb_neq. destruct items; [destruct Hin | cbn [List.length]; lia]. }
  rewrite Hlen. cbn [negb asArray]. apply throwsAt_bind. intros ds w3 E'.
  inversion E'; subst ds w3.
  apply throwsAt_bind_first. apply (forEach_throwsAt _ _ bad Hin Hbad).
Qed.

(** An array body with one entry of either kind makes the [try] block
    throw: in [entries.map] for the first kind, in [renderDetections],
    after the gallery was painted, for the second if not before. *)
Lemma unusable_entry_fails (net : Network) (w : World) (status : nat)
      (items : list value) (bad : value) :
  net (requests w) reportRequest = Responded status (Json (VArr items)) ->
  In bad items ->
  (forall members s, bad = VObj members -> getOwn "file" members <> Some (VStr s))
  \/ (exists members,
        bad = VObj members
        /\ (getOwn "detections" members = None
            \/ getOwn "detections" members = Some VNull
            \/ exists ds detection,
                 getOwn "detections" members = Some (VArr ds)
                 /\ In detection ds
                 /\ (detection = VNull
                     \/ exists dm, detection = VObj dm
                                   /\ forall n, getOwn "confidence" dm <> Some (VNum n)))) ->
  loadFails net w.
Proof.
  intros Hnet Hin Hbad.
  unfold loadFails, exec. rewrite paintLoading_run. cbn [snd].
  unfold fetchAndRender, awaitFetch. unfold bind at 1 2. unfold fetch.
  cbn [requests withSummary withDetectionsBody withGallery]. rewrite Hnet.
  cbn [ret fst snd]. unfold bind at 1.
  destruct (responseOk status); cbn [negb]; [|eexists; reflexivity].
  cbn [ret]. unfold bind at 1. cbn [responseJson ret].
  match goal with
  | |- exists e, fst (?m ?x) = Throw e => change (throwsAt m x)
  end.
  destruct (mapR toPage items) as [pages|e] eqn:Emap.
  - destruct Hbad as [Hfile|Hdet].
    + destruct (toPage_without_file bad Hfile) as [e He].
      destruct (mapR_throws toPage items bad e Hin He) as [e' He'].
      rewrite He' in Emap. discriminate.
    + apply throwsAt_bind. intros ps w1 E. cbn [lift asArray rbind] in E.
      apply throwsAt_bind. intros _ w2 _.
      apply throwsAt_bind_first.
      apply (renderDetections_unusable items bad Hin).
      apply appendRows_unusable. exact Hdet.
  - apply throwsAt_bind_first. cbn [asArray rbind]. rewrite Emap.
    exists e. reflexivity.
Qed.

(** C5.  A retrieval attempt ends in the Error state whenever the
    response is one of these: no response at all (a network error); a
    status outside 200-299, whatever the body; a body that is not
    JSON; a JSON body that is not an array; an array with an entry
    that is not an object with a string [file]; an array with an
    entry whose [detections] is missing or [null], or holds a
    detection that is [null] or has no number for [confidence].  The
    gallery then holds the "Unable to load report" paragraph and
    nothing else, the detections table the "Report not available."
    row and nothing else, and the summary is cleared: nothing of what
    the attempt painted before it failed remains.  The attempt itself
    does not throw, and it leaves the status line and the file
    selection alone. *)
Theorem failed_load_shows_error_state (net : Network) (w : World) :
  match net (requests w) reportRequest with
  | Rejected _ => True
  | Responded status body =>
      responseOk status = false
      \/ (exists e, body = NotJson e)
      \/ (exists v, body = Json v /\ forall items, v <> VArr items)
      \/ (exists items bad,
            body = Json (VArr items) /\ In bad items
            /\ ((forall members s,
                    bad = VObj members -> getOwn "file" members <> Some (VStr s))
                \/ (exists members,
                      bad = VObj members
                      /\ (getOwn "detections" members = None
                          \/ getOwn "detections" members = Some VNull
                          \/ exists ds detection,
                               getOwn "detections" members = Some (VArr ds)
                               /\ In detection ds
                               /\ (detection = VNull
                                   \/ exists dm,
                                        detection = VObj dm
                                        /\ forall n, getOwn "confidence" dm
                                                     <> Some (VNum n))))))
  end ->
  ErrorState (exec (loadReport net) w)
  /\ fst (loadReport net w) = Ok tt
  /\ uploadStatus (exec (loadReport net) w) = uploadStatus w
  /\ fileInput (exec (loadReport net) w) = fileInput w.
Proof.
  intros H.
  split; [|split; [apply loadReport_returns|split]].
  - apply loadReport_on_failure.
    destruct (net (requests w) reportRequest) as [e|status body] eqn:Hnet.
    + apply named_failures_fail. rewrite Hnet. exact I.
    + destruct H as [H|[H|[H|(items & bad & -> & Hin & Hbad)]]].
      * apply named_failures_fail. rewrite Hnet. left. exact H.
      * apply named_failures_fail. rewrite Hnet. right. left. exact H.
      * apply named_failures_fail. rewrite Hnet. right. right. exact H.
      * apply (unusable_entry_fails net w status items bad Hnet Hin Hbad).
  - apply (loadReport_frame uploadStatus); reflexivity.
  - apply (loadReport_frame fileInput); reflexivity.
Qed.

(** The gallery is painted from a good first entry before
    [renderDetections] meets the text that the second has for a
    confidence; nothing of it is left. *)
Lemma failed_load_shows_error_state_witness :
  ErrorState
    (exec (loadReport (always (Responded 200 (Json (VArr
             [ jsonEntry {| file := "a/inv.pdf"; page := 1; language := "en";
                            image_path := None; detections := [] |};
               VObj [("file", VStr "a/inv.pdf"); ("page", VNum (NInt 2));
                     ("language", VStr "en");
                     ("detections",
                      VArr [VObj [("type", VStr "EMAIL");
                                  ("text_sample", VStr "a@b.example");
                                  ("confidence", VStr "0.97")]])] ])))))
          (initialWorld []))
  /\ fst (loadReport (always (Responded 200 (Json (VArr
             [ jsonEntry {| file := "a/inv.pdf"; page := 1; language := "en";
                            image_path := None; detections := [] |};
               VObj [("file", VStr "a/inv.pdf"); ("page", VNum (NInt 2));
                     ("language", VStr "en");
                     ("detections",
                      VArr [VObj [("type", VStr "EMAIL");
                                  ("text_sample", VStr "a@b.example");
                                  ("confidence", VStr "0.97")]])] ]))))
            (initialWorld [])) = Ok tt
  /\ uploadStatus
       (exec (loadReport (always (Responded 200 (Json (VArr
             [ jsonEntry {| file := "a/inv.pdf"; page := 1; language := "en";
                            image_path := None; detections := [] |};
               VObj [("file", VStr "a/inv.pdf"); ("page", VNum (NInt 2));
                     ("language", VStr "en");
                     ("detections",
                      VArr [VObj [("type", VStr "EMAIL");
                                  ("text_sample", VStr "a@b.example");
                                  ("confidence", VStr "0.97")]])] ])))))
          (initialWorld [])) = uploadStatus (initialWorld [])
  /\ fileInput
       (exec (loadReport (always (Responded 200 (Json (VArr
             [ jsonEntry {| file := "a/inv.pdf"; page := 1; language := "en";
                            image_path := None; detections := [] |};
               VObj [("file", VStr "a/inv.pdf"); ("page", VNum (NInt 2));
                     ("language", VStr "en");
                     ("detections",
                      VArr [VObj [("type", VStr "EMAIL");
                                  ("text_sample", VStr "a@b.example");
                                  ("confidence", VStr "0.97")]])] ])))))
          (initialWorld [])) = fileInput (initialWorld []).
Proof.
  apply (failed_load_shows_error_state
           (always (Responded 200 (Json (VArr
             [ jsonEntry {| file := "a/inv.pdf"; page := 1; language := "en";
                            image_path := None; detections := [] |};
               VObj [("file", VStr "a/inv.pdf"); ("page", VNum (NInt 2));
                     ("language", VStr "en");
                     ("detections",
                      VArr [VObj [("type", VStr "EMAIL");
                                  ("text_sample", VStr "a@b.example");
                                  ("confidence", VStr "0.97")]])] ]))))
           (initialWorld [])).
  cbn [always]. right. right. right. eexists. eexists.
  split; [reflexivity|]. split; [right; left; reflexivity|].
  right. eexists. split; [reflexivity|]. right. right.
  eexists. eexists. split; [reflexivity|]. split; [left; reflexivity|].
  right. eexists. split; [reflexivity|]. intros n. discriminate.
Defined.

(** A body that is not valid per the schema and yet fails nowhere: an
    entry without [page] and [language] whose [detections] is the
    empty text.  Its length is zero, so no row is asked of it;
    [flatMap] keeps the text as one detection, whose [type] is
    [undefined].  The page shows a card for "Page undefined" and a
    pill "undefined: 1", not the Error state. *)
Lemma failed_load_invalid_body_painted :
  gallery (exec (loadReport (always (Responded 200 (Json (VArr
             [VObj [("file", VStr "a/inv.pdf"); ("detections", VStr "")]])))))
             (initialWorld []))
  = {| markup := "";
       appended :=
         [{| tagName := "div"; className := "card";
             content := InnerHTML (cardHTML "/out/redacted_images/inv_undefined.png"
                                            "inv.pdf · Page undefined"
                                            "inv.pdf · Page undefined") |}] |}
  /\ detectionsBody (exec (loadReport (always (Responded 200 (Json (VArr
             [VObj [("file", VStr "a/inv.pdf"); ("detections", VStr "")]])))))
             (initialWorld []))
     = setInnerHTML NO_DETECTIONS
  /\ summary (exec (loadReport (always (Responded 200 (Json (VArr
             [VObj [("file", VStr "a/inv.pdf"); ("detections", VStr "")]])))))
             (initialWorld []))
     = {| markup := ""; appended := [pill ("undefined", CNum 1)] |}
  /\ ~ ErrorState (exec (loadReport (always (Responded 200 (Json (VArr
             [VObj [("file", VStr "a/inv.pdf"); ("detections", VStr "")]])))))
             (initialWorld [])).
Proof.
  split; [reflexivity|]. split; [reflexivity|]. split; [reflexivity|].
  intros [H _]. vm_compute in H. discriminate H.
Qed.

(** ** The other ways an upload ends *)

Lemma onSubmit_rejected (net : Network) (w : World) (file : File) (others : list File)
      (e : Error) :
  fileInput w = file :: others ->
  net (requests w) (uploadRequest file) = Rejected e ->
  onSubmit net w
  = (Ok tt, withUploadStatus ("Error: " ++ message e) (uploadSent file w)).
Proof.
  intros Hfile Hnet. unfold onSubmit. rewrite Hfile.
  unfold bind at 1. cbn [modify]. unfold tryCatch, awaitFetch.
  unfold bind at 1 2 3. unfold fetch.
  cbn [requests withUploadStatus]. rewrite Hnet. reflexivity.
Qed.

Lemma onSubmit_ok_throws (net : Network) (w : World) (file : File) (others : list File)
      (status : nat) (body : Body) (e : Error) :
  fileInput w = file :: others ->
  net (requests w) (uploadRequest file) = Responded status body ->
  responseOk status = true ->
  pagesText body = Throw e ->
  onSubmit net w
  = (Ok tt, withUploadStatus ("Error: " ++ message e) (uploadSent file w)).
Proof.
  intros Hfile Hnet Hok Hpages. unfold onSubmit. rewrite Hfile.
  unfold bind at 1. cbn [modify]. unfold tryCatch, awaitFetch.
  unfold bind at 1 2 3. unfold fetch.
  cbn [requests withUploadStatus]. rewrite Hnet. cbn [ret fst snd].
  rewrite Hok. cbn [negb ret]. unfold bind at 1.
  destruct body as [e0|data]; cbn [pagesText] in Hpages.
  - inversion Hpages; subst. reflexivity.
  - cbn [responseJson ret]. unfold bind at 1. cbn [lift]. rewrite Hpages.
    reflexivity.
Qed.

Lemma onSubmit_ok_json (net : Network) (w : World) (file : File) (others : list File)
      (status : nat) (body : Body) (pages : string) :
  fileInput w = file :: others ->
  net (requests w) (uploadRequest file) = Responded status body ->
  responseOk status = true ->
  pagesText body = Ok pages ->
  onSubmit net w = (Ok tt, exec (loadReport net) (uploadProcessed file pages w)).
Proof.
  intros Hfile Hnet Hok Hpages.
  destruct body as [e0|data]; [discriminate|].
  apply (onSubmit_ok net w file others status data); assumption.
Qed.

(** X6.  When the upload request itself fails (no response at all),
    the status line shows "Error: " and the message of the failure;
    the request was sent once, no reload follows, and the report view
    and the file selection are as before. *)
Theorem upload_network_failure (net : Network) (w : World) (file : File)
        (others : list File) (e : Error) :
  fileInput w = file :: others ->
  net (requests w) (uploadRequest file) = Rejected e ->
  uploadStatus (exec (onSubmit net) w) = "Error: " ++ message e
  /\ requests (exec (onSubmit net) w) = (requests w ++ [uploadRequest file])%list
  /\ reportView (exec (onSubmit net) w) = reportView w
  /\ fileInput (exec (onSubmit net) w) = fileInput w.
Proof.
  intros Hfile Hnet. unfold exec.
  rewrite (onSubmit_rejected net w file others e Hfile Hnet). repeat split.
Qed.

Lemma upload_network_failure_witness :
  let net := always (Rejected (TypeError "Failed to fetch")) in
  let file := {| fileName := "invoice.pdf"; bytes := [] |} in
  let w := initialWorld [file] in
  uploadStatus (exec (onSubmit net) w) = "Error: Failed to fetch"
  /\ requests (exec (onSubmit net) w) = (requests w ++ [uploadRequest file])%list
  /\ reportView (exec (onSubmit net) w) = reportView w
  /\ fileInput (exec (onSubmit net) w) = fileInput w.
Proof.
  apply (upload_network_failure (always (Rejected (TypeError "Failed to fetch")))
           (initialWorld [{| fileName := "invoice.pdf"; bytes := [] |}])
           {| fileName := "invoice.pdf"; bytes := [] |} []
           (TypeError "Failed to fetch")); reflexivity.
Defined.

(** X7.  A success status does not make the upload a success: when
    the body is not JSON, or is [null], the handler lands in its
    [catch]; the status line shows "Error: " and the message thrown,
    the file selection is not cleared and the report is not
    reloaded. *)
Theorem upload_ok_unusable_body (net : Network) (w : World) (file : File)
        (others : list File) (status : nat) (body : Body) :
  fileInput w = file :: others ->
  net (requests w) (uploadRequest file) = Responded status body ->
  responseOk status = true ->
  (exists e, body = NotJson e) \/ body = Json VNull ->
  (exists e, pagesText body = Throw e
             /\ uploadStatus (exec (onSubmit net) w) = "Error: " ++ message e)
  /\ fileInput (exec (onSubmit net) w) = fileInput w
  /\ reportView (exec (onSubmit net) w) = reportView w
  /\ requests (exec (onSubmit net) w) = (requests w ++ [uploadRequest file])%list.
Proof.
  intros Hfile Hnet Hok Hbody.
  assert (Hthrow : exists e, pagesText body = Throw e)
    by (destruct Hbody as [[e ->]| ->]; eexists; reflexivity).
  destruct Hthrow as [e He]. unfold exec.
  rewrite (onSubmit_ok_throws net w file others status body e Hfile Hnet Hok He).
  split; [exists e; split; [exact He | reflexivity]|]. repeat split.
Qed.

Lemma upload_ok_unusable_body_witness :
  let net := always (Responded 200 (NotJson (mkError "SyntaxError"
                                               "Unexpected end of JSON input"))) in
  let file := {| fileName := "invoice.pdf"; bytes := [] |} in
  let w := initialWorld [file] in
  (exists e, pagesText (NotJson (mkError "SyntaxError" "Unexpected end of JSON input"))
             = Throw e
             /\ uploadStatus (exec (onSubmit net) w) = "Error: " ++ message e)
  /\ fileInput (exec (onSubmit net) w) = fileInput w
  /\ reportView (exec (onSubmit net) w) = reportView w
  /\ requests (exec (onSubmit net) w) = (requests w ++ [uploadRequest file])%list.
Proof.
  apply (upload_ok_unusable_body
           (always (Responded 200 (NotJson (mkError "SyntaxError"
                                              "Unexpected end of JSON input"))))
           (initialWorld [{| fileName := "invoice.pdf"; bytes := [] |}])
           {| fileName := "invoice.pdf"; bytes := [] |} [] 200
           (NotJson (mkError "SyntaxError" "Unexpected end of JSON input")));
    try reflexivity.
  left. eexists. reflexivity.
Defined.

(** X8.  A success body that is an object without [pages] is still a
    success: the status line reads "Processed undefined page(s).", the
    file selection is cleared and the report is reloaded. *)
Theorem upload_ok_missing_pages (net : Network) (w : World) (file : File)
        (others : list File) (status : nat) (members : list (string * value)) :
  fileInput w = file :: others ->
  net (requests w) (uploadRequest file) = Responded status (Json (VObj members)) ->
  responseOk status = true ->
  getOwn "pages" members = None ->
  uploadStatus (exec (onSubmit net) w) = "Processed undefined page(s)."
  /\ fileInput (exec (onSubmit net) w) = []
  /\ requests (exec (onSubmit net) w)
     = (requests w ++ [uploadRequest file; reportRequest])%list.
Proof.
  intros Hfile Hnet Hok Hpages. unfold exec.
  rewrite (onSubmit_ok net w file others status (VObj members) "undefined"
             Hfile Hnet Hok)
    by (cbn [get]; rewrite Hpages; reflexivity).
  cbn [snd]. split; [|split].
  - apply (loadReport_frame uploadStatus); reflexivity.
  - apply (loadReport_frame fileInput); reflexivity.
  - rewrite loadReport_requests.
    cbn [requests uploadProcessed uploadSent withFileInput withUploadStatus
           withRequests].
    rewrite <- app_assoc. reflexivity.
Qed.

Lemma upload_ok_missing_pages_witness :
  let net := always (Responded 200 (Json (VObj [("ok", VBool true)]))) in
  let file := {| fileName := "invoice.pdf"; bytes := [] |} in
  let w := initialWorld [file] in
  uploadStatus (exec (onSubmit net) w) = "Processed undefined page(s)."
  /\ fileInput (exec (onSubmit net) w) = []
  /\ requests (exec (onSubmit net) w)
     = (requests w ++ [uploadRequest file; reportRequest])%list.
Proof.
  apply (upload_ok_missing_pages
           (always (Responded 200 (Json (VObj [("ok", VBool true)]))))
           (initialWorld [{| fileName := "invoice.pdf"; bytes := [] |}])
           {| fileName := "invoice.pdf"; bytes := [] |} [] 200
           [("ok", VBool true)]); reflexivity.
Defined.

(** X9.  The submit handler never throws, and it ends in one of
    three ways only: the plea for a file, with nothing sent; an
    "Error: ..." status after the one POST, with everything else
    untouched; or a "Processed ..." status with the selection cleared,
    followed by a reload.  The file sent is the first one selected. *)
Theorem onSubmit_outcomes (net : Network) (w : World) :
  fst (onSubmit net w) = Ok tt
  /\ match fileInput w with
     | [] => exec (onSubmit net) w
             = withUploadStatus "Please select a file to upload." w
     | file :: _ =>
         (exists msg, exec (onSubmit net) w
                      = withUploadStatus ("Error: " ++ msg) (uploadSent file w))
         \/ (exists pages, exec (onSubmit net) w
                           = exec (loadReport net) (uploadProcessed file pages w))
     end.
Proof.
  unfold exec. destruct (fileInput w) as [|file others] eqn:Hfile.
  - rewrite (onSubmit_no_file net w Hfile). split; reflexivity.
  - destruct (net (requests w) (uploadRequest file)) as [e|status body] eqn:Hnet.
    + rewrite (onSubmit_rejected net w file others e Hfile Hnet).
      split; [reflexivity | left; eexists; reflexivity].
    + destruct (responseOk status) eqn:Hok.
      * destruct (pagesText body) as [pages|e] eqn:Hpages.
        -- rewrite (onSubmit_ok_json net w file others status body pages
                      Hfile Hnet Hok Hpages).
           split; [reflexivity | right; eexists; reflexivity].
        -- rewrite (onSubmit_ok_throws net w file others status body e
                      Hfile Hnet Hok Hpages).
           split; [reflexivity | left; eexists; reflexivity].
      * rewrite (onSubmit_not_ok net w file others status body Hfile Hnet Hok).
        split; [reflexivity | left; eexists; reflexivity].
Qed.

(** ** The view of a report, region by region *)

(** X10.  A retrieval of a well-formed report paints the three
    regions from the report alone: one card per entry, in order, with
    the explicit image location when it is not empty and the derived
    one otherwise; one row per detection, in the order of the report,
    or the placeholder row; and one pill per key of the counts taken
    over the detections of all entries together. *)
Theorem served_report_view (entries : list ReportEntry) (w : World) :
  reportView (exec (loadReport (serving entries)) w)
  = (galleryOf entries, detectionsOf entries, summaryOf (allDetections entries)).
Proof. unfold exec. rewrite loadReport_serving. reflexivity. Qed.

Lemma rows_nil_iff (entries : list ReportEntry) :
  flat_map rowsOf entries = [] <-> allDetections entries = [].
Proof.
  unfold allDetections.
  induction entries as [|e entries IH]; cbn [flat_map]; [tauto|].
  split; intros H; apply app_eq_nil in H as [H1 H2].
  - unfold rowsOf in H1. apply map_eq_nil in H1.
    rewrite H1. apply IH. exact H2.
  - apply IH in H2. rewrite H2. unfold rowsOf. rewrite H1. reflexivity.
Qed.

(** X11.  The detections table shows the "No detections in report."
    row exactly when the report holds no detection at all, be it empty
    or made of entries without detections; otherwise it shows the rows
    of the detections and no placeholder. *)
Theorem detections_placeholder_iff_no_detection (entries : list ReportEntry) (w : World) :
  (allDetections entries = [] ->
   detectionsBody (exec (renderDetections (jsonReport entries)) w)
   = setInnerHTML NO_DETECTIONS)
  /\ (allDetections entries <> [] ->
      detectionsBody (exec (renderDetections (jsonReport entries)) w)
      = appendAll blankRegion (flat_map rowsOf entries)
      /\ flat_map rowsOf entries <> []).
Proof.
  unfold exec. rewrite renderDetections_report.
  cbn [snd detectionsBody withDetectionsBody]. unfold detectionsOf. split.
  - intros H. apply rows_nil_iff in H. rewrite H. reflexivity.
  - intros H.
    destruct (flat_map rowsOf entries) as [|row rows] eqn:E.
    + destruct H. apply rows_nil_iff. exact E.
    + split; [reflexivity | discriminate].
Qed.

Lemma asArray_ok (v : value) (method : string) (items : list value) :
  asArray v method = Ok items -> v = VArr items.
Proof. destruct v; cbn; intros H; inversion H; reflexivity. Qed.

Lemma appendCard_ok (page : value) (w w' : World) :
  appendCard page w = (Ok tt, w') ->
  exists card, w' = withGallery (appendChild (gallery w) card) w.
Proof.
  unfold appendCard, bind, lift, modify.
  destruct (rbind (get page "imagePath") _); [|discriminate].
  destruct (rbind (get page "label") _); [|discriminate].
  intros H. inversion H. eauto.
Qed.

Lemma forEach_appendCard_ok (items : list value) (w w' : World) :
  forEach appendCard items w = (Ok tt, w') ->
  markup (gallery w') = markup (gallery w)
  /\ List.length (appended (gallery w'))
     = (List.length (appended (gallery w)) + List.length items)%nat.
Proof.
  revert w. induction items as [|x items IH]; intros w H.
  - inversion H. split; [reflexivity | cbn; lia].
  - cbn [forEach] in H. unfold bind in H.
    destruct (appendCard x w) as [[[]|e] w1] eqn:E; [|discriminate].
    apply appendCard_ok in E as [card ->].
    apply IH in H as [H1 H2]. rewrite H1, H2.
    cbn [gallery withGallery appendChild markup appended List.length].
    rewrite length_app. cbn [List.length]. split; [reflexivity | lia].
Qed.

(** X12.  When [renderGallery] returns, the gallery holds either the
    "No redacted pages found." paragraph alone, or no markup of its
    own and exactly one card per page of a non-empty array: never
    both, and never nothing. *)
Theorem renderGallery_shape (pages : value) (w : World) :
  fst (renderGallery pages w) = Ok tt ->
  gallery (exec (renderGallery pages) w) = setInnerHTML NO_PAGES
  \/ exists items,
       pages = VArr items /\ items <> []
       /\ markup (gallery (exec (renderGallery pages) w)) = ""
       /\ List.length (appended (gallery (exec (renderGallery pages) w)))
          = List.length items.
Proof.
  unfold exec, renderGallery, bind. cbn [modify lift].
  destruct (lengthOf pages) as [len|e] eqn:Elen; [|discriminate].
  destruct (truthy len) eqn:Et; cbn [negb]; [|left; reflexivity].
  destruct (asArray pages "forEach") as [items|e] eqn:Ea; [|discriminate].
  apply asArray_ok in Ea. subst pages.
  destruct (forEach appendCard items _) as [[[]|e] w'] eqn:Ef; [|discriminate].
  intros _. right. exists items.
  apply forEach_appendCard_ok in Ef as [H1 H2]. cbn [fst snd].
  repeat split; [|exact H1|exact H2].
  intros ->. cbn in Elen. inversion Elen; subst. discriminate.
Qed.

Lemma renderGallery_shape_witness :
  gallery (exec (renderGallery (VArr [])) (initialWorld [])) = setInnerHTML NO_PAGES
  \/ exists items,
       VArr [] = VArr items /\ items <> []
       /\ markup (gallery (exec (renderGallery (VArr [])) (initialWorld []))) = ""
       /\ List.length (appended (gallery (exec (renderGallery (VArr []))
                                            (initialWorld []))))
          = List.length items.
Proof.
  apply (renderGallery_shape (VArr []) (initialWorld [])). reflexivity.
Defined.

Lemma forEach_appendRows_markup (items : list value) :
  preserves (fun w => markup (detectionsBody w)) (forEach appendRows items).
Proof.
  unfold appendRows, appendRow.
  repeat first
    [ apply preserves_modify; intros; reflexivity
    | frame_step ].
Qed.

(** X13.  When [renderDetections] returns, on any input, the table
    body holds either the "No detections in report." row alone or no
    markup of its own and at least one appended row: it is never left
    empty, also when entries are there and none has a detection. *)
Theorem renderDetections_shape (entries : value) (w : World) :
  fst (renderDetections entries w) = Ok tt ->
  detectionsBody (exec (renderDetections entries) w) = setInnerHTML NO_DETECTIONS
  \/ (markup (detectionsBody (exec (renderDetections entries) w)) = ""
      /\ appended (detectionsBody (exec (renderDetections entries) w)) <> []).
Proof.
  unfold exec, renderDetections, bind. cbn [modify lift].
  destruct (lengthOf entries) as [len|e]; [|discriminate].
  destruct (truthy len); cbn [negb]; [|left; reflexivity].
  destruct (asArray entries "forEach") as [items|e]; [|discriminate].
  pose proof (forEach_appendRows_markup items
                (withDetectionsBody (setInnerHTML "") w)) as Hm.
  destruct (forEach appendRows items _) as [[[]|e] w'] eqn:Ef; [|discriminate].
  cbn [snd] in Hm. cbn [detectionsBody withDetectionsBody setInnerHTML markup] in Hm.
  unfold placeholderIfNoRows.
  destruct (appended (detectionsBody w')) as [|row rows] eqn:Er; intros _.
  - left. reflexivity.
  - right. cbn [ret snd]. rewrite Er. split; [exact Hm | discriminate].
Qed.

Lemma renderDetections_shape_witness :
  detectionsBody (exec (renderDetections (VArr [VObj [("detections", VArr [])]]))
                    (initialWorld []))
  = setInnerHTML NO_DETECTIONS
  \/ (markup (detectionsBody (exec (renderDetections
                                     (VArr [VObj [("detections", VArr [])]]))
                                 (initialWorld []))) = ""
      /\ appended (detectionsBody (exec (renderDetections
                                     (VArr [VObj [("detections", VArr [])]]))
                                 (initialWorld []))) <> []).
Proof.
  apply (renderDetections_shape (VArr [VObj [("detections", VArr [])]])
           (initialWorld [])).
  reflexivity.
Defined.

(** ** The shape of a derived path *)

Lemma filler_zeros (n : nat) :
  filler "0" EmptyString n = zeros n /\ filler "0" "0" n = zeros n.
Proof.
  induction n as [|n [IH1 IH2]]; [split; reflexivity|].
  cbn [filler zeros]. rewrite IH1. split; reflexivity.
Qed.

Lemma codeUnits_zeros (n : nat) : codeUnits (zeros n) = n.
Proof. induction n as [|n IH]; cbn; [reflexivity | now rewrite IH]. Qed.

Lemma padStart_zeros (s : string) :
  padStart 3 "0" s = zeros (3 - codeUnits s) ++ s.
Proof.
  unfold padStart. destruct (3 <=? codeUnits s)%nat eqn:E.
  - apply Nat.leb_le in E. replace (3 - codeUnits s)%nat with 0%nat by lia.
    reflexivity.
  - rewrite (proj2 (filler_zeros _)). reflexivity.
Qed.

(** X14.  Whatever the page is, when [formatPage] returns, its result
    is the text of the page with zeros in front up to three UTF-16
    code units, the units that [padStart] counts: never shorter than
    three, never cut, and longer than three exactly when the text of
    the page is.  Text beyond ASCII is padded by its code units, not
    by the bytes that hold it. *)
Theorem formatPage_shape (page : value) (s : string) :
  formatPage page = Ok s ->
  exists text,
    ToString page = Ok text
    /\ s = zeros (3 - codeUnits text) ++ text
    /\ codeUnits s = Nat.max 3 (codeUnits text).
Proof.
  unfold formatPage. destruct (ToString page) as [text|e]; [|discriminate].
  cbn [rbind]. intros H. inversion H as [Hs]. exists text.
  rewrite padStart_zeros. repeat split.
  rewrite codeUnits_append, codeUnits_zeros. lia.
Qed.

Lemma formatPage_shape_witness :
  exists text,
    ToString (VStr "é") = Ok text
    /\ "00é" = zeros (3 - codeUnits text) ++ text
    /\ codeUnits "00é" = Nat.max 3 (codeUnits text).
Proof.
  apply (formatPage_shape (VStr "é") "00é"). reflexivity.
Defined.

(** X15.  [buildImagePath] returns exactly when [filePath] is a string
    and the page can be turned into text; on any [filePath] that is
    not a string it throws a TypeError. *)
Theorem buildImagePath_defined (page : value) :
  (forall filePath,
     (exists path, buildImagePath (VStr filePath) page = Ok path)
     <-> (exists text, ToString page = Ok text))
  /\ (forall v, (forall filePath, v <> VStr filePath) ->
                exists msg, buildImagePath v page = Throw (TypeError msg)).
Proof.
  split.
  - intros filePath. split.
    + intros [path H]. unfold buildImagePath, popValue in H.
      cbn [callSplit rbind] in H. rewrite pop_split in H.
      cbn [callSplit rbind] in H. unfold formatPage in H.
      destruct (ToString page) as [text|e]; [eauto | discriminate].
    + intros [text H]. eexists. apply buildImagePath_stem.
      unfold formatPage. rewrite H. reflexivity.
  - intros v Hv.
    destruct v as [| |b|n|s|items|members]; try (eexists; reflexivity).
    destruct (Hv s eq_refl).
Qed.

Lemma contains_append (c : ascii) (a b : string) :
  contains c (a ++ b) = contains c a || contains c b.
Proof.
  induction a as [|x a IH]; cbn [append contains]; [reflexivity|].
  rewrite IH, orb_assoc. reflexivity.
Qed.

Lemma contains_afterLast (c : ascii) (s : string) : contains c (afterLast c s) = false.
Proof.
  induction s as [|a rest IH]; [reflexivity|]. cbn [afterLast].
  destruct (contains c rest) eqn:Hrest; [exact IH|].
  destruct (Ascii.eqb a c) eqn:Ha; [exact Hrest|].
  cbn [contains]. rewrite Ha, Hrest. reflexivity.
Qed.

Lemma contains_beforeLast (c d : ascii) (s : string) :
  contains c s = false -> contains c (beforeLast d s) = false.
Proof.
  induction s as [|a rest IH]; [reflexivity|]. cbn [contains beforeLast].
  intros H. apply orb_false_iff in H as [Ha Hrest].
  destruct (contains d rest); [|reflexivity].
  cbn [contains]. rewrite Ha, (IH Hrest). reflexivity.
Qed.

Lemma contains_zeros (n : nat) : contains "/" (zeros n) = false.
Proof. induction n as [|n IH]; [reflexivity | exact IH]. Qed.

Lemma digit_not_slash (d : Z) : 0 <= d <= 9 -> Ascii.eqb (digit d) "/" = false.
Proof.
  intros Hd. apply Ascii.eqb_neq. intros E.
  pose proof (nat_of_digit d Hd) as H. rewrite E in H.
  change (Z.of_nat (nat_of_ascii "/")) with 47 in H. lia.
Qed.

Lemma contains_decimal (n : Z) : 0 <= n -> contains "/" (decimal n) = false.
Proof.
  intros H0. pattern n. apply Zlt_0_ind; [|exact H0]. clear n H0.
  intros n IH Hn.
  destruct (Z_lt_le_dec n 10) as [Hs|Hb].
  - rewrite decimal_digit by lia. cbn [contains].
    rewrite digit_not_slash by lia. reflexivity.
  - rewrite decimal_step, contains_append by lia.
    assert (0 <= n / 10) by (apply Z.div_pos; lia).
    assert (n / 10 < n) by (apply Z.div_lt; lia).
    rewrite IH by lia. cbn [contains orb].
    pose proof (Z.mod_pos_bound n 10 ltac:(lia)).
    rewrite digit_not_slash by lia. reflexivity.
Qed.

(** X16.  Whatever directories the file path names, the derived
    location is a file directly under the image root: what follows
    [IMAGE_ROOT/] holds no further [/]. *)
Theorem buildImagePath_under_image_root (filePath : string) (page : Z) :
  0 <= page <= MAX_SAFE_INTEGER ->
  exists fileName,
    buildImagePath (VStr filePath) (VNum (NInt page))
    = Ok (IMAGE_ROOT ++ "/" ++ fileName)
    /\ contains "/" fileName = false.
Proof.
  intros Hp.
  exists (beforeLast "." (finalSegment filePath) ++ "_"
            ++ padStart 3 "0" (decimal page) ++ ".png").
  split.
  - apply buildImagePath_stem. apply formatPage_safe. exact Hp.
  - rewrite padStart_zeros, !contains_append.
    rewrite contains_beforeLast by apply contains_afterLast.
    rewrite contains_zeros, contains_decimal by lia. reflexivity.
Qed.

Lemma buildImagePath_under_image_root_witness :
  exists fileName,
    buildImagePath (VStr "../../etc/passwd.d/x.y") (VNum (NInt 7))
    = Ok (IMAGE_ROOT ++ "/" ++ fileName)
    /\ contains "/" fileName = false.
Proof.
  apply (buildImagePath_under_image_root "../../etc/passwd.d/x.y" 7).
  unfold MAX_SAFE_INTEGER. lia.
Defined.

(** ** The keys of the counts, whatever the types *)

Lemma updateOrAppend_keys (t : string) (v : CountValue) (acc : CountObject) :
  map fst (updateOrAppend t v acc)
  = if mem t (map fst acc) then map fst acc else (map fst acc ++ [t])%list.
Proof.
  induction acc as [|[k v0] acc IH]; [reflexivity|].
  cbn [updateOrAppend map fst]. rewrite mem_cons, (String.eqb_sym t k).
  destruct (String.eqb k t); cbn [orb map fst]; [reflexivity|].
  rewrite IH. destruct (mem t (map fst acc)); reflexivity.
Qed.

Lemma countType_keys (acc : CountObject) (t : string) :
  map fst (countType acc t)
  = if String.eqb t "__proto__" || mem t (map fst acc)
    then map fst acc else (map fst acc ++ [t])%list.
Proof.
  unfold countType, setCount.
  destruct (String.eqb t "__proto__"); [reflexivity|].
  apply updateOrAppend_keys.
Qed.

Lemma countTypes_keys (types : list string) :
  NoDup (map fst (countTypes types))
  /\ (forall k, In k (map fst (countTypes types))
                <-> In k types /\ k <> "__proto__")
  /\ (List.length (countTypes types) <= List.length types)%nat.
Proof.
  induction types as [|t l (Hnd & Hin & Hlen)] using rev_ind.
  - repeat split; cbn; try constructor; try tauto; intros [[] _].
  - unfold countTypes in *. rewrite fold_left_app. cbn [fold_left].
    set (acc := fold_left countType l []) in *.
    pose proof (countType_keys acc t) as Hk.
    assert (Hl : List.length (countType acc t) = List.length (map fst (countType acc t)))
      by (symmetry; apply length_map).
    rewrite Hl, Hk, length_app. cbn [List.length]. clear Hl Hk.
    destruct (String.eqb t "__proto__") eqn:Ep; cbn [orb].
    + apply String.eqb_eq in Ep. subst t. rewrite length_map.
      split; [exact Hnd|]. split; [|lia]. intros k. split.
      * intros Hk. apply Hin in Hk as [H1 H2]. split; [apply in_or_app; auto | exact H2].
      * intros [H1 H2]. apply Hin. split; [|exact H2].
        apply in_app_or in H1 as [H1|[H1|[]]]; [exact H1 | congruence].
    + apply String.eqb_neq in Ep.
      destruct (mem t (map fst acc)) eqn:Em.
      * apply mem_In in Em. rewrite length_map.
        split; [exact Hnd|]. split; [|lia]. intros k. split.
        -- intros Hk. apply Hin in Hk as [H1 H2].
           split; [apply in_or_app; auto | exact H2].
        -- intros [H1 H2]. apply in_app_or in H1 as [H1|[H1|[]]].
           ++ apply Hin. auto.
           ++ subst k. exact Em.
      * assert (Hnot : ~ In t (map fst acc)).
        { intros H. apply mem_In in H. congruence. }
        rewrite length_app, length_map. cbn [List.length].
        split; [|split; [|lia]].
        -- apply NoDup_app; [exact Hnd | repeat constructor; intros [] | ].
           intros k Hk [E|[]]. subst k. contradiction.
        -- intros k. split.
           ++ intros Hk. apply in_app_or in Hk as [Hk|[Hk|[]]].
              ** apply Hin in Hk as [H1 H2].
                 split; [apply in_or_app; auto | exact H2].
              ** subst k. split; [apply in_or_app; right; left; reflexivity | exact Ep].
           ++ intros [H1 H2]. apply in_or_app.
              apply in_app_or in H1 as [H1|[H1|[]]].
              ** left. apply Hin. auto.
              ** right. left. exact H1.
Qed.

Lemma filter_partition_perm {A : Type} (p : A -> bool) (l : list A) :
  Permutation (filter p l ++ filter (fun x => negb (p x)) l) l.
Proof.
  induction l as [|x l IH]; [reflexivity|]. cbn [filter].
  destruct (p x); cbn [negb app].
  - apply perm_skip. exact IH.
  - symmetry. apply Permutation_cons_app. symmetry. exact IH.
Qed.

Lemma ObjectEntries_perm (acc : CountObject) : Permutation (ObjectEntries acc) acc.
Proof.
  destruct (ObjectEntries_order acc) as (indexed & -> & _ & Hp).
  rewrite <- (filter_partition_perm isIndex acc) at 2.
  apply Permutation_app_tail.
  rewrite (Permutation_map snd Hp), map_map. cbn [snd]. rewrite map_id. reflexivity.
Qed.

(** X17.  For every stream of detections, whatever their types, the
    summary shows each type at most once, shows a pill for every type
    of the stream but [__proto__] and for nothing else, and so never
    more pills than there are detections. *)
Theorem summary_pill_keys (ds : list Detection) (w : World) :
  exists entries,
    summary (exec (renderSummary (VArr (map jsonDetection ds))) w)
    = appendAll blankRegion (map pill entries)
    /\ NoDup (map fst entries)
    /\ (forall t, In t (map fst entries) <-> In t (map type ds) /\ t <> "__proto__")
    /\ (List.length entries <= List.length ds)%nat.
Proof.
  exists (ObjectEntries (countTypes (map type ds))).
  unfold exec. rewrite renderSummary_report.
  destruct (countTypes_keys (map type ds)) as (Hnd & Hin & Hlen).
  pose proof (ObjectEntries_perm (countTypes (map type ds))) as Hp.
  split; [reflexivity|]. split; [|split].
  - apply (Permutation_NoDup (l := map fst (countTypes (map type ds))));
      [apply Permutation_map; symmetry; exact Hp | exact Hnd].
  - intros t. rewrite <- Hin. split; apply Permutation_in, Permutation_map.
    + exact Hp.
    + symmetry. exact Hp.
  - rewrite (Permutation_length Hp). rewrite length_map in Hlen. exact Hlen.
Qed.

(** ** Refreshing against a server that does not change *)

Lemma viewOnly_ret {A : Type} (a : A) : viewOnly (ret a).
Proof. intros w w' H. split; [reflexivity | exact H]. Qed.

Lemma viewOnly_throw {A : Type} (e : Error) : viewOnly (@throw A e).
Proof. intros w w' H. split; [reflexivity | exact H]. Qed.

Lemma viewOnly_lift {A : Type} (r : result A) : viewOnly (lift r).
Proof. intros w w' H. split; [reflexivity | exact H]. Qed.

Lemma viewOnly_modify (h : World -> World) :
  (forall w w', sameView w w' -> sameView (h w) (h w')) -> viewOnly (modify h).
Proof. intros Hh w w' H. split; [reflexivity | apply Hh; exact H]. Qed.

Lemma viewOnly_bind {A B : Type} (m : M A) (k : A -> M B) :
  viewOnly m -> (forall a, viewOnly (k a)) -> viewOnly (bind m k).
Proof.
  intros Hm Hk w w' H. unfold bind. destruct (Hm w w' H) as [Hr Hs].
  destruct (m w) as [[a|e] w1], (m w') as [[a'|e'] w1']; cbn [fst snd] in *;
    try discriminate.
  - inversion Hr; subst. apply Hk. exact Hs.
  - inversion Hr; subst. split; [reflexivity | exact Hs].
Qed.

Lemma viewOnly_tryCatch {A : Type} (m : M A) (h : Error -> M A) :
  viewOnly m -> (forall e, viewOnly (h e)) -> viewOnly (tryCatch m h).
Proof.
  intros Hm Hh w w' H. unfold tryCatch. destruct (Hm w w' H) as [Hr Hs].
  destruct (m w) as [[a|e] w1], (m w') as [[a'|e'] w1']; cbn [fst snd] in *;
    try discriminate.
  - inversion Hr; subst. split; [reflexivity | exact Hs].
  - inversion Hr; subst. apply Hh. exact Hs.
Qed.

Lemma viewOnly_forEach {A : Type} (f : A -> M unit) (l : list A) :
  (forall x, viewOnly (f x)) -> viewOnly (forEach f l).
Proof.
  intros Hf. induction l as [|x l IH]; cbn [forEach].
  - apply viewOnly_ret.
  - apply viewOnly_bind; [apply Hf | intros _; exact IH].
Qed.

Lemma sameView_parts (w w' : World) :
  sameView w w' ->
  gallery w = gallery w' /\ detectionsBody w = detectionsBody w'
  /\ summary w = summary w'.
Proof. unfold sameView, reportView. intros H. inversion H. auto. Qed.

(** Changes of the view that keep two pages showing the same. *)
Ltac same_view :=
  let w := fresh "w" in
  let w' := fresh "w'" in
  let H := fresh "H" in
  intros w w' H; apply sameView_parts in H as (? & ? & ?);
  unfold sameView, reportView;
  cbn [gallery detectionsBody summary withGallery withDetectionsBody withSummary
         withRequests];
  congruence.

Ltac view_step :=
  lazymatch goal with
  | |- viewOnly (ret _) => apply viewOnly_ret
  | |- viewOnly (throw _) => apply viewOnly_throw
  | |- viewOnly (lift _) => apply viewOnly_lift
  | |- viewOnly (modify _) => apply viewOnly_modify; same_view
  | |- viewOnly (bind _ _) => apply viewOnly_bind; [|intros]
  | |- viewOnly (tryCatch _ _) => apply viewOnly_tryCatch; [|intros]
  | |- viewOnly (forEach _ _) => apply viewOnly_forEach; intros
  | |- viewOnly (if ?b then _ else _) => destruct b
  | |- viewOnly (match ?x with _ => _ end) => destruct x
  | |- viewOnly (let _ := _ in _) => cbv zeta
  end.

Lemma placeholderIfNoRows_viewOnly : viewOnly placeholderIfNoRows.
Proof.
  intros w w' H. pose proof (sameView_parts w w' H) as (Hg & Hd & Hs).
  unfold placeholderIfNoRows. rewrite <- Hd.
  destruct (appended (detectionsBody w)); cbn [modify ret fst snd].
  - split; [reflexivity|]. revert H. generalize w w'. same_view.
  - split; [reflexivity | exact H].
Qed.

Lemma awaitFetch_always_viewOnly (out : FetchOutcome) (req : Request) :
  viewOnly (awaitFetch (always out) req).
Proof.
  intros w w' H. unfold awaitFetch, bind, fetch, always.
  destruct out; cbn [throw ret fst snd];
    (split; [reflexivity|]); revert H; generalize w w'; same_view.
Qed.

Lemma tryRender_always_viewOnly (out : FetchOutcome) :
  viewOnly (tryCatch (fetchAndRender (always out)) (fun error => paintUnavailable)).
Proof.
  unfold paintUnavailable, fetchAndRender,
    renderGallery, renderDetections, renderSummary,
    appendCard, appendRows, appendRow, appendPill, responseJson.
  repeat first
    [ apply awaitFetch_always_viewOnly
    | apply placeholderIfNoRows_viewOnly
    | view_step ].
Qed.

(** X18.  Against a server that keeps giving the same answer, a
    refresh shows that answer and nothing of the page it started
    from: any two pages show the same report after it, so a second
    refresh changes nothing of what the first one showed. *)
Theorem refresh_shows_the_answer (out : FetchOutcome) (w w' : World) :
  reportView (exec (onRefresh (always out)) w)
    = reportView (exec (onRefresh (always out)) w')
  /\ reportView (exec (onRefresh (always out)) (exec (onRefresh (always out)) w))
    = reportView (exec (onRefresh (always out)) w).
Proof.
  assert (H : forall a b, reportView (exec (loadReport (always out)) a)
                          = reportView (exec (loadReport (always out)) b)).
  { intros a b. unfold exec, loadReport, bind. rewrite !paintLoading_run.
    apply (tryRender_always_viewOnly out). reflexivity. }
  unfold onRefresh. split; apply H.
Qed.
